(** * Build-automation orchestrator of github-analyzerV2

    A shallow embedding of [src/build_automation.py] (class
    [BuildAutomation]) and of the [BuildInstructions] record of
    [src/models.py], with the properties the design document states
    about language detection, build-system detection, dependency
    analysis, build execution and the failure-recovery cycle.

    Conventions.
    - A Python [str] is a [string]; a character stands for the code
      point of the same number (U+0000 .. U+00FF).
    - A Python value that is either [None] or a list of strings is an
      [option (list string)]; [None] is Python's [None].
    - The file system below the checkout, the process host and the two
      manifest parsers of the standard library ([json.load],
      [toml.load]) are not part of the repository: the checkout is a
      tree value, the others are parameters of the development. *)

From Stdlib Require Import String Ascii List Bool Arith ZArith Lia Permutation.
Import ListNotations.
Open Scope list_scope.
Open Scope string_scope.
Set Warnings "-register-all,-notation-for-abbreviation".

(** ** Python string operations *)

Module PyStr.

(** Code points for which [str.isspace] holds, below U+0100. *)
Definition isspace (c : ascii) : bool :=
  let n := nat_of_ascii c in
  (((9 <=? n) && (n <=? 13)) || ((28 <=? n) && (n <=? 32))
   || (n =? 133) || (n =? 160))%nat.

(** [str.lower] on one code point below U+0100: A-Z, and the Latin-1
    capitals U+00C0 .. U+00DE except the multiplication sign U+00D7. *)
Definition lower_char (c : ascii) : ascii :=
  let n := nat_of_ascii c in
  if (((65 <=? n) && (n <=? 90))
      || ((192 <=? n) && (n <=? 222) && negb (n =? 215)))%nat
  then ascii_of_nat (n + 32) else c.

Fixpoint lower (s : string) : string :=
  match s with
  | EmptyString => EmptyString
  | String c s' => String (lower_char c) (lower s')
  end.

(** [s.startswith(p)], returning the rest of [s] after [p]. *)
Fixpoint strip_prefix (p s : string) : option string :=
  match p with
  | EmptyString => Some s
  | String a p' =>
      match s with
      | EmptyString => None
      | String b s' => if Ascii.eqb a b then strip_prefix p' s' else None
      end
  end.

(** [s.partition(sep)] at the leftmost occurrence of [sep]: the text
    before it and the text after it, [None] when [sep] does not occur. *)
Fixpoint find_first (sep s : string) : option (string * string) :=
  match strip_prefix sep s with
  | Some rest => Some (EmptyString, rest)
  | None =>
      match s with
      | EmptyString => None
      | String c s' =>
          match find_first sep s' with
          | Some (a, b) => Some (String c a, b)
          | None => None
          end
      end
  end.

(** [sep in s] *)
Definition contains (sep s : string) : bool :=
  match find_first sep s with Some _ => true | None => false end.

(** [s.split(sep)] for a non-empty [sep]: cut at the non-overlapping
    occurrences of [sep], scanning from the left.  Every cut leaves a
    strictly shorter rest, so [length s] rounds are enough. *)
Fixpoint split_n (n : nat) (sep s : string) : list string :=
  match n with
  | O => [s]
  | S n' =>
      match find_first sep s with
      | Some (a, b) => a :: split_n n' sep b
      | None => [s]
      end
  end.

Definition split (sep s : string) : list string :=
  split_n (String.length s) sep s.

(** [s.replace(old, new)] for a non-empty [old]. *)
Fixpoint replace_n (n : nat) (old new s : string) : string :=
  match n with
  | O => s
  | S n' =>
      match find_first old s with
      | Some (a, b) => a ++ new ++ replace_n n' old new b
      | None => s
      end
  end.

Definition replace (old new s : string) : string :=
  replace_n (String.length s) old new s.

(** [s.lstrip()], [s.rstrip()], [s.strip()] *)
Fixpoint lstrip (s : string) : string :=
  match s with
  | EmptyString => EmptyString
  | String c s' => if isspace c then lstrip s' else s
  end.

Fixpoint rstrip (s : string) : string :=
  match s with
  | EmptyString => EmptyString
  | String c s' =>
      match rstrip s' with
      | EmptyString => if isspace c then EmptyString else String c EmptyString
      | r => String c r
      end
  end.

Definition strip (s : string) : string := rstrip (lstrip s).

(** Truthiness of a string: [if s:] *)
Definition truthy (s : string) : bool :=
  match s with EmptyString => false | _ => true end.

(** Line boundaries of [str.splitlines], below U+0100. *)
Definition is_linebreak (c : ascii) : bool :=
  let n := nat_of_ascii c in
  (((10 <=? n) && (n <=? 13)) || ((28 <=? n) && (n <=? 30))
   || (n =? 133))%nat.

(** [s.splitlines()]: the lines without their terminators; CR LF is one
    terminator; no empty last line after a final terminator. *)
Fixpoint splitlines (s : string) : list string :=
  match s with
  | EmptyString => []
  | String c s' =>
      if is_linebreak c then
        match c, s' with
        | "013"%char, String "010"%char s'' => EmptyString :: splitlines s''
        | _, _ => EmptyString :: splitlines s'
        end
      else
        match splitlines s' with
        | [] => [String c EmptyString]
        | l :: ls => String c l :: ls
        end
  end.

(** The lines a text-mode file object yields when iterated: cut after
    every LF, terminator kept. *)
Fixpoint file_lines (s : string) : list string :=
  match s with
  | EmptyString => []
  | String c s' =>
      if Ascii.eqb c "010"%char then String c EmptyString :: file_lines s'
      else
        match file_lines s' with
        | [] => [String c EmptyString]
        | l :: ls => String c l :: ls
        end
  end.

(** [s.split()] without a separator: the maximal runs of
    non-whitespace. *)
Fixpoint words_go (cur : string) (s : string) : list string :=
  match s with
  | EmptyString => if truthy cur then [cur] else []
  | String c s' =>
      if isspace c
      then (if truthy cur then cur :: words_go EmptyString s'
            else words_go EmptyString s')
      else words_go (cur ++ String c EmptyString) s'
  end.

Definition words (s : string) : list string := words_go EmptyString s.

(** [os.path.join(a, b)] for a relative [b] on a POSIX host. *)
Fixpoint ends_with_slash (s : string) : bool :=
  match s with
  | EmptyString => false
  | String c EmptyString => Ascii.eqb c "/"%char
  | String _ s' => ends_with_slash s'
  end.

Definition path_join (a b : string) : string :=
  match a with
  | EmptyString => b
  | _ => if ends_with_slash a then a ++ b else a ++ "/" ++ b
  end.

End PyStr.

(** ** The checkout *)

(** A directory entry: a file with the text a text-mode read returns
    ([None] when opening or decoding it raises), or a directory. *)
Inductive node : Type :=
| File (name : string) (content : option string)
| Dir (name : string) (children : list node).

(** The entries of the repository root. *)
Definition tree := list node.

Definition node_name (n : node) : string :=
  match n with File m _ => m | Dir m _ => m end.

(** The name matching of [Path.rglob] for one path component: [*] is
    any run of characters, [?] any one character, every other character
    of the patterns used here stands for itself. *)
Fixpoint fnmatch (p s : string) : bool :=
  match p with
  | EmptyString => match s with EmptyString => true | _ => false end
  | String c p' =>
      if Ascii.eqb c "*"%char then
        (fix star (t : string) : bool :=
           fnmatch p' t
           || match t with
              | EmptyString => false
              | String _ t' => star t'
              end) s
      else
        match s with
        | EmptyString => false
        | String d s' =>
            (Ascii.eqb c "?"%char || Ascii.eqb c d) && fnmatch p' s'
        end
  end.

(** [len(list(Path(repo_path).rglob(pattern)))]: the entries at any
    depth below the root whose name matches. *)
Fixpoint rglob_node (pattern : string) (n : node) : nat :=
  (if fnmatch pattern (node_name n) then 1 else 0)
  + match n with
    | File _ _ => 0
    | Dir _ children => list_sum (map (rglob_node pattern) children)
    end.

Definition rglob (root : tree) (pattern : string) : nat :=
  list_sum (map (rglob_node pattern) root).

(** [os.path.exists(os.path.join(repo_path, name))] *)
Definition path_exists (root : tree) (name : string) : bool :=
  existsb (fun n => String.eqb (node_name n) name) root.

(** ** Exceptions and results *)

Inductive exn : Type :=
| CalledProcessError (cmd : list string) (returncode : Z)
| BuildError (msg : string) (cause : option exn)
    (* the message is [msg] followed by [str(cause)] *)
| OSError (what : string)
| DecodeError                 (* JSONDecodeError, TomlDecodeError *)
| AttributeError (what : string)
| TypeError (what : string)
| ValueError (what : string)
| IndexError.

Definition is_CalledProcessError (e : exn) : bool :=
  match e with CalledProcessError _ _ => true | _ => false end.

(** Every exception above derives from [Exception]. *)
Definition is_Exception (e : exn) : bool := true.

Inductive result (A : Type) : Type :=
| Ok (a : A)
| Err (e : exn).
Arguments Ok {A} a.
Arguments Err {A} e.

Definition rbind {A B} (r : result A) (k : A -> result B) : result B :=
  match r with Ok a => k a | Err e => Err e end.

Declare Scope result_scope.
Delimit Scope result_scope with result.
Notation "x <- r ;; k" := (rbind r (fun x => k))
  (at level 61, r at next level, right associativity) : result_scope.

(** [with open(path) as f: f.read()] *)
Definition open_read (root : tree) (name : string) : result string :=
  match find (fun n => String.eqb (node_name n) name) root with
  | Some (File _ (Some text)) => Ok text
  | Some (File _ None) => Err (OSError "unreadable")
  | Some (Dir _ _) => Err (OSError "is a directory")
  | None => Err (OSError "no such file")
  end.

(** ** models.BuildInstructions *)

Record BuildInstructions : Type := mkBuildInstructions {
  language : string;
  build_system : string;
  dependencies : option (list string);
  setup_steps : option (list string);
  build_commands : option (list string);
  test_commands : option (list string)
}.

(** ** Detection *)

(** Python's [max(iterable, key=...)]: the first element whose key no
    later element exceeds; the running maximum is replaced only by a
    strictly greater key. *)
Definition py_max {A} (key : A -> nat) (l : list A) : option A :=
  match l with
  | [] => None
  | x :: l' =>
      Some (fold_left (fun best y => if (key best <? key y)%nat then y else best)
                      l' x)
  end.

Definition language_patterns : list (string * list string) :=
  [ ("python", ["*.py"; "requirements.txt"; "setup.py"; "pyproject.toml"]);
    ("javascript", ["*.js"; "package.json"]);
    ("typescript", ["*.ts"; "tsconfig.json"]);
    ("java", ["*.java"; "pom.xml"; "build.gradle"]);
    ("go", ["*.go"; "go.mod"]);
    ("rust", ["*.rs"; "Cargo.toml"]) ].

(** The inner loop: [count += len(list(rglob(pattern)))]. *)
Definition count_patterns (root : tree) (patterns : list string) : nat :=
  fold_left (fun count pattern => (count + rglob root pattern)%nat) patterns 0%nat.

Definition language_counts (root : tree) : list (string * nat) :=
  map (fun lp => (fst lp, count_patterns root (snd lp))) language_patterns.

Definition _detect_primary_language (root : tree) : result string :=
  match py_max snd (language_counts root) with
  | Some item => Ok (fst item)
  | None => Err (ValueError "max() arg is an empty sequence")
  end.

Definition build_systems : list (string * list (string * string)) :=
  [ ("python", [("setup.py", "setuptools"); ("pyproject.toml", "poetry");
                ("requirements.txt", "pip")]);
    ("javascript", [("package.json", "npm"); ("yarn.lock", "yarn")]);
    ("java", [("pom.xml", "maven"); ("build.gradle", "gradle")]);
    ("go", [("go.mod", "go")]);
    ("rust", [("Cargo.toml", "cargo")]) ].

(** Lookup in a table keyed by strings: [table.get(key)]. *)
Fixpoint lookup {A} (key : string) (table : list (string * A)) : option A :=
  match table with
  | [] => None
  | (k, v) :: rest => if String.eqb k key then Some v else lookup key rest
  end.

(** The loop over one language's marker files. *)
Fixpoint first_marker (root : tree) (markers : list (string * string))
  : option string :=
  match markers with
  | [] => None
  | (file, system) :: rest =>
      if path_exists root file then Some system else first_marker root rest
  end.

Definition _detect_build_system (root : tree) (lang : string) : string :=
  match lookup lang build_systems with
  | Some markers =>
      match first_marker root markers with
      | Some system => system
      | None => "unknown"
      end
  | None => "unknown"
  end.

(** ** Parsed manifests *)

(** What [json.load] and [toml.load] build: a dict keeps its items in
    insertion order. *)
Inductive pyobj : Type :=
| PNone
| PBool (b : bool)
| PNum (literal : string)
| PStr (s : string)
| PList (items : list pyobj)
| PDict (items : list (string * pyobj)).

(** [obj.get(key, default)]: only a dict has the method. *)
Definition py_get (obj : pyobj) (key : string) (default : pyobj) : result pyobj :=
  match obj with
  | PDict items =>
      match lookup key items with
      | Some v => Ok v
      | None => Ok default
      end
  | _ => Err (AttributeError "get")
  end.

(** [obj.items()] *)
Definition py_items (obj : pyobj) : result (list (string * pyobj)) :=
  match obj with
  | PDict items => Ok items
  | _ => Err (AttributeError "items")
  end.

(** ** Build execution: state, process host and control *)

(** How a call of [subprocess.run] ends: the process exited with a
    status, or it could not be started at all. *)
Inductive proc_result : Type :=
| Exited (returncode : Z)
| NotStarted (what : string).

Record proc_event : Type := mkProcEvent {
  ev_argv : list string;
  ev_cwd : option string;
  ev_result : proc_result
}.

(** The checkout, the calls of [subprocess.run] made so far, and two
    counters that observe the control flow: entries into
    [execute_build] and entries into [_handle_build_failure]. *)
Record state : Type := mkState {
  fs : tree;
  procs : list proc_event;
  attempts : nat;
  recoveries : nat
}.

Inductive res (A : Type) : Type :=
| Ret (a : A)
| Raise (e : exn)
| OutOfFuel.
Arguments Ret {A} a.
Arguments Raise {A} e.
Arguments OutOfFuel {A}.

Definition M (A : Type) : Type := state -> res A * state.

Definition ret {A} (a : A) : M A := fun st => (Ret a, st).
Definition raise {A} (e : exn) : M A := fun st => (Raise e, st).
Definition out_of_fuel {A} : M A := fun st => (OutOfFuel, st).

Definition bind {A B} (m : M A) (k : A -> M B) : M B :=
  fun st =>
    match m st with
    | (Ret a, st') => k a st'
    | (Raise e, st') => (Raise e, st')
    | (OutOfFuel, st') => (OutOfFuel, st')
    end.

(** [try: m  except <class> as e: h e] *)
Definition try_except {A} (class : exn -> bool) (m : M A) (h : exn -> M A) : M A :=
  fun st =>
    match m st with
    | (Raise e, st') => if class e then h e st' else (Raise e, st')
    | other => other
    end.

(** A read-only scan of the checkout. *)
Definition scan {A} (f : tree -> result A) : M A :=
  fun st =>
    match f (fs st) with
    | Ok a => (Ret a, st)
    | Err e => (Raise e, st)
    end.

Declare Scope M_scope.
Delimit Scope M_scope with M.
Notation "x <- m ;; k" := (bind m (fun x => k))
  (at level 61, m at next level, right associativity) : M_scope.
Notation "m ;; k" := (bind m (fun _ => k))
  (at level 61, right associativity) : M_scope.

Definition enter_attempt : M unit :=
  fun st => (Ret tt, {| fs := fs st; procs := procs st;
                        attempts := S (attempts st);
                        recoveries := recoveries st |}).

Definition enter_recovery : M unit :=
  fun st => (Ret tt, {| fs := fs st; procs := procs st;
                        attempts := attempts st;
                        recoveries := S (recoveries st) |}).

(** [for x in xs: body x] *)
Fixpoint for_each {A} (xs : list A) (body : A -> M unit) : M unit :=
  match xs with
  | [] => ret tt
  | x :: rest => bind (body x) (fun _ => for_each rest body)
  end.

(** The same loop over a value that may be [None]. *)
Definition for_each_in {A} (xs : option (list A)) (body : A -> M unit) : M unit :=
  match xs with
  | Some l => for_each l body
  | None => raise (TypeError "'NoneType' object is not iterable")
  end.

Section BuildAutomation.

(** [json.load] and [toml.load] on the text of a file; [None] when the
    parser raises.  [toml.load] always builds a dict. *)
Variable json_load : string -> option pyobj.
Variable toml_load : string -> option (list (string * pyobj)).
(** [str(v)] of a parsed value that is not a string. *)
Variable py_str : pyobj -> string.

Open Scope result_scope.

(** [f"{v}"] *)
Definition format_value (v : pyobj) : string :=
  match v with
  | PStr s => s
  | other => py_str other
  end.

(** The [try] block of [_analyze_python_dependencies]. *)
Definition python_dependencies_try (root : tree) : result (list string) :=
  from_requirements <-
    (if path_exists root "requirements.txt" then
       text <- open_read root "requirements.txt" ;;
       Ok (filter PyStr.truthy (map PyStr.strip (PyStr.file_lines text)))
     else Ok []) ;;
  _ <- (if path_exists root "setup.py" then
          content <- open_read root "setup.py" ;;
          (if PyStr.contains "install_requires" content then Ok tt else Ok tt)
        else Ok tt) ;;
  Ok from_requirements.

Definition _analyze_python_dependencies (root : tree)
  : result (option (list string)) :=
  match python_dependencies_try root with
  | Ok deps => Ok (Some deps)
  | Err _ => Ok (Some [])
  end.

(** The [try] block of [_analyze_javascript_dependencies]. *)
Definition javascript_dependencies_try (root : tree) : result (list string) :=
  if path_exists root "package.json" then
    text <- open_read root "package.json" ;;
    data <- match json_load text with
            | Some d => Ok d
            | None => Err DecodeError
            end ;;
    deps <- py_get data "dependencies" (PDict []) ;;
    dev_deps <- py_get data "devDependencies" (PDict []) ;;
    items <- py_items deps ;;
    dev_items <- py_items dev_deps ;;
    Ok (List.app
          (map (fun nv => fst nv ++ "@" ++ format_value (snd nv)) items)
          (map (fun nv => fst nv ++ "@" ++ format_value (snd nv)) dev_items))
  else Ok [].

Definition _analyze_javascript_dependencies (root : tree)
  : result (option (list string)) :=
  match javascript_dependencies_try root with
  | Ok deps => Ok (Some deps)
  | Err _ => Ok (Some [])
  end.

(** The lines of a [require ( ... )] block that are kept. *)
Definition go_block_lines (require_block : string) : list string :=
  filter PyStr.truthy (map PyStr.strip (PyStr.splitlines require_block)).

(** The [try] block of [_analyze_go_dependencies]. *)
Definition go_dependencies_try (root : tree) : result (list string) :=
  if path_exists root "go.mod" then
    content <- open_read root "go.mod" ;;
    if PyStr.contains "require (" content then
      after <- match nth_error (PyStr.split "require (" content) 1 with
               | Some t => Ok t
               | None => Err IndexError
               end ;;
      require_block <- match nth_error (PyStr.split ")" after) 0 with
                       | Some t => Ok t
                       | None => Err IndexError
                       end ;;
      Ok (go_block_lines require_block)
    else Ok []
  else Ok [].

Definition _analyze_go_dependencies (root : tree)
  : result (option (list string)) :=
  match go_dependencies_try root with
  | Ok deps => Ok (Some deps)
  | Err _ => Ok (Some [])
  end.

(** One item of the [dependencies] table of Cargo.toml. *)
Definition rust_dependency (nv : string * pyobj) : result (list string) :=
  match snd nv with
  | PStr version => Ok [fst nv ++ " = " ++ version]
  | PDict _ =>
      v <- py_get (snd nv) "version" (PStr "*") ;;
      Ok [fst nv ++ " = " ++ format_value v]
  | _ => Ok []
  end.

Fixpoint rust_dependencies_loop (items : list (string * pyobj))
  : result (list string) :=
  match items with
  | [] => Ok []
  | nv :: rest =>
      d <- rust_dependency nv ;;
      ds <- rust_dependencies_loop rest ;;
      Ok (d ++ ds)%list
  end.

(** The [try] block of [_analyze_rust_dependencies]. *)
Definition rust_dependencies_try (root : tree) : result (list string) :=
  if path_exists root "Cargo.toml" then
    text <- open_read root "Cargo.toml" ;;
    cargo_data <- match toml_load text with
                  | Some d => Ok d
                  | None => Err DecodeError
                  end ;;
    match lookup "dependencies" cargo_data with
    | Some table =>
        items <- py_items table ;;
        rust_dependencies_loop items
    | None => Ok []
    end
  else Ok [].

Definition _analyze_rust_dependencies (root : tree)
  : result (option (list string)) :=
  match rust_dependencies_try root with
  | Ok deps => Ok (Some deps)
  | Err _ => Ok (Some [])
  end.

(** The body is [pass]: the call returns [None]. *)
Definition _analyze_java_dependencies (root : tree)
  : result (option (list string)) :=
  Ok None.

Definition analyzers : list (string * (tree -> result (option (list string)))) :=
  [ ("python", _analyze_python_dependencies);
    ("javascript", _analyze_javascript_dependencies);
    ("java", _analyze_java_dependencies);
    ("go", _analyze_go_dependencies);
    ("rust", _analyze_rust_dependencies) ].

Definition _analyze_dependencies (root : tree) (lang : string)
  : result (option (list string)) :=
  match lookup lang analyzers with
  | Some analyzer => analyzer root
  | None => Ok (Some [])
  end.

(** [[d.replace('==', '>=') for d in dependencies]]: iterating [None]
    raises. *)
Definition relax_constraints (deps : option (list string))
  : result (list string) :=
  match deps with
  | Some ds => Ok (map (PyStr.replace "==" ">=") ds)
  | None => Err (TypeError "'NoneType' object is not iterable")
  end.

Definition retry_build_commands (lang : string) : list string :=
  if String.eqb lang "python" then
    ["pip install --upgrade pip"; "pip install -r requirements.txt --upgrade"]
  else if existsb (String.eqb lang) ["javascript"; "typescript"] then
    ["npm cache clean --force"; "npm install --no-package-lock"]
  else [].

(** The [try] block of [_modify_build_instructions]. *)
Definition modify_build_instructions_try (root : tree)
  : result BuildInstructions :=
  lang <- _detect_primary_language root ;;
  let system := _detect_build_system root lang in
  deps <- _analyze_dependencies root lang ;;
  relaxed <- relax_constraints deps ;;
  Ok {| language := lang;
        build_system := system;
        dependencies := Some relaxed;
        setup_steps := Some ["Clean build artifacts"; "Update package manager";
                             "Install dependencies with relaxed constraints"];
        build_commands := Some (retry_build_commands lang);
        test_commands := Some [] |}.

Definition _modify_build_instructions (root : tree) : result BuildInstructions :=
  match modify_build_instructions_try root with
  | Ok instructions => Ok instructions
  | Err e => Err (BuildError "Could not modify build instructions: " (Some e))
  end.

(** The three planner methods have the body [pass]. *)
Definition _create_setup_steps (lang system : string) : option (list string) := None.
Definition _create_build_commands (lang system : string) : option (list string) := None.
Definition _create_test_commands (lang system : string) : option (list string) := None.

Definition detect_build_instructions (root : tree) : result BuildInstructions :=
  match
    (lang <- _detect_primary_language root ;;
     let system := _detect_build_system root lang in
     deps <- _analyze_dependencies root lang ;;
     Ok {| language := lang;
           build_system := system;
           dependencies := deps;
           setup_steps := _create_setup_steps lang system;
           build_commands := _create_build_commands lang system;
           test_commands := _create_test_commands lang system |})
  with
  | Ok instructions => Ok instructions
  | Err e => Err (BuildError "Detection failed: " (Some e))
  end.


(** *** Execution *)

(** The process host: what running [argv] in [cwd] does to the checkout
    and how it ends. *)
Variable host : list string -> option string -> tree -> tree * proc_result.

Close Scope result_scope.
Open Scope M_scope.

(** What [shutil.rmtree] raises on a directory of the checkout, given
    by its name and content, and [None] when it removes the directory:
    a directory can be one it refuses (a symbolic link to a directory)
    or may not remove.  A directory it raises on is left in place. *)
Variable rmtree_error : string -> list node -> option string.

(** What [subprocess.run] raises before it starts anything:
    [IndexError] for an empty [argv], which names no program, and
    [ValueError] for a NUL character in an argument or in the working
    directory. *)
Definition has_nul (s : string) : bool :=
  existsb (Ascii.eqb "000"%char) (list_ascii_of_string s).

Definition refused (argv : list string) (cwd : option string) : option exn :=
  match argv with
  | [] => Some IndexError
  | _ =>
      if existsb has_nul argv
         || match cwd with Some dir => has_nul dir | None => false end
      then Some (ValueError "embedded null byte")
      else None
  end.

(** [subprocess.run(argv, cwd=cwd, check=True)]; a call that is refused
    is recorded as one that started nothing, and the host is not
    asked. *)
Definition subprocess_run (argv : list string) (cwd : option string) : M unit :=
  fun st =>
    let recorded root' outcome :=
      {| fs := root';
         procs := procs st ++ [mkProcEvent argv cwd outcome];
         attempts := attempts st;
         recoveries := recoveries st |} in
    match refused argv cwd with
    | Some e => (Raise e, recorded (fs st) (NotStarted "invalid arguments"))
    | None =>
        let (root', outcome) := host argv cwd (fs st) in
        match outcome with
        | Exited code =>
            if Z.eqb code 0 then (Ret tt, recorded root' outcome)
            else (Raise (CalledProcessError argv code), recorded root' outcome)
        | NotStarted what => (Raise (OSError what), recorded root' outcome)
        end
    end.

(** [shutil.rmtree(os.path.join(repo_path, name))] *)
Definition rmtree (name : string) : M unit :=
  fun st =>
    match find (fun n => String.eqb (node_name n) name) (fs st) with
    | Some (Dir _ children) =>
        match rmtree_error name children with
        | None =>
            (Ret tt,
             {| fs := filter (fun n => negb (String.eqb (node_name n) name)) (fs st);
                procs := procs st; attempts := attempts st;
                recoveries := recoveries st |})
        | Some what => (Raise (OSError what), st)
        end
    | Some (File _ _) => (Raise (OSError "not a directory"), st)
    | None => (Raise (OSError "no such file"), st)
    end.

Definition exists_in_repo (name : string) : M bool :=
  fun st => (Ret (path_exists (fs st) name), st).

Definition venv_command (repo_path : string) : list string :=
  ["python"; "-m"; "venv"; PyStr.path_join repo_path ".venv"].

Definition _handle_python_build (repo_path : string)
  (instructions : BuildInstructions) : M (option bool) :=
  try_except is_CalledProcessError
    (let venv_path := PyStr.path_join repo_path ".venv" in
     subprocess_run ["python"; "-m"; "venv"; venv_path] None ;;
     let pip := PyStr.path_join (PyStr.path_join venv_path "bin") "pip" in
     for_each_in (build_commands instructions)
       (fun cmd => subprocess_run (pip :: PyStr.words cmd) None) ;;
     ret (Some true))
    (fun e => ret (Some false)).

Definition _handle_javascript_build (repo_path : string)
  (instructions : BuildInstructions) : M (option bool) :=
  try_except is_CalledProcessError
    (subprocess_run ["npm"; "install"] (Some repo_path) ;;
     for_each_in (build_commands instructions)
       (fun cmd => subprocess_run (PyStr.words cmd) (Some repo_path)) ;;
     ret (Some true))
    (fun e => ret (Some false)).

(** The bodies of the next three are [pass]. *)
Definition _handle_java_build (repo_path : string)
  (instructions : BuildInstructions) : M (option bool) := ret None.
Definition _handle_go_build (repo_path : string)
  (instructions : BuildInstructions) : M (option bool) := ret None.
Definition _handle_rust_build (repo_path : string)
  (instructions : BuildInstructions) : M (option bool) := ret None.

Definition handler : Type := string -> BuildInstructions -> M (option bool).

(** [self.build_handlers] as [__init__] fills it. *)
Definition build_handlers : list (string * handler) :=
  [ ("python", _handle_python_build);
    ("javascript", _handle_javascript_build);
    ("typescript", _handle_javascript_build);
    ("java", _handle_java_build);
    ("go", _handle_go_build);
    ("rust", _handle_rust_build) ].

Definition _setup_environment (repo_path : string)
  (instructions : BuildInstructions) : M unit :=
  try_except is_Exception
    (let lang := PyStr.lower (language instructions) in
     if String.eqb lang "python" then
       present <- exists_in_repo ".venv" ;;
       if negb present then
         subprocess_run ["python"; "-m"; "venv"; PyStr.path_join repo_path ".venv"] None
       else ret tt
     else if existsb (String.eqb lang) ["javascript"; "typescript"] then
       present <- exists_in_repo "node_modules" ;;
       if negb present then subprocess_run ["npm"; "install"] (Some repo_path)
       else ret tt
     else ret tt)
    (fun e => raise (BuildError "Failed to setup environment: " (Some e))).

Definition build_dirs : list string :=
  ["build"; "dist"; "target"; "node_modules"; "__pycache__"].

Definition _clean_build_artifacts (repo_path : string) : M unit :=
  try_except is_Exception
    (for_each build_dirs
       (fun dir_name =>
          present <- exists_in_repo dir_name ;;
          if present then rmtree dir_name else ret tt))
    (fun e => ret tt).

(** [_handle_build_failure]; [retry] is the call back into
    [execute_build]. *)
Definition _handle_build_failure (retry : handler) (repo_path : string)
  (error : exn) : M (option bool) :=
  enter_recovery ;;
  try_except is_Exception
    (_clean_build_artifacts repo_path ;;
     modified_instructions <- scan _modify_build_instructions ;;
     retry repo_path modified_instructions)
    (fun retry_error => ret (Some false)).

(** [execute_build] over a registry of handlers.  The method and
    [_handle_build_failure] call each other; [fuel] bounds the depth of
    that recursion. *)
Fixpoint execute_build_with (handlers : list (string * handler)) (fuel : nat)
  (repo_path : string) (instructions : BuildInstructions) : M (option bool) :=
  match fuel with
  | O => out_of_fuel
  | S fuel' =>
      enter_attempt ;;
      try_except is_CalledProcessError
        (_setup_environment repo_path instructions ;;
         match lookup (PyStr.lower (language instructions)) handlers with
         | Some handle => handle repo_path instructions
         | None =>
             raise (BuildError ("Unsupported language: " ++ language instructions)
                               None)
         end)
        (fun e =>
           _handle_build_failure (execute_build_with handlers fuel') repo_path e)
  end.

Definition execute_build : nat -> string -> BuildInstructions -> M (option bool) :=
  execute_build_with build_handlers.

Close Scope M_scope.

End BuildAutomation.

(** ** Observations on a computation *)

(** The computation leaves the two counters alone and ends. *)
Definition counters_kept {A} (m : M A) : Prop :=
  forall st,
    attempts (snd (m st)) = attempts st
    /\ recoveries (snd (m st)) = recoveries st
    /\ fst (m st) <> OutOfFuel.

(** No [CalledProcessError] leaves the computation. *)
Definition never_raises_cpe {A} (m : M A) : Prop :=
  forall st e, fst (m st) = Raise e -> is_CalledProcessError e = false.

(** The computation only adds to the record of process calls. *)
Definition appends_procs {A} (m : M A) : Prop :=
  forall st, exists more, procs (snd (m st)) = (procs st ++ more)%list.

(** ** The shape of a Go-only checkout *)

(** The patterns of every language of the table, and those of the
    languages other than Go. *)
Definition table_patterns : list string := flat_map snd language_patterns.

Definition foreign_patterns : list string :=
  flat_map snd (filter (fun lp => negb (String.eqb (fst lp) "go")) language_patterns).

Definition go_file_name (name : string) : bool :=
  fnmatch "*.go" name || String.eqb name "go.mod".

Definition plain_name (name : string) : bool :=
  negb (existsb (fun pattern => fnmatch pattern name) table_patterns).

(** Every file is go.mod or a *.go file; directories have names no
    pattern of the table matches. *)
Fixpoint only_go_files (n : node) : bool :=
  match n with
  | File name _ => go_file_name name
  | Dir name children => plain_name name && forallb only_go_files children
  end.

(** A text without a line boundary of [str.splitlines]. *)
Fixpoint one_line (s : string) : bool :=
  match s with
  | EmptyString => true
  | String c s' => negb (PyStr.is_linebreak c) && one_line s'
  end.

(** ** Sample checkouts, parsers and hosts *)

Module Sample.

Definition quoted (s : string) : string :=
  String (ascii_of_nat 34) s ++ String (ascii_of_nat 34) "".

Definition newline : string := String (ascii_of_nat 10) "".

(** A package.json with one runtime and one development dependency. *)
Definition package_json : string :=
  "{" ++ quoted "dependencies" ++ ": {" ++ quoted "left-pad" ++ ": "
  ++ quoted "1.0.0" ++ "}, " ++ quoted "devDependencies" ++ ": {"
  ++ quoted "jest" ++ ": " ++ quoted "29.0.0" ++ "}}".

(** A stand-in for [json.load] that knows this one document and raises
    on every other text. *)
Definition json_load (text : string) : option pyobj :=
  if String.eqb text package_json then
    Some (PDict [("dependencies", PDict [("left-pad", PStr "1.0.0")]);
                 ("devDependencies", PDict [("jest", PStr "29.0.0")])])
  else None.

(** A stand-in for [toml.load] that raises on every text. *)
Definition toml_load (text : string) : option (list (string * pyobj)) := None.

Definition py_str (v : pyobj) : string := "".

Definition typescript_checkout : tree :=
  [File "package.json" (Some package_json);
   File "tsconfig.json" (Some "{}");
   Dir "src" [File "index.ts" (Some ""); File "util.ts" (Some "")]].

Definition broken_package_checkout : tree :=
  [File "package.json" (Some "{"); File "index.js" (Some "")].

Definition pinned_checkout : tree :=
  [File "requirements.txt"
     (Some ("requests==2.0" ++ newline ++ newline ++ "  flask==1.1 " ++ newline));
   File "app.py" (Some "")].

Definition java_checkout : tree :=
  [File "pom.xml" (Some ""); Dir "src" [File "Main.java" (Some "")]].

Definition go_mod : string :=
  "module example.com/m" ++ newline ++ newline ++ "go 1.21" ++ newline ++ newline
  ++ "require (" ++ newline ++ "    github.com/x/y v1.0.0" ++ newline ++ ")"
  ++ newline.

Definition go_checkout : tree :=
  [File "go.mod" (Some go_mod);
   File "main.go" (Some "package main");
   Dir "internal" [File "util.go" (Some "package internal")]].

(** A go.mod whose require block holds three modules, the second with
    a comment that names the marker of a block. *)
Definition go_commented_mod : string :=
  "module example.com/m" ++ newline ++ newline
  ++ "require (" ++ newline
  ++ "    github.com/x/y v1.0.0" ++ newline
  ++ "    github.com/a/b v1.2.3 // moved from require (" ++ newline
  ++ "    github.com/c/d v2.0.0" ++ newline
  ++ ")" ++ newline.

Definition go_commented_checkout : tree :=
  [File "go.mod" (Some go_commented_mod); File "main.go" (Some "package main")].

(** A checkout whose files are go.mod and one *.go file, below
    directories named like Python files. *)
Definition go_named_dirs_checkout : tree :=
  [File "go.mod" (Some go_mod);
   Dir "gen.py" [Dir "v2.py" [File "main.go" (Some "package main")]]].

Definition go_one_line_checkout : tree :=
  [File "go.mod" (Some "require ( github.com/x/y v1.0.0 )");
   File "main.go" (Some "package main")].

(** Directories that [shutil.rmtree] always removes, and a host on
    which it may not remove the dist directory. *)
Definition rmtree_ok (name : string) (children : list node) : option string :=
  None.

Definition rmtree_keeps_dist (name : string) (children : list node)
  : option string :=
  if String.eqb name "dist" then Some "Permission denied" else None.

(** Process hosts.  The first lets every command succeed and leaves
    the checkout alone.  The second creates the .venv directory for
    [python -m venv] and lets every other command succeed; the third
    does the same and lets every other command exit with status 1. *)
Definition host_ok (argv : list string) (cwd : option string) (root : tree)
  : tree * proc_result := (root, Exited 0).

Definition is_venv_command (argv : list string) : bool :=
  match argv with
  | a :: b :: c :: _ =>
      String.eqb a "python" && String.eqb b "-m" && String.eqb c "venv"
  | _ => false
  end.

Definition with_venv (root : tree) : tree :=
  if path_exists root ".venv" then root else Dir ".venv" [] :: root.

Definition host_venv (argv : list string) (cwd : option string) (root : tree)
  : tree * proc_result :=
  if is_venv_command argv then (with_venv root, Exited 0) else (root, Exited 0).

Definition host_pip_fails (argv : list string) (cwd : option string) (root : tree)
  : tree * proc_result :=
  if is_venv_command argv then (with_venv root, Exited 0) else (root, Exited 1).

(** The same with a chosen exit status for every other command. *)
Definition host_pip_exits (code : Z) (argv : list string) (cwd : option string)
  (root : tree) : tree * proc_result :=
  if is_venv_command argv then (with_venv root, Exited 0) else (root, Exited code).

Definition python_instructions : BuildInstructions :=
  {| language := "python";
     build_system := "pip";
     dependencies := Some ["requests==2.0"; "flask==1.1"];
     setup_steps := None;
     build_commands := Some ["install -r requirements.txt"];
     test_commands := None |}.

Definition kotlin_instructions : BuildInstructions :=
  {| language := "Kotlin";
     build_system := "unknown";
     dependencies := Some [];
     setup_steps := Some [];
     build_commands := Some ["gradle build"];
     test_commands := Some [] |}.

Definition initial (root : tree) : state :=
  {| fs := root; procs := []; attempts := 0; recoveries := 0 |}.

(** A registry whose Python handler lets the error of its command
    escape, whatever the instructions. *)
Definition always_raising : list (string * handler) :=
  [("python", fun _ _ => raise (CalledProcessError ["make"] 2))].

(** Checkouts for the cleanup: one that holds only a node_modules
    directory beside its sources, and one where a regular file is named
    like the first build directory. *)
Definition stale_checkout : tree :=
  [Dir "node_modules" [Dir "left-pad" [File "index.js" (Some "")]];
   File "index.js" (Some "")].

Definition blocked_checkout : tree :=
  [File "build" (Some "notes"); Dir "dist" []; Dir "node_modules" [];
   File "main.py" (Some "")].

(** A host on which no program can be started, and one on which every
    program exits with status 1. *)
Definition host_down (argv : list string) (cwd : option string) (root : tree)
  : tree * proc_result := (root, NotStarted "No such file or directory").

Definition host_fails (argv : list string) (cwd : option string) (root : tree)
  : tree * proc_result := (root, Exited 1).

Definition javascript_instructions : BuildInstructions :=
  {| language := "JavaScript";
     build_system := "npm";
     dependencies := Some ["left-pad@1.0.0"];
     setup_steps := None;
     build_commands := Some ["npm run build"; "npm test"];
     test_commands := None |}.

(** A Cargo.toml with a version string, a table without a version and
    a table with one, and a stand-in for [toml.load] that knows it. *)
Definition cargo_toml : string :=
  "[dependencies]" ++ newline
  ++ "serde = " ++ quoted "1.0" ++ newline
  ++ "tokio = { features = [" ++ quoted "full" ++ "] }" ++ newline
  ++ "rand = { version = " ++ quoted "0.8" ++ " }" ++ newline.

Definition cargo_load (text : string) : option (list (string * pyobj)) :=
  if String.eqb text cargo_toml then
    Some [("dependencies",
           PDict [("serde", PStr "1.0");
                  ("tokio", PDict [("features", PList [PStr "full"])]);
                  ("rand", PDict [("version", PStr "0.8")])])]
  else None.

Definition rust_checkout : tree :=
  [File "Cargo.toml" (Some cargo_toml); Dir "src" [File "main.rs" (Some "")]].

Definition rust_instructions : BuildInstructions :=
  {| language := "rust";
     build_system := "cargo";
     dependencies := Some [];
     setup_steps := None;
     build_commands := Some ["cargo build"];
     test_commands := None |}.

End Sample.

(** * Further components *)

(** The result of a call that may raise, for the components below. *)
Inductive outcome (E A : Type) : Type :=
| Returned (a : A)
| Raised (e : E).
Arguments Returned {E A} a.
Arguments Raised {E A} e.

Definition and_then {E A B} (o : outcome E A) (k : A -> outcome E B)
  : outcome E B :=
  match o with Returned a => k a | Raised e => Raised e end.

Declare Scope outcome_scope.
Delimit Scope outcome_scope with outcome.
Notation "x <- o ;; k" := (and_then o (fun x => k))
  (at level 61, o at next level, right associativity) : outcome_scope.

(** ** settings.py *)

Module Settings.

Inductive error : Type :=
| ConfigError (msg : string) (cause : option error)
    (* the message is [msg] followed by [str(cause)] *)
| ValueError (text : string)
| OSError (what : string).

Record APIConfig : Type := mkAPIConfig {
  openai_api_key : string;
  github_api_key : string;
  model_name : string
}.

Record BuildConfig : Type := mkBuildConfig {
  base_download_dir : string;
  max_results : Z;
  min_stars : Z;
  timeout : Z;
  parallel_builds : Z;
  cleanup_after_build : bool
}.

Record CacheConfig : Type := mkCacheConfig {
  enabled : bool;
  directory : string;
  ttl : Z;
  max_size_mb : Z
}.

Record LoggingConfig : Type := mkLoggingConfig {
  level : string;
  file : option string;
  format : string
}.

Record Config : Type := mkConfig {
  api : APIConfig;
  build : BuildConfig;
  cache : CacheConfig;
  logging : LoggingConfig
}.

(** The process environment: [os.getenv(name)]. *)
Definition environment : Type := string -> option string.

(** [os.getenv(name, default)] *)
Definition getenv (env : environment) (name default : string) : string :=
  match env name with Some v => v | None => default end.

(** [not v] for what [os.getenv(name)] returns: [None] and the empty
    string are false. *)
Definition unset (v : option string) : bool :=
  match v with
  | None => true
  | Some s => negb (PyStr.truthy s)
  end.

Definition APIConfig_from_env (env : environment) : outcome error APIConfig :=
  let openai_key := env "OPENAI_API_KEY" in
  let github_key := env "GITHUB_API_KEY" in
  if unset openai_key then Raised (ConfigError "OPENAI_API_KEY" None)
  else if unset github_key then Raised (ConfigError "GITHUB_API_KEY" None)
  else
    Returned {| openai_api_key := match openai_key with Some k => k | None => "" end;
                github_api_key := match github_key with Some k => k | None => "" end;
                model_name := getenv env "OPENAI_MODEL" "gpt-4" |}.

Definition LoggingConfig_from_env (env : environment) : LoggingConfig :=
  {| level := getenv env "LOG_LEVEL" "INFO";
     file := env "LOG_FILE";
     format := getenv env "LOG_FORMAT"
                 "%(asctime)s - %(name)s - %(levelname)s - %(message)s" |}.

Section Loading.

(** [int(text)] of the standard library; [None] when it raises
    [ValueError]. *)
Variable py_int : string -> option Z.
(** [os.path.exists] on the path of an environment file, and what
    [load_dotenv] makes of the environment. *)
Variable file_exists : string -> bool.
Variable load_dotenv : string -> environment -> environment.

Open Scope outcome_scope.

Definition int_of (text : string) : outcome error Z :=
  match py_int text with
  | Some z => Returned z
  | None => Raised (ValueError text)
  end.

Definition BuildConfig_from_env (env : environment) : outcome error BuildConfig :=
  match
    (let dir := getenv env "BUILD_DOWNLOAD_DIR" "downloads" in
     results <- int_of (getenv env "MAX_RESULTS" "5") ;;
     stars <- int_of (getenv env "MIN_STARS" "100") ;;
     seconds <- int_of (getenv env "BUILD_TIMEOUT" "300") ;;
     parallel <- int_of (getenv env "PARALLEL_BUILDS" "1") ;;
     Returned {| base_download_dir := dir;
                 max_results := results;
                 min_stars := stars;
                 timeout := seconds;
                 parallel_builds := parallel;
                 cleanup_after_build :=
                   String.eqb (PyStr.lower (getenv env "CLEANUP_AFTER_BUILD" "true"))
                              "true" |})
  with
  | Raised (ValueError text) =>
      Raised (ConfigError "Invalid build configuration value: "
                (Some (ValueError text)))
  | other => other
  end.

Definition CacheConfig_from_env (env : environment) : outcome error CacheConfig :=
  match
    (let on := String.eqb (PyStr.lower (getenv env "CACHE_ENABLED" "true")) "true" in
     let dir := getenv env "CACHE_DIR" ".cache" in
     seconds <- int_of (getenv env "CACHE_TTL" "3600") ;;
     size <- int_of (getenv env "CACHE_MAX_SIZE_MB" "1000") ;;
     Returned {| enabled := on; directory := dir; ttl := seconds;
                 max_size_mb := size |})
  with
  | Raised (ValueError text) =>
      Raised (ConfigError "Invalid cache configuration value: "
                (Some (ValueError text)))
  | other => other
  end.

(** [Config.load(env_file)] on the environment [env]; the second
    component is the environment afterwards. *)
Definition load (env_file : option string) (env : environment)
  : outcome error Config * environment :=
  let wrap (e : error) : error :=
    ConfigError "Failed to load configuration: " (Some e) in
  let with_env (env' : environment) : outcome error Config * environment :=
    (match
       (a <- APIConfig_from_env env' ;;
        b <- BuildConfig_from_env env' ;;
        c <- CacheConfig_from_env env' ;;
        Returned {| api := a; build := b; cache := c;
                    logging := LoggingConfig_from_env env' |})
     with
     | Returned config => Returned config
     | Raised e => Raised (wrap e)
     end, env') in
  if unset env_file then with_env env
  else
    let path := match env_file with Some p => p | None => "" end in
    if negb (file_exists path) then
      (Raised (wrap (ConfigError ("Environment file not found: " ++ path) None)),
       env)
    else with_env (load_dotenv path env).

(** [Config.from_env()] *)
Definition from_env (env : environment) : outcome error Config * environment :=
  if file_exists ".env" then load (Some ".env") env else load None env.

End Loading.

Section Validation.

(** The file system as far as [validate] touches it: a state, and
    [os.makedirs(path, exist_ok=True)], which gives the state afterwards
    and, when it raises, the reason. *)
Variable F : Type.
Variable makedirs : string -> F -> F * option string.

Open Scope outcome_scope.

Definition check (failed : bool) (msg : string) : outcome error unit :=
  if failed then Raised (ConfigError msg None) else Returned tt.

Definition make (path : string) (f : F) : outcome error unit * F :=
  match makedirs path f with
  | (f', None) => (Returned tt, f')
  | (f', Some what) => (Raised (OSError what), f')
  end.

(** The [try] block of [Config.validate]. *)
Definition validate_try (config : Config) (f : F) : outcome error unit * F :=
  match
    (_ <- check (negb (PyStr.truthy (openai_api_key (api config)))
                 || negb (PyStr.truthy (github_api_key (api config))))
               "API keys are required" ;;
     _ <- check (Z.ltb (max_results (build config)) 1)
               "max_results must be positive" ;;
     _ <- check (Z.ltb (min_stars (build config)) 0)
               "min_stars cannot be negative" ;;
     _ <- check (Z.ltb (timeout (build config)) 0)
               "timeout cannot be negative" ;;
     if enabled (cache config) then
       _ <- check (Z.ltb (ttl (cache config)) 0) "cache_ttl cannot be negative" ;;
       check (Z.ltb (max_size_mb (cache config)) 1)
             "cache_max_size_mb must be positive"
     else Returned tt)
  with
  | Raised e => (Raised e, f)
  | Returned _ =>
      match make (base_download_dir (build config)) f with
      | (Returned _, f1) =>
          if enabled (cache config) then make (directory (cache config)) f1
          else (Returned tt, f1)
      | failed => failed
      end
  end.

Definition validate (config : Config) (f : F) : outcome error unit * F :=
  match validate_try config f with
  | (Raised e, f') =>
      (Raised (ConfigError "Configuration validation failed: " (Some e)), f')
  | done => done
  end.

End Validation.

(** What the value checks of [validate] ask of a configuration. *)
Definition values_ok (config : Config) : Prop :=
  openai_api_key (api config) <> ""
  /\ github_api_key (api config) <> ""
  /\ (1 <= max_results (build config))%Z
  /\ (0 <= min_stars (build config))%Z
  /\ (0 <= timeout (build config))%Z
  /\ (enabled (cache config) = true ->
      (0 <= ttl (cache config))%Z /\ (1 <= max_size_mb (cache config))%Z).

(** A stand-in for [int] that reads a non-empty run of the digits 0 to
    9, and a file system for [makedirs] that is the list of the
    directories made, where making a directory named "/" fails. *)
Fixpoint digits_value (acc : Z) (s : string) : option Z :=
  match s with
  | EmptyString => Some acc
  | String c s' =>
      let n := nat_of_ascii c in
      if ((48 <=? n) && (n <=? 57))%nat
      then digits_value (10 * acc + Z.of_nat (n - 48)) s'
      else None
  end.

Definition decimal (s : string) : option Z :=
  match s with
  | EmptyString => None
  | _ => digits_value 0 s
  end.

Definition sample_makedirs (path : string) (made : list string)
  : list string * option string :=
  if String.eqb path "/" then (made, Some "Permission denied")
  else (path :: made, None).

Definition sample_env (name : string) : option string :=
  if String.eqb name "OPENAI_API_KEY" then Some "sk-test"
  else if String.eqb name "GITHUB_API_KEY" then Some "ghp-test"
  else if String.eqb name "MAX_RESULTS" then Some "0"
  else if String.eqb name "CACHE_ENABLED" then Some "False"
  else None.

Definition sample_config : Config :=
  {| api := {| openai_api_key := "sk-test"; github_api_key := "ghp-test";
               model_name := "gpt-4" |};
     build := {| base_download_dir := "downloads"; max_results := 5;
                 min_stars := 100; timeout := 300; parallel_builds := 0;
                 cleanup_after_build := true |};
     cache := {| enabled := false; directory := ".cache"; ttl := (-1);
                 max_size_mb := 0 |};
     logging := {| level := "INFO"; file := None; format := "%(message)s" |} |}.

End Settings.

(** ** user_interaction.py *)

Module UserInteraction.

Inductive error : Type :=
| ValueError (text : string)   (* [int] on a text it does not read *)
| EOFError.                    (* [console.input] at the end of the input *)

(** models.UserChoice *)
Record UserChoice (R : Type) : Type := mkUserChoice {
  action : string;
  repository : option R
}.
Arguments mkUserChoice {R} action repository.
Arguments action {R} u.
Arguments repository {R} u.

(** Code points below U+0100 for which [str.isdigit] holds: 0 to 9 and
    the superscripts two, three and one. *)
Definition isdigit_char (c : ascii) : bool :=
  let n := nat_of_ascii c in
  (((48 <=? n) && (n <=? 57)) || (n =? 178) || (n =? 179) || (n =? 185))%nat.

Fixpoint all_digits (s : string) : bool :=
  match s with
  | EmptyString => true
  | String c s' => isdigit_char c && all_digits s'
  end.

(** [s.isdigit()] *)
Definition isdigit (s : string) : bool := PyStr.truthy s && all_digits s.

Section Choice.

(** The type of the repositories on offer; the loop only picks one. *)
Variable R : Type.
(** [int(text)]; [None] when it raises [ValueError]. *)
Variable py_int : string -> option Z.

(** The [while True] loop of [present_options], over the lines the user
    will type.  Beside the result it gives the lines not read and the
    number of "Invalid choice" notices printed.  The table and the menu
    printed before the loop are output only and are left out. *)
Fixpoint read_choice (repositories : list R) (inputs : list string)
  : outcome error (UserChoice R) * list string * nat :=
  match inputs with
  | [] => (Raised EOFError, [], 0%nat)
  | line :: rest =>
      let choice := PyStr.lower (PyStr.strip line) in
      let again :=
        let '(result, unread, notices) := read_choice repositories rest in
        (result, unread, S notices) in
      if String.eqb choice "q" then
        (Returned (mkUserChoice "exit" None), rest, 0%nat)
      else if String.eqb choice "r" then
        (Returned (mkUserChoice "refine" None), rest, 0%nat)
      else if isdigit choice then
        match py_int choice with
        | None => (Raised (ValueError choice), rest, 0%nat)
        | Some n =>
            let idx := (n - 1)%Z in
            if ((0 <=? idx) && (idx <? Z.of_nat (List.length repositories)))%Z
            then
              (Returned (mkUserChoice "download"
                           (nth_error repositories (Z.to_nat idx))),
               rest, 0%nat)
            else again
        end
      else again
  end.

(** A line the loop answers with "Invalid choice": it is not q, not r,
    and not a number, or a number that is no index of the list. *)
Definition rejected (repositories : list R) (line : string) : bool :=
  let choice := PyStr.lower (PyStr.strip line) in
  negb (String.eqb choice "q") && negb (String.eqb choice "r")
  && (if isdigit choice then
        match py_int choice with
        | Some n =>
            negb ((0 <=? n - 1) && (n - 1 <? Z.of_nat (List.length repositories)))%Z
        | None => false
        end
      else true).

End Choice.

End UserInteraction.

(** ** query_processor.py *)

Module QueryProcessor.

(** [sep.join(parts)] *)
Fixpoint join (sep : string) (parts : list string) : string :=
  match parts with
  | [] => ""
  | [p] => p
  | p :: rest => p ++ sep ++ join sep rest
  end.

(** [obj.lower()]: only a string has the method. *)
Definition py_lower (obj : pyobj) : result string :=
  match obj with
  | PStr s => Ok (PyStr.lower s)
  | _ => Err (AttributeError "lower")
  end.

Fixpoint chars (s : string) : list pyobj :=
  match s with
  | EmptyString => []
  | String c s' => PStr (String c EmptyString) :: chars s'
  end.

(** The elements that iterating a value yields: the items of a list,
    the characters of a string, the keys of a dict. *)
Definition py_iter (obj : pyobj) : result (list pyobj) :=
  match obj with
  | PList items => Ok items
  | PStr s => Ok (chars s)
  | PDict items => Ok (map (fun kv => PStr (fst kv)) items)
  | _ => Err (TypeError "object is not iterable")
  end.

(** The strings of a sequence that [str.join] accepts. *)
Fixpoint strings_of (items : list pyobj) : result (list string) :=
  match items with
  | [] => Ok []
  | PStr s :: rest =>
      match strings_of rest with
      | Ok l => Ok (s :: l)
      | Err e => Err e
      end
  | _ :: _ => Err (TypeError "sequence item: expected str instance")
  end.

(** [any(s.lower() in q.lower() for q in query_components)] *)
Fixpoint covered (s : pyobj) (query_components : list pyobj) : result bool :=
  match query_components with
  | [] => Ok false
  | q :: rest =>
      rbind (py_lower s) (fun sl =>
      rbind (py_lower q) (fun ql =>
      if PyStr.contains sl ql then Ok true else covered s rest))
  end.

(** [[s for s in candidates if not any(...)]] *)
Fixpoint uncovered (candidates query_components : list pyobj)
  : result (list pyobj) :=
  match candidates with
  | [] => Ok []
  | s :: rest =>
      rbind (covered s query_components) (fun hit =>
      rbind (uncovered rest query_components) (fun others =>
      Ok (if hit then others else s :: others)))
  end.

Section Refinement.

(** The truth value of a number, given by its literal. *)
Variable num_truthy : string -> bool.

Definition py_truthy (obj : pyobj) : bool :=
  match obj with
  | PNone => false
  | PBool b => b
  | PNum literal => num_truthy literal
  | PStr s => PyStr.truthy s
  | PList items => match items with [] => false | _ => true end
  | PDict items => match items with [] => false | _ => true end
  end.

(** [query_components.extend(section.get(key, []))] *)
Definition extend_from (query_components : list pyobj) (section : pyobj)
  (key : string) : result (list pyobj) :=
  rbind (py_get section key (PList [])) (fun value =>
  rbind (py_iter value) (fun items =>
  Ok (query_components ++ items)%list)).

Definition _build_refined_query (primary secondary : list (string * pyobj))
  : result string :=
  rbind (match lookup "components" primary with
         | Some components =>
             rbind (extend_from [] components "keywords") (fun qc =>
             extend_from qc components "technologies")
         | None => Ok []
         end) (fun qc1 =>
  rbind (match lookup "context" primary with
         | Some context => extend_from qc1 context "relevant_terms"
         | None => Ok qc1
         end) (fun qc2 =>
  rbind (match lookup "suggestions" secondary with
         | Some candidates =>
             rbind (py_iter candidates) (fun items =>
             rbind (uncovered items qc2) (fun suggestions =>
             Ok (qc2 ++ firstn 2 suggestions)%list))
         | None => Ok qc2
         end) (fun qc3 =>
  rbind (strings_of qc3) (fun parts =>
  let query := join " " parts in
  rbind (match lookup "requirements" primary with
         | Some requirements =>
             rbind (py_get requirements "constraints" (PList [])) (fun constraints =>
             if py_truthy constraints then
               rbind (py_iter constraints) (fun items =>
               rbind (strings_of items) (fun words =>
               Ok (query ++ " " ++ join " " words)))
             else Ok query)
         | None => Ok query
         end) (fun query' =>
  Ok (PyStr.strip query')))))).

(** The analysis results in the format the prompts ask for, built from
    lists of strings. *)
Definition primary_of (keywords technologies relevant_terms constraints : list string)
  : list (string * pyobj) :=
  [("components", PDict [("keywords", PList (map PStr keywords));
                         ("technologies", PList (map PStr technologies))]);
   ("context", PDict [("relevant_terms", PList (map PStr relevant_terms))]);
   ("requirements", PDict [("constraints", PList (map PStr constraints))])].

Definition secondary_of (suggestions : list string) : list (string * pyobj) :=
  [("suggestions", PList (map PStr suggestions))].

(** A suggestion is new when, lower-cased, it is part of no term
    collected so far, lower-cased. *)
Definition is_new (terms : list string) (suggestion : string) : bool :=
  negb (existsb (fun q => PyStr.contains (PyStr.lower suggestion) (PyStr.lower q))
                terms).

End Refinement.

End QueryProcessor.

(** ** result_cache.py *)

Module Cache.

Inductive error : Type :=
| CacheError (msg : string) (cause : option error)
    (* the message is [msg] followed by [str(cause)] *)
| OSError (what : string)
| DecodeError.

(** [d[key] = value] on a dict kept in insertion order. *)
Fixpoint dict_set {A} (key : string) (value : A) (d : list (string * A))
  : list (string * A) :=
  match d with
  | [] => [(key, value)]
  | (k, v) :: rest =>
      if String.eqb k key then (k, value) :: rest
      else (k, v) :: dict_set key value rest
  end.

(** [d.pop(key, None)]: the key is in the dict no more. *)
Fixpoint dict_pop {A} (key : string) (d : list (string * A)) : list (string * A) :=
  match d with
  | [] => []
  | (k, v) :: rest =>
      if String.eqb k key then dict_pop key rest else (k, v) :: dict_pop key rest
  end.

(** [os.path.join(a, b)]: an absolute [b] replaces [a]. *)
Definition os_path_join (a b : string) : string :=
  match b with
  | String "/" _ => b
  | _ => PyStr.path_join a b
  end.

(** A cache manager: its settings and its memory cache. *)
Record manager : Type := mkManager {
  cache_dir : string;
  cache_ttl : Z;
  memory_cache : list (string * pyobj)
}.

Definition with_memory (m : manager) (memory : list (string * pyobj)) : manager :=
  {| cache_dir := cache_dir m; cache_ttl := cache_ttl m; memory_cache := memory |}.

Definition memory_key (category key : string) : string := category ++ ":" ++ key.

(** [timedelta(seconds=seconds)] raises [OverflowError] for a number of
    seconds outside these bounds: a [timedelta] holds at most
    999999999 days to either side. *)
Definition timedelta_ok (seconds : Z) : bool :=
  ((-86399999913600 <=? seconds) && (seconds <? 86400000000000))%Z.

Definition cache_file (m : manager) (category key : string) : string :=
  os_path_join (os_path_join (cache_dir m) category) (key ++ ".json").

Section Manager.

(** The disk and the operations on it; an operation that raises gives
    the reason.  Times are microseconds of the naive UTC clock;
    [isoformat] and [fromisoformat] are those of [datetime], the latter
    giving [None] where it raises or gives a time the clock cannot be
    compared with; [json_dumps] and [json_loads] are those of [json]. *)
Variable D : Type.
Variable file_exists : string -> D -> bool.
Variable read_text : string -> D -> option string.
Variable write_text : string -> string -> D -> D * option string.
Variable remove : string -> D -> D * option string.
Variable listdir : string -> D -> option (list string).
Variable json_dumps : pyobj -> string.
Variable json_loads : string -> option pyobj.
Variable isoformat : Z -> string.
Variable fromisoformat : string -> option Z.

(** [_is_cache_expired(cache_file)] at the time [now]: every failure
    counts as expired, also that of [timedelta(seconds=cache_ttl)]. *)
Definition _is_cache_expired (m : manager) (now : Z) (path : string) (d : D) : bool :=
  match read_text path d with
  | Some text =>
      match json_loads text with
      | Some (PDict items) =>
          match lookup "_cached_at" items with
          | Some (PStr stamp) =>
              match fromisoformat stamp with
              | Some cached_at =>
                  if timedelta_ok (cache_ttl m)
                  then (cache_ttl m * 1000000 <? now - cached_at)%Z
                  else true
              | None => true
              end
          | _ => true
          end
      | _ => true
      end
  | None => true
  end.

(** The [try] block of [invalidate_cache]. *)
Definition invalidate_try (m : manager) (key category : string) (d : D)
  : outcome error unit * manager * D :=
  let m' := with_memory m (dict_pop (memory_key category key) (memory_cache m)) in
  let path := cache_file m category key in
  if file_exists path d then
    match remove path d with
    | (d', None) => (Returned tt, m', d')
    | (d', Some what) => (Raised (OSError what), m', d')
    end
  else (Returned tt, m', d).

Definition invalidate_cache (m : manager) (key category : string) (d : D)
  : outcome error unit * manager * D :=
  match invalidate_try m key category d with
  | (Raised e, m', d') =>
      (Raised (CacheError "Failed to invalidate cache: " (Some e)), m', d')
  | done => done
  end.

(** The [try] block of [get_cached_result]; [PNone] is the [None] of a
    miss. *)
Definition get_try (m : manager) (now : Z) (key category : string) (d : D)
  : outcome error pyobj * manager * D :=
  match lookup (memory_key category key) (memory_cache m) with
  | Some data => (Returned data, m, d)
  | None =>
      let path := cache_file m category key in
      if negb (file_exists path d) then (Returned PNone, m, d)
      else if _is_cache_expired m now path d then
        match invalidate_cache m key category d with
        | (Returned _, m', d') => (Returned PNone, m', d')
        | (Raised e, m', d') => (Raised e, m', d')
        end
      else
        match read_text path d with
        | None => (Raised (OSError "read"), m, d)
        | Some text =>
            match json_loads text with
            | None => (Raised DecodeError, m, d)
            | Some data =>
                (Returned data,
                 with_memory m (dict_set (memory_key category key) data
                                  (memory_cache m)),
                 d)
            end
        end
  end.

Definition get_cached_result (m : manager) (now : Z) (key category : string) (d : D)
  : outcome error pyobj * manager * D :=
  match get_try m now key category d with
  | (Raised e, m', d') =>
      (Raised (CacheError "Failed to retrieve cache: " (Some e)), m', d')
  | done => done
  end.

(** The data as [cache_result] stores it: with its time stamp. *)
Definition stamped (now : Z) (data : list (string * pyobj)) : pyobj :=
  PDict (dict_set "_cached_at" (PStr (isoformat now)) data).

Definition cache_result (m : manager) (now : Z) (key : string)
  (data : list (string * pyobj)) (category : string) (d : D)
  : outcome error unit * manager * D :=
  let entry := stamped now data in
  let m' := with_memory m (dict_set (memory_key category key) entry
                             (memory_cache m)) in
  match write_text (cache_file m category key) (json_dumps entry) d with
  | (d', None) => (Returned tt, m', d')
  | (d', Some what) =>
      (Raised (CacheError "Failed to cache result: " (Some (OSError what))),
       m', d')
  end.

(** The removal loop of [clear_cache] over the files of one
    directory. *)
Fixpoint remove_all (dir : string) (names : list string) (d : D)
  : outcome error unit * D :=
  match names with
  | [] => (Returned tt, d)
  | name :: rest =>
      match remove (os_path_join dir name) d with
      | (d', None) => remove_all dir rest d'
      | (d', Some what) => (Raised (OSError what), d')
      end
  end.

Fixpoint clear_categories (m : manager) (categories : list string) (d : D)
  : outcome error unit * D :=
  match categories with
  | [] => (Returned tt, d)
  | category :: rest =>
      let dir := os_path_join (cache_dir m) category in
      match listdir dir d with
      | None => (Raised (OSError "listdir"), d)
      | Some names =>
          match remove_all dir names d with
          | (Returned _, d') => clear_categories m rest d'
          | failed => failed
          end
      end
  end.

Definition clear_cache (m : manager) (d : D) : outcome error unit * manager * D :=
  let m' := with_memory m [] in
  match clear_categories m ["repositories"; "analysis"] d with
  | (Returned _, d') => (Returned tt, m', d')
  | (Raised e, d') =>
      (Raised (CacheError "Failed to clear cache: " (Some e)), m', d')
  end.

End Manager.

(** A disk for examples: the files by path, where every write and
    every removal succeeds; and stand-ins for the codecs that know one
    document and one time. *)
Definition flat_disk : Type := list (string * string).

Definition flat_exists (path : string) (d : flat_disk) : bool :=
  match lookup path d with Some _ => true | None => false end.


Definition flat_remove (path : string) (d : flat_disk)
  : flat_disk * option string := (dict_pop path d, None).

Definition refusing_write (path text : string) (d : flat_disk)
  : flat_disk * option string := (d, Some "No such file or directory").

Definition sample_manager : manager :=
  {| cache_dir := ".cache"; cache_ttl := 3600; memory_cache := [] |}.

Definition sample_data : list (string * pyobj) := [("stars", PNum "42")].

Definition sample_iso (t : Z) : string := "2024-01-01T00:00:00".

Definition sample_fromiso (s : string) : option Z :=
  if String.eqb s "2024-01-01T00:00:00" then Some 0%Z else None.

Definition sample_dumps (obj : pyobj) : string := "document".

Definition sample_loads (text : string) : option pyobj :=
  if String.eqb text "document" then
    Some (PDict [("stars", PNum "42"); ("_cached_at", PStr "2024-01-01T00:00:00")])
  else None.

End Cache.

(** * Properties *)

Open Scope nat_scope.

(** ** The string operations on small inputs *)

Example split_require :
  PyStr.split "require (" "a require ( b ) require ( c )" = ["a "; " b ) "; " c )"].
Proof. reflexivity. Qed.

Example splitlines_mixed :
  PyStr.splitlines ("ab" ++ String "010" (String "013" (String "010" "cd")))
  = ["ab"; ""; "cd"].
Proof. reflexivity. Qed.

Example replace_pin : PyStr.replace "==" ">=" "requests==2.0" = "requests>=2.0".
Proof. reflexivity. Qed.

Example replace_triple : PyStr.replace "==" ">=" "a===1" = "a>==1".
Proof. reflexivity. Qed.

Example strip_both : PyStr.strip "  a b  " = "a b".
Proof. reflexivity. Qed.

Example words_command :
  PyStr.words " install  -r req.txt " = ["install"; "-r"; "req.txt"].
Proof. reflexivity. Qed.

Example lower_mixed : PyStr.lower "TypeScript" = "typescript".
Proof. reflexivity. Qed.

(** ** Leftmost occurrences, [split] and [replace] *)

Lemma strip_prefix_app (p s rest : string) :
  PyStr.strip_prefix p s = Some rest -> s = p ++ rest.
Proof.
  revert s; induction p as [|a p IH]; intros s H; simpl in *.
  - now inversion H.
  - destruct s as [|b s]; [discriminate|].
    destruct (Ascii.eqb a b) eqn:E; [|discriminate].
    apply Ascii.eqb_eq in E; subst b.
    now rewrite (IH _ H).
Qed.

Lemma strip_prefix_self (p rest : string) :
  PyStr.strip_prefix p (p ++ rest) = Some rest.
Proof.
  induction p as [|a p IH]; simpl; [reflexivity|].
  now rewrite Ascii.eqb_refl.
Qed.

Lemma string_length_app (a b : string) :
  String.length (a ++ b) = String.length a + String.length b.
Proof. induction a as [|c a IH]; simpl; [reflexivity | now rewrite IH]. Qed.

Lemma string_app_assoc (a b c : string) : (a ++ b) ++ c = a ++ b ++ c.
Proof. induction a as [|x a IH]; simpl; [reflexivity | now rewrite IH]. Qed.

(** What [find_first] returns is a decomposition of the text. *)
Lemma find_first_app (sep s a b : string) :
  PyStr.find_first sep s = Some (a, b) -> s = a ++ sep ++ b.
Proof.
  revert a b; induction s as [|c s IH]; intros a b H.
  - destruct sep; simpl in H; [|discriminate].
    now inversion H.
  - cbn [PyStr.find_first] in H.
    destruct (PyStr.strip_prefix sep (String c s)) as [rest|] eqn:E.
    + inversion H; subst. simpl. now apply strip_prefix_app.
    + destruct (PyStr.find_first sep s) as [[a' b']|] eqn:F; [|discriminate].
      inversion H; subst. simpl. now rewrite (IH _ _ eq_refl).
Qed.

Lemma find_first_shorter (sep s a b : string) :
  sep <> "" -> PyStr.find_first sep s = Some (a, b) ->
  String.length b < String.length s.
Proof.
  intros Hsep H. apply find_first_app in H. subst s.
  rewrite !string_length_app.
  destruct sep; [congruence | simpl; lia].
Qed.

Lemma find_first_empty (sep : string) :
  sep <> "" -> PyStr.find_first sep "" = None.
Proof. destruct sep; [congruence | reflexivity]. Qed.

(** The number of rounds does not matter once it covers the text. *)
Lemma replace_n_enough (old new : string) :
  old <> "" ->
  forall n m s, String.length s <= n -> String.length s <= m ->
  PyStr.replace_n n old new s = PyStr.replace_n m old new s.
Proof.
  intros Hold. induction n as [|n IH]; intros m s Hn Hm.
  - destruct s; [|simpl in Hn; lia].
    destruct m; cbn [PyStr.replace_n]; [reflexivity|].
    now rewrite find_first_empty.
  - destruct m as [|m].
    + destruct s; [|simpl in Hm; lia].
      cbn [PyStr.replace_n]. now rewrite find_first_empty.
    + cbn [PyStr.replace_n]. destruct (PyStr.find_first old s) as [[a b]|] eqn:F; [|reflexivity].
      pose proof (find_first_shorter _ _ _ _ Hold F).
      rewrite (IH m b); [reflexivity | lia | lia].
Qed.

(** [replace] rewrites the leftmost occurrence and goes on with the
    text after it. *)
Lemma replace_unfold (old new s : string) :
  old <> "" ->
  PyStr.replace old new s =
  match PyStr.find_first old s with
  | Some (a, b) => a ++ new ++ PyStr.replace old new b
  | None => s
  end.
Proof.
  intros Hold. unfold PyStr.replace.
  destruct s as [|c s].
  - cbn [String.length PyStr.replace_n]. destruct old; [congruence | reflexivity].
  - cbn [String.length PyStr.replace_n].
    destruct (PyStr.find_first old (String c s)) as [[a b]|] eqn:F; [|reflexivity].
    pose proof (find_first_shorter _ _ _ _ Hold F) as L. simpl in L.
    rewrite (replace_n_enough old new Hold (String.length s) (String.length b) b);
      [reflexivity | lia | lia].
Qed.

Lemma split_n_enough (sep : string) :
  sep <> "" ->
  forall n m s, String.length s <= n -> String.length s <= m ->
  PyStr.split_n n sep s = PyStr.split_n m sep s.
Proof.
  intros Hsep. induction n as [|n IH]; intros m s Hn Hm.
  - destruct s; [|simpl in Hn; lia].
    destruct m; cbn [PyStr.split_n]; [reflexivity|].
    now rewrite find_first_empty.
  - destruct m as [|m].
    + destruct s; [|simpl in Hm; lia].
      cbn [PyStr.split_n]. now rewrite find_first_empty.
    + cbn [PyStr.split_n]. destruct (PyStr.find_first sep s) as [[a b]|] eqn:F; [|reflexivity].
      pose proof (find_first_shorter _ _ _ _ Hsep F).
      rewrite (IH m b); [reflexivity | lia | lia].
Qed.

Lemma split_unfold (sep s : string) :
  sep <> "" ->
  PyStr.split sep s =
  match PyStr.find_first sep s with
  | Some (a, b) => a :: PyStr.split sep b
  | None => [s]
  end.
Proof.
  intros Hsep. unfold PyStr.split.
  destruct s as [|c s].
  - cbn [String.length PyStr.split_n]. destruct sep; [congruence | reflexivity].
  - cbn [String.length PyStr.split_n].
    destruct (PyStr.find_first sep (String c s)) as [[a b]|] eqn:F; [|reflexivity].
    pose proof (find_first_shorter _ _ _ _ Hsep F) as L. simpl in L.
    rewrite (split_n_enough sep Hsep (String.length s) (String.length b) b);
      [reflexivity | lia | lia].
Qed.

(** ** Language detection *)

Example detect_empty : _detect_primary_language [] = Ok "python".
Proof. reflexivity. Qed.

Example detect_go_checkout :
  _detect_primary_language
    [File "go.mod" (Some "module m"); Dir "cmd" [File "main.go" (Some "")]]
  = Ok "go".
Proof. reflexivity. Qed.

Example detect_tie :
  _detect_primary_language [File "a.js" None; File "b.rs" None] = Ok "javascript".
Proof. reflexivity. Qed.

Section PyMax.

Context {A : Type} (key : A -> nat).

Local Notation step := (fun best y : A => if key best <? key y then y else best).

(** The running maximum after [seen] stays the first greatest element
    of [seen] when the scan goes on over [l]. *)
Lemma running_max_first (l seen : list A) (x : A) :
  (exists pre post, seen = (pre ++ x :: post)%list
     /\ Forall (fun e => key e < key x) pre
     /\ Forall (fun e => key e <= key x) post) ->
  exists pre post, (seen ++ l = pre ++ fold_left step l x :: post)%list
     /\ Forall (fun e => key e < key (fold_left step l x)) pre
     /\ Forall (fun e => key e <= key (fold_left step l x)) post.
Proof.
  revert seen x. induction l as [|y l IH]; intros seen x (pre & post & E & Hpre & Hpost).
  - exists pre, post. rewrite app_nil_r. auto.
  - cbn [fold_left].
    replace (seen ++ y :: l)%list with ((seen ++ [y]) ++ l)%list
      by (rewrite <- app_assoc; reflexivity).
    apply IH. cbv beta.
    destruct (key x <? key y) eqn:C.
    + apply Nat.ltb_lt in C.
      exists seen, []. split; [reflexivity|]. split; [|constructor].
      subst seen. apply Forall_app. split.
      * eapply Forall_impl; [|exact Hpre]. simpl. intros; lia.
      * constructor; [exact C|].
        eapply Forall_impl; [|exact Hpost]. simpl. intros; lia.
    + apply Nat.ltb_ge in C.
      exists pre, (post ++ [y])%list. split.
      * subst seen. rewrite <- app_assoc. reflexivity.
      * split; [exact Hpre|].
        apply Forall_app. split; [exact Hpost|]. constructor; [exact C|constructor].
Qed.

Lemma py_max_first (l : list A) (x : A) :
  py_max key l = Some x ->
  exists pre post, (l = pre ++ x :: post)%list
     /\ Forall (fun e => key e < key x) pre
     /\ Forall (fun e => key e <= key x) post.
Proof.
  destruct l as [|h l]; [discriminate|].
  unfold py_max. intros H. inversion H as [E]. clear H.
  destruct (running_max_first l [h] h) as (pre & post & E1 & H1 & H2).
  - exists [], []. repeat split; constructor.
  - exists pre, post. rewrite E in *. auto.
Qed.

End PyMax.

Lemma language_counts_head (root : tree) :
  exists n rest, language_counts root = ("python", n) :: rest.
Proof. unfold language_counts, language_patterns. cbn [map fst]. eauto. Qed.

Lemma detect_primary_language_total (root : tree) :
  exists item, py_max snd (language_counts root) = Some item.
Proof.
  destruct (language_counts_head root) as (n & rest & E). rewrite E.
  unfold py_max. eauto.
Qed.

(** What detection returns is the first entry of the count list that
    no entry exceeds, and it is a language of the table. *)
Lemma detect_primary_language_first_max (root : tree) :
  exists lang n pre post,
    _detect_primary_language root = Ok lang
    /\ (language_counts root = pre ++ (lang, n) :: post)%list
    /\ Forall (fun e => snd e < n) pre
    /\ Forall (fun e => snd e <= n) post
    /\ In lang (map fst language_patterns).
Proof.
  destruct (detect_primary_language_total root) as ([lang n] & E).
  destruct (py_max_first snd _ _ E) as (pre & post & D & Hpre & Hpost).
  exists lang, n, pre, post. unfold _detect_primary_language. rewrite E.
  cbn [fst snd] in *. repeat split; auto.
  assert (I : In (lang, n) (language_counts root))
    by (rewrite D; apply in_or_app; right; left; reflexivity).
  unfold language_counts in I. apply in_map_iff in I.
  destruct I as (lp & F & I). inversion F; subst.
  apply in_map. exact I.
Qed.




(** ** Build-system detection *)

Lemma first_marker_found (root : tree) (pre post : list (string * string))
  (file system : string) :
  (forall f s, In (f, s) pre -> path_exists root f = false) ->
  path_exists root file = true ->
  first_marker root (pre ++ (file, system) :: post) = Some system.
Proof.
  induction pre as [|[f s] pre IH]; intros Hpre Hfile; simpl.
  - now rewrite Hfile.
  - rewrite (Hpre f s) by (left; reflexivity).
    apply IH; [|exact Hfile]. intros f' s' I. apply (Hpre f' s'). now right.
Qed.

Lemma first_marker_none (root : tree) (markers : list (string * string)) :
  (forall f s, In (f, s) markers -> path_exists root f = false) ->
  first_marker root markers = None.
Proof.
  induction markers as [|[f s] markers IH]; intros H; simpl; [reflexivity|].
  rewrite (H f s) by (left; reflexivity).
  apply IH. intros f' s' I. apply (H f' s'). now right.
Qed.

(** C7: the build system is the one of the first marker file of the
    language's table that exists at the root; it is "unknown" when no
    marker of the language exists, when the language has no table, and
    for the language "unknown". *)
Theorem detect_build_system_first_marker (root : tree) (lang : string) :
  (forall markers pre post file system,
      lookup lang build_systems = Some markers ->
      (markers = pre ++ (file, system) :: post)%list ->
      (forall f s, In (f, s) pre -> path_exists root f = false) ->
      path_exists root file = true ->
      _detect_build_system root lang = system)
  /\ (forall markers,
      lookup lang build_systems = Some markers ->
      (forall f s, In (f, s) markers -> path_exists root f = false) ->
      _detect_build_system root lang = "unknown")
  /\ (lookup lang build_systems = None ->
      _detect_build_system root lang = "unknown")
  /\ _detect_build_system root "unknown" = "unknown".
Proof.
  unfold _detect_build_system. repeat split.
  - intros markers pre post file system L E Hpre Hfile.
    rewrite L, E. now rewrite first_marker_found.
  - intros markers L H. rewrite L. now rewrite first_marker_none.
  - intros L. now rewrite L.
Qed.

(** The theorem on a Python checkout with pyproject.toml and
    requirements.txt but no setup.py: the second marker wins. *)
Lemma detect_build_system_first_marker_witness :
  _detect_build_system
    [File "requirements.txt" (Some ""); File "pyproject.toml" (Some "")] "python"
  = "poetry".
Proof.
  apply (proj1 (detect_build_system_first_marker
                  [File "requirements.txt" (Some ""); File "pyproject.toml" (Some "")]
                  "python")
           [("setup.py", "setuptools"); ("pyproject.toml", "poetry");
            ("requirements.txt", "pip")]
           [("setup.py", "setuptools")] [("requirements.txt", "pip")]
           "pyproject.toml" "poetry").
  - reflexivity.
  - reflexivity.
  - intros f s [I|[]]. inversion I. reflexivity.
  - reflexivity.
Defined.

(** ** Dependency analysis *)

Lemma open_read_exists (root : tree) (name text : string) :
  open_read root name = Ok text -> path_exists root name = true.
Proof.
  unfold open_read, path_exists. intros H.
  destruct (find _ root) as [n|] eqn:F; [|discriminate].
  apply existsb_exists. exists n.
  apply find_some in F. exact F.
Qed.

Lemma lookup_cons {A} (key k : string) (v : A) (table : list (string * A)) :
  lookup key ((k, v) :: table)
  = if String.eqb k key then Some v else lookup key table.
Proof. reflexivity. Qed.

Section AnalyzerProperties.

Variable json_load : string -> option pyobj.
Variable toml_load : string -> option (list (string * pyobj)).
Variable py_str : pyobj -> string.

Local Notation analyze := (_analyze_dependencies json_load toml_load py_str).
Local Notation modify := (_modify_build_instructions json_load toml_load py_str).

(** Whatever the analyzer registered for a language is, its call
    returns: a list, or [None] from the analyzer whose body is [pass]. *)
Lemma analyze_dependencies_returns (root : tree) (lang : string) :
  exists deps, analyze root lang = Ok deps.
Proof.
  unfold _analyze_dependencies, analyzers.
  repeat (rewrite lookup_cons; destruct (String.eqb _ lang));
    cbn [lookup];
    unfold _analyze_python_dependencies, _analyze_javascript_dependencies,
      _analyze_java_dependencies, _analyze_go_dependencies,
      _analyze_rust_dependencies;
    try match goal with
      | |- context [match ?t with Ok _ => _ | Err _ => _ end] => destruct t
      end; eauto.
Qed.

(** C3: dependency analysis returns for every language and every
    checkout, it never raises; and whenever the [try] block of a
    language's analyzer fails (the manifest cannot be read, the parser
    rejects it, or the parsed document has the wrong shape) the answer
    is the empty list. *)
Theorem analyze_dependencies_never_raises (root : tree) (lang : string) :
  (exists deps, analyze root lang = Ok deps)
  /\ (forall e, python_dependencies_try root = Err e ->
        analyze root "python" = Ok (Some []))
  /\ (forall e, javascript_dependencies_try json_load py_str root = Err e ->
        analyze root "javascript" = Ok (Some []))
  /\ (forall e, go_dependencies_try root = Err e ->
        analyze root "go" = Ok (Some []))
  /\ (forall e, rust_dependencies_try toml_load py_str root = Err e ->
        analyze root "rust" = Ok (Some []))
  /\ (forall text, open_read root "package.json" = Ok text ->
        json_load text = None ->
        analyze root "javascript" = Ok (Some []))
  /\ (forall text, open_read root "Cargo.toml" = Ok text ->
        toml_load text = None ->
        analyze root "rust" = Ok (Some []))
  /\ (forall name e, In name ["requirements.txt"; "setup.py"] ->
        path_exists root name = true -> open_read root name = Err e ->
        analyze root "python" = Ok (Some [])).
Proof.
  split; [apply analyze_dependencies_returns|].
  unfold _analyze_dependencies, analyzers. cbn [lookup String.eqb Ascii.eqb Bool.eqb].
  repeat split.
  - intros e H. unfold _analyze_python_dependencies. now rewrite H.
  - intros e H. unfold _analyze_javascript_dependencies. now rewrite H.
  - intros e H. unfold _analyze_go_dependencies. now rewrite H.
  - intros e H. unfold _analyze_rust_dependencies. now rewrite H.
  - intros text R P.
    unfold _analyze_javascript_dependencies, javascript_dependencies_try.
    rewrite (open_read_exists _ _ _ R), R. cbn [rbind]. now rewrite P.
  - intros text R P.
    unfold _analyze_rust_dependencies, rust_dependencies_try.
    rewrite (open_read_exists _ _ _ R), R. cbn [rbind]. now rewrite P.
  - intros name e I X R.
    unfold _analyze_python_dependencies, python_dependencies_try.
    destruct I as [<-|[<-|[]]].
    + now rewrite X, R.
    + rewrite X, R.
      destruct (path_exists root "requirements.txt"); cbn [rbind];
        [destruct (open_read root "requirements.txt")|]; reflexivity.
Qed.

(** C10: no analyzer is registered for "typescript", so the analysis of
    a TypeScript checkout is the empty list whatever the checkout
    holds; this is so even when the root has a package.json whose two
    dependency groups the JavaScript analyzer would report. *)
Theorem typescript_dependencies_empty (root : tree) :
  lookup "typescript" (analyzers json_load toml_load py_str) = None
  /\ analyze root "typescript" = Ok (Some [])
  /\ (forall text data deps dev_deps,
        open_read root "package.json" = Ok text ->
        json_load text = Some data ->
        py_get data "dependencies" (PDict []) = Ok (PDict deps) ->
        py_get data "devDependencies" (PDict []) = Ok (PDict dev_deps) ->
        analyze root "javascript"
        = Ok (Some (List.app
                      (map (fun nv => fst nv ++ "@" ++ format_value py_str (snd nv))
                           deps)
                      (map (fun nv => fst nv ++ "@" ++ format_value py_str (snd nv))
                           dev_deps)))
        /\ analyze root "typescript" = Ok (Some [])).
Proof.
  split; [reflexivity|]. split; [reflexivity|].
  intros text data deps dev_deps R P D1 D2. split; [|reflexivity].
  unfold _analyze_dependencies, analyzers.
  cbn [lookup String.eqb Ascii.eqb Bool.eqb].
  unfold _analyze_javascript_dependencies, javascript_dependencies_try.
  rewrite (open_read_exists _ _ _ R), R. cbn [rbind].
  rewrite P. cbn [rbind]. rewrite D1. cbn [rbind]. rewrite D2. reflexivity.
Qed.

Lemma detected_language_cases (root : tree) (lang : string) :
  _detect_primary_language root = Ok lang ->
  In lang ["python"; "javascript"; "typescript"; "java"; "go"; "rust"].
Proof.
  intros H.
  destruct (detect_primary_language_first_max root)
    as (l & n & pre & post & E & _ & _ & _ & I).
  rewrite E in H. inversion H; subst. exact I.
Qed.

(** C4: the retry instructions carry the analysed dependencies with
    [replace('==', '>=')] applied to each, and an empty list of test
    commands; no instructions are produced only when the detected
    language is "java", whose analyzer returns [None].  [replace]
    rewrites the leftmost "==" and goes on after it. *)
Theorem modify_build_instructions_relaxes (root : tree) :
  match modify root with
  | Ok instructions =>
      test_commands instructions = Some []
      /\ _detect_primary_language root = Ok (language instructions)
      /\ exists deps,
           analyze root (language instructions) = Ok (Some deps)
           /\ dependencies instructions
              = Some (map (PyStr.replace "==" ">=") deps)
  | Err e => _detect_primary_language root = Ok "java"
  end
  /\ (forall d,
        PyStr.replace "==" ">=" d =
        match PyStr.find_first "==" d with
        | Some (a, b) => a ++ ">=" ++ PyStr.replace "==" ">=" b
        | None => d
        end)
  /\ PyStr.replace "==" ">=" "requests==2.0" = "requests>=2.0".
Proof.
  split; [|split; [intros d; apply replace_unfold; discriminate | reflexivity]].
  unfold _modify_build_instructions, modify_build_instructions_try.
  destruct (_detect_primary_language root) as [lang|e] eqn:D.
  - cbn [rbind].
    destruct (analyze root lang) as [[deps|]|e] eqn:An; cbn [rbind relax_constraints].
    + cbn. split; [reflexivity|]. split; [reflexivity|]. eauto.
    + apply detected_language_cases in D. cbn [In] in D.
      destruct D as [<-|[<-|[<-|[<-|[<-|[<-|[]]]]]]]; try reflexivity;
        exfalso; revert An;
        unfold _analyze_dependencies, analyzers;
        cbn [lookup String.eqb Ascii.eqb Bool.eqb];
        unfold _analyze_python_dependencies, _analyze_javascript_dependencies,
          _analyze_go_dependencies, _analyze_rust_dependencies;
        try match goal with
          | |- context [match ?t with Ok _ => _ | Err _ => _ end] => destruct t
          end; discriminate.
    + destruct (analyze_dependencies_returns root lang) as (v & E). congruence.
  - exfalso. unfold _detect_primary_language in D.
    destruct (detect_primary_language_total root) as (item & E).
    rewrite E in D. discriminate.
Qed.

End AnalyzerProperties.

(** C3 on a checkout whose package.json is cut off after the first
    brace. *)
Lemma analyze_dependencies_never_raises_witness :
  _analyze_dependencies Sample.json_load Sample.toml_load Sample.py_str
    Sample.broken_package_checkout "javascript" = Ok (Some []).
Proof.
  apply (proj1 (proj2 (proj2 (proj2 (proj2 (proj2
           (analyze_dependencies_never_raises
              Sample.json_load Sample.toml_load Sample.py_str
              Sample.broken_package_checkout "javascript")))))) "{").
  - reflexivity.
  - reflexivity.
Defined.

(** C10 on a TypeScript checkout with a package.json that declares a
    runtime and a development dependency. *)
Lemma typescript_dependencies_empty_witness :
  _analyze_dependencies Sample.json_load Sample.toml_load Sample.py_str
    Sample.typescript_checkout "javascript"
  = Ok (Some ["left-pad@1.0.0"; "jest@29.0.0"])
  /\ _analyze_dependencies Sample.json_load Sample.toml_load Sample.py_str
       Sample.typescript_checkout "typescript"
     = Ok (Some []).
Proof.
  apply (proj2 (proj2 (typescript_dependencies_empty
                         Sample.json_load Sample.toml_load Sample.py_str
                         Sample.typescript_checkout))
           Sample.package_json
           (PDict [("dependencies", PDict [("left-pad", PStr "1.0.0")]);
                   ("devDependencies", PDict [("jest", PStr "29.0.0")])])
           [("left-pad", PStr "1.0.0")] [("jest", PStr "29.0.0")]);
    reflexivity.
Defined.

Example javascript_dependencies_in_order :
  _analyze_dependencies Sample.json_load Sample.toml_load Sample.py_str
    Sample.typescript_checkout "javascript"
  = Ok (Some ["left-pad@1.0.0"; "jest@29.0.0"]).
Proof. reflexivity. Qed.

Example typescript_checkout_detected :
  _detect_primary_language Sample.typescript_checkout = Ok "typescript".
Proof. reflexivity. Qed.

Example typescript_dependencies_ignored :
  _analyze_dependencies Sample.json_load Sample.toml_load Sample.py_str
    Sample.typescript_checkout "typescript" = Ok (Some []).
Proof. reflexivity. Qed.

Example pinned_checkout_relaxed :
  _modify_build_instructions Sample.json_load Sample.toml_load Sample.py_str
    Sample.pinned_checkout
  = Ok {| language := "python";
          build_system := "pip";
          dependencies := Some ["requests>=2.0"; "flask>=1.1"];
          setup_steps := Some ["Clean build artifacts"; "Update package manager";
                               "Install dependencies with relaxed constraints"];
          build_commands := Some ["pip install --upgrade pip";
                                  "pip install -r requirements.txt --upgrade"];
          test_commands := Some [] |}.
Proof. reflexivity. Qed.

Example java_checkout_not_relaxed :
  _modify_build_instructions Sample.json_load Sample.toml_load Sample.py_str
    Sample.java_checkout
  = Err (BuildError "Could not modify build instructions: "
           (Some (TypeError "'NoneType' object is not iterable"))).
Proof. reflexivity. Qed.

(** ** Name matching *)

Lemma fnmatch_star (p s : string) :
  fnmatch (String "*" p) s
  = fnmatch p s
    || match s with
       | EmptyString => false
       | String _ s' => fnmatch (String "*" p) s'
       end.
Proof. destruct s; reflexivity. Qed.

Lemma fnmatch_char (c : ascii) (p s : string) :
  Ascii.eqb c "*" = false ->
  fnmatch (String c p) s
  = match s with
    | EmptyString => false
    | String d s' => (Ascii.eqb c "?" || Ascii.eqb c d) && fnmatch p s'
    end.
Proof. intros H. cbn [fnmatch]. now rewrite H. Qed.

(** A pattern that ends with an ordinary character only matches names
    that end with it. *)
Lemma fnmatch_literal_end (c : ascii) (p s : string) :
  Ascii.eqb c "*" = false -> Ascii.eqb c "?" = false ->
  fnmatch (p ++ String c "") s = true ->
  exists s', s = s' ++ String c "".
Proof.
  intros Hstar Hq. revert s. induction p as [|a p IH]; intros s H.
  - cbn [append] in H. rewrite fnmatch_char in H by exact Hstar.
    destruct s as [|d s]; [discriminate|].
    rewrite Hq in H. cbn [orb] in H.
    apply andb_prop in H. destruct H as [E F].
    apply Ascii.eqb_eq in E. subst d.
    destruct s; [|discriminate]. now exists "".
  - cbn [append] in H.
    destruct (Ascii.eqb a "*") eqn:Ea.
    + apply Ascii.eqb_eq in Ea. subst a.
      induction s as [|d s IHs].
      * rewrite fnmatch_star in H. rewrite orb_false_r in H. now apply IH.
      * rewrite fnmatch_star in H. apply orb_prop in H. destruct H as [H|H].
        -- now apply IH.
        -- destruct (IHs H) as (s' & ->). now exists (String d s').
    + rewrite fnmatch_char in H by exact Ea.
      destruct s as [|d s]; [discriminate|].
      apply andb_prop in H. destruct H as [_ H].
      destruct (IH _ H) as (s' & ->). now exists (String d s').
Qed.

Lemma last_char_unique (a b : string) (c d : ascii) :
  a ++ String c "" = b ++ String d "" -> c = d.
Proof.
  revert b. induction a as [|x a IH]; intros [|y b] H; cbn [append] in H.
  - now inversion H.
  - inversion H as [[E1 E2]]. destruct b; discriminate.
  - inversion H as [[E1 E2]]. destruct a; discriminate.
  - inversion H. eauto.
Qed.

Lemma go_file_name_end (name : string) :
  go_file_name name = true ->
  exists s', name = s' ++ "o" \/ name = s' ++ "d".
Proof.
  unfold go_file_name. intros H. apply orb_prop in H. destruct H as [H|H].
  - change "*.go" with ("*.g" ++ "o") in H.
    apply fnmatch_literal_end in H; [|reflexivity|reflexivity].
    destruct H as (s' & ->). eauto.
  - apply String.eqb_eq in H. subst. exists "go.mo". now right.
Qed.

(** No pattern of another language matches go.mod or a *.go name. *)
Lemma foreign_pattern_rejects_go (pattern name : string) :
  In pattern foreign_patterns -> go_file_name name = true ->
  fnmatch pattern name = false.
Proof.
  intros I G. destruct (go_file_name_end _ G) as (s' & E).
  destruct (fnmatch pattern name) eqn:F; [exfalso|reflexivity].
  assert (L : forall q c, pattern = q ++ String c "" ->
                Ascii.eqb c "*" = false -> Ascii.eqb c "?" = false ->
                c <> "o"%char /\ c <> "d"%char -> False).
  { intros q c -> Hs Hq [No Nd].
    destruct (fnmatch_literal_end c q name Hs Hq F) as (t & T).
    destruct E as [E|E]; rewrite E in T; apply last_char_unique in T; congruence. }
  vm_compute in I.
  repeat (destruct I as [<-|I];
    [ match goal with
      | _ : forall q c, ?lit = _ -> _ |- _ =>
          let n := eval vm_compute in (String.length lit - 1) in
          let q := eval vm_compute in (String.substring 0 n lit) in
          let c := eval vm_compute in
            (match String.get n lit with Some x => x | None => "000"%char end) in
          apply (L q c); [reflexivity | reflexivity | reflexivity
                          | split; discriminate]
      end | ]).
  destruct I.
Qed.

Lemma foreign_patterns_in_table (pattern : string) :
  In pattern foreign_patterns -> In pattern table_patterns.
Proof.
  vm_compute. intros I.
  repeat (destruct I as [<-|I]; [tauto|]). destruct I.
Qed.

Lemma plain_name_rejects (pattern name : string) :
  In pattern table_patterns -> plain_name name = true ->
  fnmatch pattern name = false.
Proof.
  unfold plain_name. intros I P. apply negb_true_iff in P.
  destruct (fnmatch pattern name) eqn:F; [|reflexivity].
  assert (X : existsb (fun q => fnmatch q name) table_patterns = true)
    by (apply existsb_exists; eauto).
  congruence.
Qed.

Lemma list_sum_cons (x : nat) (l : list nat) :
  list_sum (x :: l) = x + list_sum l.
Proof. reflexivity. Qed.

(** Induction over a checkout entry with the entries below it. *)
Lemma node_forall_ind (P : node -> Prop) :
  (forall name content, P (File name content)) ->
  (forall name children, Forall P children -> P (Dir name children)) ->
  forall n, P n.
Proof.
  intros HF HD. fix IH 1. intros [name content|name children].
  - apply HF.
  - apply HD. induction children as [|c cs IHcs]; constructor.
    + apply IH.
    + exact IHcs.
Qed.

Lemma rglob_node_foreign (pattern : string) (n : node) :
  In pattern foreign_patterns -> only_go_files n = true ->
  rglob_node pattern n = 0.
Proof.
  intros I. induction n as [name content|name children IH] using node_forall_ind;
    intros H; cbn [rglob_node only_go_files node_name] in *.
  - now rewrite (foreign_pattern_rejects_go _ _ I H).
  - apply andb_prop in H. destruct H as [Hn Hc].
    rewrite (plain_name_rejects _ _ (foreign_patterns_in_table _ I) Hn).
    cbn [Nat.add].
    induction children as [|c cs IHcs]; [reflexivity|].
    cbn [map list_sum forallb] in *. apply andb_prop in Hc. destruct Hc as [H1 H2].
    inversion IH as [|? ? P1 P2]; subst.
    rewrite list_sum_cons, (P1 H1), (IHcs P2 H2). reflexivity.
Qed.

Lemma rglob_foreign (pattern : string) (root : tree) :
  In pattern foreign_patterns -> forallb only_go_files root = true ->
  rglob root pattern = 0.
Proof.
  intros I. unfold rglob. induction root as [|n root IH]; intros H; [reflexivity|].
  cbn [map list_sum forallb] in *. apply andb_prop in H. destruct H as [H1 H2].
  now rewrite list_sum_cons, (rglob_node_foreign _ _ I H1), (IH H2).
Qed.

Lemma rglob_node_name (n : node) :
  fnmatch (node_name n) (node_name n) = true -> 1 <= rglob_node (node_name n) n.
Proof. intros H. destruct n; cbn [rglob_node node_name] in *; rewrite H; lia. Qed.

Lemma rglob_member (pattern : string) (n : node) (root : tree) :
  In n root -> rglob_node pattern n <= rglob root pattern.
Proof.
  unfold rglob. induction root as [|m root IH]; intros I; [destruct I|].
  cbn [map]. rewrite list_sum_cons.
  destruct I as [->|I]; [lia|]. specialize (IH I). lia.
Qed.

Lemma rglob_go_mod (root : tree) (content : string) :
  open_read root "go.mod" = Ok content -> 1 <= rglob root "go.mod".
Proof.
  unfold open_read. intros H.
  destruct (find _ root) as [n|] eqn:F; [|discriminate].
  apply find_some in F. destruct F as [I E]. apply String.eqb_eq in E.
  pose proof (rglob_member "go.mod" n root I) as L.
  pose proof (rglob_node_name n) as K. rewrite E in K.
  specialize (K eq_refl). lia.
Qed.

(** On a Go-only checkout with a go.mod at the root, Go is the only
    language with a positive count. *)
Lemma go_only_counts (root : tree) (content : string) :
  forallb only_go_files root = true ->
  open_read root "go.mod" = Ok content ->
  exists k, language_counts root
            = [("python", 0); ("javascript", 0); ("typescript", 0);
               ("java", 0); ("go", S k); ("rust", 0)].
Proof.
  intros Hshape Hmod.
  pose proof (rglob_go_mod _ _ Hmod) as Hpos.
  assert (Z : forall p, In p foreign_patterns -> rglob root p = 0)
    by (intros p I; now apply rglob_foreign).
  unfold language_counts, language_patterns, count_patterns.
  cbn [map fst snd fold_left Nat.add].
  destruct (rglob root "*.go" + rglob root "go.mod") as [|k] eqn:K; [lia|].
  repeat match goal with
    | |- context [rglob root ?p] => rewrite (Z p) by (vm_compute; tauto)
    end.
  exists k. reflexivity.
Qed.

(** ** The require block of go.mod *)

Lemma contains_tail (sep : string) (c : ascii) (s : string) :
  PyStr.contains sep (String c s) = false ->
  PyStr.strip_prefix sep (String c s) = None /\ PyStr.contains sep s = false.
Proof.
  unfold PyStr.contains. cbn [PyStr.find_first].
  destruct (PyStr.strip_prefix sep (String c s)); [discriminate|].
  destruct (PyStr.find_first sep s) as [[a b]|]; [discriminate|]. auto.
Qed.

Lemma contains_prefix (sep s rest : string) :
  PyStr.strip_prefix sep s = Some rest -> PyStr.contains sep s = true.
Proof.
  unfold PyStr.contains. intros H. destruct s; cbn [PyStr.find_first].
  - destruct sep; [reflexivity|discriminate].
  - now rewrite H.
Qed.

(** A separator without a closing parenthesis that starts the text
    [block ++ ")" ++ post] lies within [block]. *)
Lemma strip_prefix_before_paren (sep block post rest : string) :
  PyStr.contains ")" sep = false ->
  PyStr.strip_prefix sep (block ++ ")" ++ post) = Some rest ->
  exists rest', PyStr.strip_prefix sep block = Some rest'.
Proof.
  revert block rest. induction sep as [|s sep IH]; intros block rest N H.
  - cbn. eauto.
  - apply contains_tail in N. destruct N as [N1 N2].
    cbn [PyStr.strip_prefix] in N1.
    destruct block as [|c block]; cbn [append PyStr.strip_prefix] in *.
    + destruct (Ascii.eqb s ")") eqn:E; [|discriminate H].
      apply Ascii.eqb_eq in E. subst s.
      rewrite Ascii.eqb_refl in N1. discriminate N1.
    + destruct (Ascii.eqb s c); [|discriminate H]. eapply IH; eauto.
Qed.

(** The next "require (" after a block that holds none starts after
    the parenthesis that closes the block. *)
Lemma require_after_block (block a b post : string) :
  block ++ ")" ++ post = a ++ "require (" ++ b ->
  PyStr.contains "require (" block = false ->
  exists a', a = block ++ ")" ++ a'.
Proof.
  revert a. induction block as [|c block IH]; intros a E N.
  - destruct a as [|x a]; cbn [append] in E.
    + discriminate.
    + inversion E; subst. now exists a.
  - destruct a as [|x a].
    + exfalso. cbn [append] in E.
      assert (P : PyStr.strip_prefix "require (" (String c block ++ ")" ++ post)
                  = Some b)
        by (cbn [append]; rewrite E; apply (strip_prefix_self "require (")).
      apply strip_prefix_before_paren in P; [|reflexivity].
      destruct P as (r & P). apply contains_prefix in P. congruence.
    + cbn [append] in E. inversion E; subst.
      apply contains_tail in N. destruct N as [_ N].
      destruct (IH a H1 N) as (a' & ->). now exists a'.
Qed.

Lemma find_first_close (x p1 p2 : string) :
  PyStr.find_first ")" (x ++ ")" ++ p1) = Some (x, p1) ->
  PyStr.find_first ")" (x ++ ")" ++ p2) = Some (x, p2).
Proof.
  induction x as [|d x IH]; intros H; [reflexivity|].
  cbn [append PyStr.find_first PyStr.strip_prefix] in H |- *.
  destruct (Ascii.eqb ")" d); [discriminate H|].
  destruct (PyStr.find_first ")" (x ++ String ")" p1)) as [[a b]|] eqn:F;
    [|discriminate H].
  inversion H; subst.
  pose proof (IH F) as G. cbn [append] in G. now rewrite G.
Qed.

(** The dependencies of go.mod are the lines of the text between the
    first "require (" and the first ")" after it. *)
Lemma go_require_block (root : tree) (content pre rest block post : string) :
  open_read root "go.mod" = Ok content ->
  PyStr.find_first "require (" content = Some (pre, rest) ->
  PyStr.find_first ")" rest = Some (block, post) ->
  PyStr.contains "require (" block = false ->
  go_dependencies_try root = Ok (go_block_lines block).
Proof.
  intros R H1 H2 N. unfold go_dependencies_try.
  rewrite (open_read_exists _ _ _ R), R. cbn [rbind].
  unfold PyStr.contains. rewrite H1.
  rewrite (split_unfold "require (" content) by discriminate. rewrite H1.
  cbn [nth_error].
  rewrite (split_unfold "require (" rest) by discriminate.
  pose proof (find_first_app _ _ _ _ H2) as E2.
  destruct (PyStr.find_first "require (" rest) as [[a b]|] eqn:F; cbn [nth_error rbind].
  - pose proof (find_first_app _ _ _ _ F) as E1.
    rewrite E2 in E1.
    destruct (require_after_block _ _ _ _ E1 N) as (a' & ->).
    rewrite E2 in H2.
    rewrite (split_unfold ")") by discriminate.
    rewrite (find_first_close _ _ a' H2). reflexivity.
  - rewrite (split_unfold ")") by discriminate. rewrite H2. reflexivity.
Qed.

Section GoScenario.

Variable json_load : string -> option pyobj.
Variable toml_load : string -> option (list (string * pyobj)).
Variable py_str : pyobj -> string.

(** Where the analyzer does extract the block: on a checkout that
    holds only go.mod and *.go files, below directories that no
    pattern matches, with a readable go.mod at the root whose first
    block does not name the marker again, detection yields the
    language "go", the build system "go", and as dependencies the
    stripped non-blank lines between the first "require (" and the
    first ")" after it. *)
Theorem go_repository_detection (root : tree)
  (content pre rest block post : string) :
  forallb only_go_files root = true ->
  open_read root "go.mod" = Ok content ->
  PyStr.find_first "require (" content = Some (pre, rest) ->
  PyStr.find_first ")" rest = Some (block, post) ->
  PyStr.contains "require (" block = false ->
  _detect_primary_language root = Ok "go"
  /\ _detect_build_system root "go" = "go"
  /\ _analyze_dependencies json_load toml_load py_str root "go"
     = Ok (Some (filter PyStr.truthy
                   (map PyStr.strip (PyStr.splitlines block))))
  /\ detect_build_instructions json_load toml_load py_str root
     = Ok {| language := "go";
             build_system := "go";
             dependencies :=
               Some (filter PyStr.truthy
                       (map PyStr.strip (PyStr.splitlines block)));
             setup_steps := None;
             build_commands := None;
             test_commands := None |}.
Proof.
  intros Hshape R H1 H2 N.
  assert (L : _detect_primary_language root = Ok "go").
  { destruct (go_only_counts _ _ Hshape R) as (k & C).
    unfold _detect_primary_language. rewrite C. reflexivity. }
  assert (B : _detect_build_system root "go" = "go").
  { unfold _detect_build_system. cbn [lookup build_systems String.eqb Ascii.eqb Bool.eqb first_marker].
    now rewrite (open_read_exists _ _ _ R). }
  assert (D : _analyze_dependencies json_load toml_load py_str root "go"
              = Ok (Some (go_block_lines block))).
  { unfold _analyze_dependencies, analyzers.
    cbn [lookup String.eqb Ascii.eqb Bool.eqb].
    unfold _analyze_go_dependencies.
    now rewrite (go_require_block _ _ _ _ _ _ R H1 H2 N). }
  repeat split; try assumption.
  unfold detect_build_instructions. rewrite L. cbn [rbind].
  rewrite B, D. reflexivity.
Qed.

End GoScenario.

(** The scenario on a checkout with go.mod, main.go and
    internal/util.go. *)
Lemma go_repository_detection_witness :
  detect_build_instructions Sample.json_load Sample.toml_load Sample.py_str
    Sample.go_checkout
  = Ok {| language := "go";
          build_system := "go";
          dependencies := Some ["github.com/x/y v1.0.0"];
          setup_steps := None;
          build_commands := None;
          test_commands := None |}.
Proof.
  refine (proj2 (proj2 (proj2
    (go_repository_detection Sample.json_load Sample.toml_load Sample.py_str
       Sample.go_checkout Sample.go_mod
       ("module example.com/m" ++ Sample.newline ++ Sample.newline ++ "go 1.21"
        ++ Sample.newline ++ Sample.newline)
       (Sample.newline ++ "    github.com/x/y v1.0.0" ++ Sample.newline ++ ")"
        ++ Sample.newline)
       (Sample.newline ++ "    github.com/x/y v1.0.0" ++ Sample.newline)
       Sample.newline
       _ _ _ _ _)))); reflexivity.
Defined.

Example go_one_line_block :
  detect_build_instructions Sample.json_load Sample.toml_load Sample.py_str
    Sample.go_one_line_checkout
  = Ok {| language := "go";
          build_system := "go";
          dependencies := Some ["github.com/x/y v1.0.0"];
          setup_steps := None;
          build_commands := None;
          test_commands := None |}.
Proof. reflexivity. Qed.

(** ** A require block that names the marker again *)

Lemma strip_prefix_extend (sep s r t : string) :
  PyStr.strip_prefix sep s = Some r ->
  PyStr.strip_prefix sep (s ++ t) = Some (r ++ t).
Proof.
  revert s. induction sep as [|a sep IH]; intros s H; cbn [PyStr.strip_prefix] in *.
  - now inversion H.
  - destruct s as [|b s]; [discriminate H|]. cbn [append].
    destruct (Ascii.eqb a b); [now apply IH | discriminate H].
Qed.

Lemma strip_prefix_short (sep s t : string) :
  PyStr.strip_prefix sep s = None -> String.length sep <= String.length s ->
  PyStr.strip_prefix sep (s ++ t) = None.
Proof.
  revert s. induction sep as [|a sep IH]; intros s H L;
    cbn [PyStr.strip_prefix String.length] in *.
  - discriminate H.
  - destruct s as [|b s]; cbn [String.length append] in *; [lia|].
    destruct (Ascii.eqb a b); [apply IH; [exact H | lia] | reflexivity].
Qed.

(** The leftmost occurrence in a text stays the leftmost when the text
    goes on. *)
Lemma find_first_extend (sep s a b t : string) :
  PyStr.find_first sep s = Some (a, b) ->
  PyStr.find_first sep (s ++ t) = Some (a, b ++ t).
Proof.
  revert a b. induction s as [|c s IH]; intros a b H.
  - destruct sep; cbn in H; [|discriminate H]. inversion H; subst.
    cbn [append]. destruct t; reflexivity.
  - cbn [PyStr.find_first] in H. cbn [append PyStr.find_first].
    destruct (PyStr.strip_prefix sep (String c s)) as [rest|] eqn:E.
    + inversion H; subst.
      change (String c (s ++ t)) with (String c s ++ t).
      now rewrite (strip_prefix_extend _ _ _ t E).
    + destruct (PyStr.find_first sep s) as [[a' b']|] eqn:F; [|discriminate H].
      inversion H; subst.
      change (String c (s ++ t)) with (String c s ++ t).
      rewrite (strip_prefix_short _ _ t E).
      * now rewrite (IH _ _ eq_refl).
      * apply find_first_app in F. subst s. cbn [String.length].
        rewrite !string_length_app. lia.
Qed.

(** There is no occurrence before the leftmost one. *)
Lemma find_first_before (sep s a b : string) :
  sep <> "" -> PyStr.find_first sep s = Some (a, b) ->
  PyStr.find_first sep a = None.
Proof.
  intros Hsep H.
  destruct (PyStr.find_first sep a) as [[x y]|] eqn:F; [exfalso|reflexivity].
  pose proof (find_first_app _ _ _ _ H) as E.
  apply (find_first_extend _ _ _ _ (sep ++ b)) in F.
  rewrite <- E, H in F. inversion F as [[E1 E2]].
  apply (f_equal String.length) in E2. rewrite !string_length_app in E2.
  destruct sep; [congruence | cbn [String.length] in E2; lia].
Qed.

Lemma find_first_none_prefix (sep a t : string) :
  PyStr.find_first sep (a ++ t) = None -> PyStr.find_first sep a = None.
Proof.
  intros H. destruct (PyStr.find_first sep a) as [[x y]|] eqn:F; [|reflexivity].
  apply (find_first_extend _ _ _ _ t) in F. congruence.
Qed.

(** When the text between the first "require (" and the first ")"
    after it names the marker again, the analyzer reads the text
    before that second marker only. *)
Lemma go_require_block_cut (root : tree)
  (content pre rest block post kept dropped : string) :
  open_read root "go.mod" = Ok content ->
  PyStr.find_first "require (" content = Some (pre, rest) ->
  PyStr.find_first ")" rest = Some (block, post) ->
  PyStr.find_first "require (" block = Some (kept, dropped) ->
  go_dependencies_try root = Ok (go_block_lines kept).
Proof.
  intros R H1 H2 H3. unfold go_dependencies_try.
  rewrite (open_read_exists _ _ _ R), R. cbn [rbind].
  unfold PyStr.contains. rewrite H1.
  rewrite (split_unfold "require (" content) by discriminate. rewrite H1.
  cbn [nth_error].
  rewrite (split_unfold "require (" rest) by discriminate.
  pose proof (find_first_app _ _ _ _ H2) as E2.
  pose proof (find_first_extend _ _ _ _ (")" ++ post) H3) as F.
  rewrite <- E2 in F. rewrite F. cbn [nth_error rbind].
  assert (N : PyStr.find_first ")" kept = None).
  { apply (find_first_none_prefix _ _ ("require (" ++ dropped)).
    rewrite <- (find_first_app _ _ _ _ H3).
    apply (find_first_before ")" rest block post); [discriminate | exact H2]. }
  rewrite (split_unfold ")" kept) by discriminate. rewrite N. reflexivity.
Qed.

(** ** The lines of a block *)

Lemma splitlines_line (l s : string) :
  one_line l = true ->
  PyStr.splitlines (l ++ String "010" s) = l :: PyStr.splitlines s.
Proof.
  induction l as [|c l IH]; intros H.
  - reflexivity.
  - cbn [one_line] in H. apply andb_prop in H. destruct H as [Hc Hl].
    apply negb_true_iff in Hc.
    cbn [append PyStr.splitlines]. rewrite Hc. now rewrite (IH Hl).
Qed.

Lemma splitlines_one_line (l : string) :
  one_line l = true ->
  PyStr.splitlines l = if PyStr.truthy l then [l] else [].
Proof.
  induction l as [|c l IH]; intros H; [reflexivity|].
  cbn [one_line] in H. apply andb_prop in H. destruct H as [Hc Hl].
  apply negb_true_iff in Hc.
  cbn [PyStr.splitlines PyStr.truthy]. rewrite Hc, (IH Hl).
  destruct l; reflexivity.
Qed.

(** The descriptors of a text written line by line are the stripped
    lines that are not blank, one for each. *)
Lemma go_block_lines_concat (lines : list string) :
  forallb one_line lines = true ->
  go_block_lines (String.concat (String "010" "") lines)
  = filter PyStr.truthy (map PyStr.strip lines).
Proof.
  unfold go_block_lines.
  induction lines as [|l lines IH]; intros H; [reflexivity|].
  cbn [forallb] in H. apply andb_prop in H. destruct H as [Hl Hr].
  destruct lines as [|r rs].
  - cbn [String.concat map filter]. rewrite (splitlines_one_line _ Hl).
    destruct l as [|c l]; reflexivity.
  - change (String.concat (String "010" "") (l :: r :: rs))
      with (l ++ String "010" (String.concat (String "010" "") (r :: rs))).
    rewrite (splitlines_line _ _ Hl). cbn [map filter].
    now rewrite (IH Hr).
Qed.

Section GoBlockCut.

Variable json_load : string -> option pyobj.
Variable toml_load : string -> option (list (string * pyobj)).
Variable py_str : pyobj -> string.

(** C8, what the code does.  The analyzer cuts the text after the
    first "require (" at the next "require (" as well as at the next
    ")".  When the text of the first block, up to the first ")" after
    its opening, names the marker again, the dependencies are the
    stripped non-blank lines written before that second marker, one
    for each line; the rest of that line and every later line of the
    block are left out. *)
Theorem go_require_block_cut_short (root : tree)
  (content pre rest block post kept dropped : string) (lines : list string) :
  open_read root "go.mod" = Ok content ->
  PyStr.find_first "require (" content = Some (pre, rest) ->
  PyStr.find_first ")" rest = Some (block, post) ->
  PyStr.find_first "require (" block = Some (kept, dropped) ->
  kept = String.concat (String "010" "") lines ->
  forallb one_line lines = true ->
  _analyze_dependencies json_load toml_load py_str root "go"
  = Ok (Some (filter PyStr.truthy (map PyStr.strip lines))).
Proof.
  intros R H1 H2 H3 K L.
  unfold _analyze_dependencies, analyzers.
  cbn [lookup String.eqb Ascii.eqb Bool.eqb].
  unfold _analyze_go_dependencies.
  rewrite (go_require_block_cut _ _ _ _ _ _ _ _ R H1 H2 H3).
  now rewrite K, (go_block_lines_concat _ L).
Qed.

End GoBlockCut.

(** C8 on a go.mod whose block holds three modules, the second with a
    comment that names the marker: the checkout is detected as Go, and
    of the three modules the first and a part of the second are
    reported. *)
Lemma go_require_block_cut_short_witness :
  detect_build_instructions Sample.json_load Sample.toml_load Sample.py_str
    Sample.go_commented_checkout
  = Ok {| language := "go";
          build_system := "go";
          dependencies := Some ["github.com/x/y v1.0.0";
                                "github.com/a/b v1.2.3 // moved from"];
          setup_steps := None;
          build_commands := None;
          test_commands := None |}
  /\ _analyze_dependencies Sample.json_load Sample.toml_load Sample.py_str
       Sample.go_commented_checkout "go"
     = Ok (Some ["github.com/x/y v1.0.0"; "github.com/a/b v1.2.3 // moved from"]).
Proof.
  split; [reflexivity|].
  apply (go_require_block_cut_short
           Sample.json_load Sample.toml_load Sample.py_str
           Sample.go_commented_checkout Sample.go_commented_mod
           ("module example.com/m" ++ Sample.newline ++ Sample.newline)
           (Sample.newline
            ++ "    github.com/x/y v1.0.0" ++ Sample.newline
            ++ "    github.com/a/b v1.2.3 // moved from require (" ++ Sample.newline
            ++ "    github.com/c/d v2.0.0" ++ Sample.newline
            ++ ")" ++ Sample.newline)
           (Sample.newline
            ++ "    github.com/x/y v1.0.0" ++ Sample.newline
            ++ "    github.com/a/b v1.2.3 // moved from require (" ++ Sample.newline
            ++ "    github.com/c/d v2.0.0" ++ Sample.newline)
           Sample.newline
           (Sample.newline
            ++ "    github.com/x/y v1.0.0" ++ Sample.newline
            ++ "    github.com/a/b v1.2.3 // moved from ")
           (Sample.newline ++ "    github.com/c/d v2.0.0" ++ Sample.newline)
           [""; "    github.com/x/y v1.0.0";
            "    github.com/a/b v1.2.3 // moved from "]);
    reflexivity.
Defined.

(** The count of a language takes in directories: below directories
    named like Python files, a checkout whose files are go.mod and one
    *.go file is detected as Python. *)
Example directory_names_are_counted :
  language_counts Sample.go_named_dirs_checkout
  = [("python", 2); ("javascript", 0); ("typescript", 0); ("java", 0);
     ("go", 2); ("rust", 0)]
  /\ detect_build_instructions Sample.json_load Sample.toml_load Sample.py_str
       Sample.go_named_dirs_checkout
     = Ok {| language := "python";
             build_system := "unknown";
             dependencies := Some [];
             setup_steps := None;
             build_commands := None;
             test_commands := None |}.
Proof. split; reflexivity. Qed.

(** ** Control: counters, escaping errors, process records *)

Lemma counters_kept_ret {A} (a : A) : counters_kept (ret a).
Proof. intros st. cbn. repeat split; discriminate. Qed.

Lemma counters_kept_raise {A} (e : exn) : counters_kept (@raise A e).
Proof. intros st. cbn. repeat split; discriminate. Qed.

Lemma counters_kept_bind {A B} (m : M A) (k : A -> M B) :
  counters_kept m -> (forall a, counters_kept (k a)) ->
  counters_kept (bind m k).
Proof.
  intros Hm Hk st. unfold bind.
  specialize (Hm st). destruct (m st) as [[a|e|] st1]; cbn [fst snd] in *.
  - destruct (Hk a st1) as (H1 & H2 & H3). destruct Hm as (G1 & G2 & _).
    repeat split; congruence.
  - destruct Hm as (G1 & G2 & _). repeat split; congruence.
  - destruct Hm as (_ & _ & G). congruence.
Qed.

Lemma counters_kept_try {A} (class : exn -> bool) (m : M A) (h : exn -> M A) :
  counters_kept m -> (forall e, counters_kept (h e)) ->
  counters_kept (try_except class m h).
Proof.
  intros Hm Hh st. unfold try_except.
  specialize (Hm st). destruct (m st) as [[a|e|] st1]; cbn [fst snd] in *; auto.
  destruct (class e); cbn [fst snd]; auto.
  destruct (Hh e st1) as (H1 & H2 & H3). destruct Hm as (G1 & G2 & _).
  repeat split; congruence.
Qed.

Lemma counters_kept_for_each {A} (xs : list A) (body : A -> M unit) :
  (forall x, counters_kept (body x)) -> counters_kept (for_each xs body).
Proof.
  intros Hb. induction xs as [|x xs IH]; cbn [for_each].
  - apply counters_kept_ret.
  - apply counters_kept_bind; auto.
Qed.

Lemma counters_kept_for_each_in {A} (xs : option (list A)) (body : A -> M unit) :
  (forall x, counters_kept (body x)) -> counters_kept (for_each_in xs body).
Proof.
  intros Hb. destruct xs; cbn [for_each_in].
  - now apply counters_kept_for_each.
  - apply counters_kept_raise.
Qed.

Lemma never_raises_cpe_ret {A} (a : A) : never_raises_cpe (ret a).
Proof. intros st e H. discriminate H. Qed.

(** Whatever the body does, an [except] clause lets through only what
    its class rejects and what its handler raises. *)
Lemma never_raises_cpe_try {A} (class : exn -> bool) (m : M A) (h : exn -> M A) :
  (forall e, class e = false -> is_CalledProcessError e = false) ->
  (forall e, never_raises_cpe (h e)) ->
  never_raises_cpe (try_except class m h).
Proof.
  intros Hc Hh st e. unfold try_except.
  destruct (m st) as [[a|e'|] st1]; cbn [fst]; try discriminate.
  destruct (class e') eqn:C.
  - apply Hh.
  - cbn [fst]. intros H. inversion H; subst. now apply Hc.
Qed.

Lemma appends_procs_ret {A} (a : A) : appends_procs (ret a).
Proof. intros st. exists []. cbn. now rewrite app_nil_r. Qed.

Lemma appends_procs_raise {A} (e : exn) : appends_procs (@raise A e).
Proof. intros st. exists []. cbn. now rewrite app_nil_r. Qed.

Lemma appends_procs_bind {A B} (m : M A) (k : A -> M B) :
  appends_procs m -> (forall a, appends_procs (k a)) ->
  appends_procs (bind m k).
Proof.
  intros Hm Hk st. unfold bind.
  destruct (Hm st) as (more & E). destruct (m st) as [[a|e|] st1]; cbn [snd] in *.
  - destruct (Hk a st1) as (more' & E'). exists (more ++ more')%list.
    rewrite E', E. now rewrite app_assoc.
  - eauto.
  - eauto.
Qed.

Lemma appends_procs_try {A} (class : exn -> bool) (m : M A) (h : exn -> M A) :
  appends_procs m -> (forall e, appends_procs (h e)) ->
  appends_procs (try_except class m h).
Proof.
  intros Hm Hh st. unfold try_except.
  destruct (Hm st) as (more & E). destruct (m st) as [[a|e|] st1]; cbn [snd] in *;
    eauto.
  destruct (class e); cbn [snd]; eauto.
  destruct (Hh e st1) as (more' & E'). exists (more ++ more')%list.
  rewrite E', E. now rewrite app_assoc.
Qed.

Lemma appends_procs_for_each {A} (xs : list A) (body : A -> M unit) :
  (forall x, appends_procs (body x)) -> appends_procs (for_each xs body).
Proof.
  intros Hb. induction xs as [|x xs IH]; cbn [for_each].
  - apply appends_procs_ret.
  - apply appends_procs_bind; auto.
Qed.

Lemma appends_procs_for_each_in {A} (xs : option (list A)) (body : A -> M unit) :
  (forall x, appends_procs (body x)) -> appends_procs (for_each_in xs body).
Proof.
  intros Hb. destruct xs; cbn [for_each_in].
  - now apply appends_procs_for_each.
  - apply appends_procs_raise.
Qed.

Section ExecutorProperties.

Variable json_load : string -> option pyobj.
Variable toml_load : string -> option (list (string * pyobj)).
Variable py_str : pyobj -> string.
Variable host : list string -> option string -> tree -> tree * proc_result.
Variable rmtree_error : string -> list node -> option string.

Local Notation run := (subprocess_run host).
Local Notation execute :=
  (execute_build json_load toml_load py_str host rmtree_error).
Local Notation recover :=
  (_handle_build_failure json_load toml_load py_str rmtree_error).

Lemma counters_kept_run (argv : list string) (cwd : option string) :
  counters_kept (run argv cwd).
Proof.
  intros st. unfold subprocess_run. destruct (refused argv cwd).
  - cbn. repeat split; discriminate.
  - destruct (host argv cwd (fs st)) as [root' [code|what]];
      [destruct (Z.eqb code 0)|]; cbn; repeat split; discriminate.
Qed.

Lemma appends_procs_run (argv : list string) (cwd : option string) :
  appends_procs (run argv cwd).
Proof.
  intros st. unfold subprocess_run. destruct (refused argv cwd).
  - cbn. eauto.
  - destruct (host argv cwd (fs st)) as [root' [code|what]];
      [destruct (Z.eqb code 0)|]; cbn; eauto.
Qed.

(** The first thing [run] does is to record its call. *)
Lemma run_records (argv : list string) (cwd : option string) (st : state) :
  exists outcome,
    procs (snd (run argv cwd st))
    = (procs st ++ [mkProcEvent argv cwd outcome])%list.
Proof.
  unfold subprocess_run. destruct (refused argv cwd).
  - cbn. eauto.
  - destruct (host argv cwd (fs st)) as [root' [code|what]];
      [destruct (Z.eqb code 0)|]; cbn; eauto.
Qed.

Lemma counters_kept_exists (name : string) : counters_kept (exists_in_repo name).
Proof. intros st. cbn. repeat split; discriminate. Qed.

Lemma appends_procs_exists (name : string) : appends_procs (exists_in_repo name).
Proof. intros st. exists []. cbn. now rewrite app_nil_r. Qed.

Lemma setup_environment_counters (repo_path : string) (ins : BuildInstructions) :
  counters_kept (_setup_environment host repo_path ins).
Proof.
  unfold _setup_environment. apply counters_kept_try.
  - destruct (String.eqb _ "python").
    + apply counters_kept_bind; [apply counters_kept_exists|].
      intros []; cbn [negb]; [apply counters_kept_ret | apply counters_kept_run].
    + destruct (existsb _ _); [|apply counters_kept_ret].
      apply counters_kept_bind; [apply counters_kept_exists|].
      intros []; cbn [negb]; [apply counters_kept_ret | apply counters_kept_run].
  - intros e. apply counters_kept_raise.
Qed.

Lemma setup_environment_no_cpe (repo_path : string) (ins : BuildInstructions) :
  never_raises_cpe (_setup_environment host repo_path ins).
Proof.
  unfold _setup_environment. apply never_raises_cpe_try.
  - discriminate.
  - intros e st e' H. cbn in H. now inversion H.
Qed.

Lemma setup_environment_appends (repo_path : string) (ins : BuildInstructions) :
  appends_procs (_setup_environment host repo_path ins).
Proof.
  unfold _setup_environment. apply appends_procs_try.
  - destruct (String.eqb _ "python").
    + apply appends_procs_bind; [apply appends_procs_exists|].
      intros []; cbn [negb]; [apply appends_procs_ret | apply appends_procs_run].
    + destruct (existsb _ _); [|apply appends_procs_ret].
      apply appends_procs_bind; [apply appends_procs_exists|].
      intros []; cbn [negb]; [apply appends_procs_ret | apply appends_procs_run].
  - intros e. apply appends_procs_raise.
Qed.

(** What the lookup in the registry of [__init__] can return. *)
Lemma build_handlers_cases (lang : string) (handle : handler) :
  lookup lang (build_handlers host) = Some handle ->
  handle = _handle_python_build host \/ handle = _handle_javascript_build host
  \/ handle = _handle_java_build \/ handle = _handle_go_build
  \/ handle = _handle_rust_build.
Proof.
  unfold build_handlers.
  repeat (rewrite lookup_cons; destruct (String.eqb _ lang);
          [intros H; inversion H; tauto|]).
  discriminate.
Qed.

Lemma registered_handler_counters (lang repo_path : string) (handle : handler)
  (ins : BuildInstructions) :
  lookup lang (build_handlers host) = Some handle ->
  counters_kept (handle repo_path ins).
Proof.
  intros H. apply build_handlers_cases in H.
  destruct H as [ -> | [ -> | [ -> | [ -> | -> ] ] ] ]; try apply counters_kept_ret.
  - unfold _handle_python_build. apply counters_kept_try.
    + apply counters_kept_bind; [apply counters_kept_run|]. intros _.
      apply counters_kept_bind; [|intros; apply counters_kept_ret].
      apply counters_kept_for_each_in. intros; apply counters_kept_run.
    + intros; apply counters_kept_ret.
  - unfold _handle_javascript_build. apply counters_kept_try.
    + apply counters_kept_bind; [apply counters_kept_run|]. intros _.
      apply counters_kept_bind; [|intros; apply counters_kept_ret].
      apply counters_kept_for_each_in. intros; apply counters_kept_run.
    + intros; apply counters_kept_ret.
Qed.

(** The Python and JavaScript handlers catch [CalledProcessError]
    themselves; the other three have no body. *)
Lemma registered_handler_no_cpe (lang repo_path : string) (handle : handler)
  (ins : BuildInstructions) :
  lookup lang (build_handlers host) = Some handle ->
  never_raises_cpe (handle repo_path ins).
Proof.
  intros H. apply build_handlers_cases in H.
  destruct H as [ -> | [ -> | [ -> | [ -> | -> ] ] ] ]; try apply never_raises_cpe_ret.
  - unfold _handle_python_build. apply never_raises_cpe_try; [auto|].
    intros; apply never_raises_cpe_ret.
  - unfold _handle_javascript_build. apply never_raises_cpe_try; [auto|].
    intros; apply never_raises_cpe_ret.
Qed.

(** With the registry of [__init__] the [except] clause of
    [execute_build] is never taken: one call is the environment setup
    followed by the handler, and nothing else. *)
Lemma execute_build_single_pass (fuel : nat) (repo_path : string)
  (ins : BuildInstructions) (st : state) :
  execute (S fuel) repo_path ins st
  = bind (_setup_environment host repo_path ins)
      (fun _ =>
         match lookup (PyStr.lower (language ins)) (build_handlers host) with
         | Some handle => handle repo_path ins
         | None => raise (BuildError ("Unsupported language: " ++ language ins) None)
         end)
      {| fs := fs st; procs := procs st; attempts := S (attempts st);
         recoveries := recoveries st |}.
Proof.
  unfold execute_build. cbn [execute_build_with].
  unfold bind at 1. cbn [enter_attempt].
  set (st1 := {| fs := fs st; procs := procs st; attempts := S (attempts st);
                 recoveries := recoveries st |}).
  unfold try_except.
  match goal with |- match ?b st1 with _ => _ end = _ => set (body := b) end.
  assert (N : never_raises_cpe body).
  { intros s e. unfold body, bind.
    pose proof (setup_environment_no_cpe repo_path ins s) as S1.
    destruct (_setup_environment host repo_path ins s) as [[[]|e1|] s1]; cbn [fst] in *.
    - destruct (lookup _ (build_handlers host)) as [handle|] eqn:L.
      + apply (registered_handler_no_cpe _ repo_path handle ins L).
      + cbn. intros H. now inversion H.
    - intros H. inversion H; subst. now apply S1.
    - discriminate. }
  specialize (N st1). destruct (body st1) as [[a|e|] s2]; cbn [fst] in N; try reflexivity.
  now rewrite (N e eq_refl).
Qed.

(** With the registry of [__init__], one call of [execute_build] is one
    attempt: it ends, and it never enters [_handle_build_failure],
    whether the build succeeds or fails. *)
Lemma execute_build_one_attempt (fuel : nat) (repo_path : string)
  (ins : BuildInstructions) (st : state) :
  attempts (snd (execute (S fuel) repo_path ins st)) = S (attempts st)
  /\ recoveries (snd (execute (S fuel) repo_path ins st)) = recoveries st
  /\ fst (execute (S fuel) repo_path ins st) <> OutOfFuel.
Proof.
  rewrite execute_build_single_pass.
  match goal with |- context [bind ?m ?k ?s] =>
    assert (K : counters_kept (bind m k)); [|exact (K s)] end.
  apply counters_kept_bind; [apply setup_environment_counters|]. intros _.
  destruct (lookup _ (build_handlers host)) as [handle|] eqn:L.
  - exact (registered_handler_counters _ repo_path handle ins L).
  - apply counters_kept_raise.
Qed.

(** C6: for instructions whose lower-cased language has no handler in
    the registry, [execute_build] raises [BuildError] with the message
    "Unsupported language: ..." out of its first attempt; the checkout
    and the record of process calls are as before, and
    [_handle_build_failure] is not entered. *)
Theorem unsupported_language_fails_at_once (fuel : nat) (repo_path : string)
  (ins : BuildInstructions) (st : state) :
  lookup (PyStr.lower (language ins)) (build_handlers host) = None ->
  execute (S fuel) repo_path ins st
  = (Raise (BuildError ("Unsupported language: " ++ language ins) None),
     {| fs := fs st; procs := procs st; attempts := S (attempts st);
        recoveries := recoveries st |}).
Proof.
  intros H. rewrite execute_build_single_pass. rewrite H.
  unfold build_handlers in H.
  rewrite lookup_cons in H.
  destruct (String.eqb "python" _) eqn:E1 in H; [discriminate H|].
  rewrite lookup_cons in H.
  destruct (String.eqb "javascript" _) eqn:E2 in H; [discriminate H|].
  rewrite lookup_cons in H.
  destruct (String.eqb "typescript" _) eqn:E3 in H; [discriminate H|].
  unfold bind, _setup_environment, try_except.
  rewrite String.eqb_sym, E1. cbn [existsb].
  rewrite (String.eqb_sym _ "javascript"), E2.
  rewrite (String.eqb_sym _ "typescript"), E3.
  reflexivity.
Qed.

(** C9, what the code does: a Python build spawns [python -m venv] for
    the .venv directory as its first process even when that directory
    already exists; [_setup_environment] skips the creation, the Python
    handler repeats it without looking. *)
Theorem python_build_recreates_venv (fuel : nat) (repo_path : string)
  (ins : BuildInstructions) (st : state) :
  PyStr.lower (language ins) = "python" ->
  path_exists (fs st) ".venv" = true ->
  exists outcome rest,
    procs (snd (execute (S fuel) repo_path ins st))
    = (procs st ++ mkProcEvent (venv_command repo_path) None outcome :: rest)%list.
Proof.
  intros Hlang Hvenv. rewrite execute_build_single_pass.
  unfold bind at 1, _setup_environment, try_except at 1, bind at 1, exists_in_repo.
  rewrite Hlang. cbn [String.eqb Ascii.eqb Bool.eqb fs]. rewrite Hvenv.
  cbn [negb ret lookup build_handlers String.eqb Ascii.eqb Bool.eqb].
  set (st1 := {| fs := fs st; procs := procs st; attempts := S (attempts st);
                 recoveries := recoveries st |}).
  unfold _handle_python_build.
  match goal with
  | |- context [try_except ?c (bind ?first (fun _ => ?rest)) ?h st1] =>
      assert (T : try_except c (bind first (fun _ => rest)) h st1
                  = match first st1 with
                    | (Ret _, s) => try_except c rest h s
                    | (Raise e, s) => if c e then h e s else (Raise e, s)
                    | (OutOfFuel, s) => (OutOfFuel, s)
                    end);
      [ unfold try_except, bind; destruct (first st1) as [[[]|e|] s]; reflexivity
      | rewrite T; clear T;
        assert (A : appends_procs (try_except c rest h)) ]
  end.
  { apply appends_procs_try; [|intros; apply appends_procs_ret].
    apply appends_procs_bind; [|intros; apply appends_procs_ret].
    apply appends_procs_for_each_in. intros; apply appends_procs_run. }
  destruct (run_records (venv_command repo_path) None st1) as (outcome & E).
  unfold venv_command in *.
  destruct (run _ None st1) as [[[]|e|] s]; cbn [snd] in E.
  - destruct (A s) as (more & F). exists outcome, more.
    rewrite F, E. rewrite <- app_assoc. reflexivity.
  - exists outcome, []. destruct (is_CalledProcessError e); cbn [snd ret]; exact E.
  - exists outcome, []. exact E.
Qed.

Lemma counters_kept_rmtree (name : string) :
  counters_kept (rmtree rmtree_error name).
Proof.
  intros st. unfold rmtree.
  destruct (find _ (fs st)) as [[name' content|name' children]|];
    [| destruct (rmtree_error name children) |];
    cbn; repeat split; discriminate.
Qed.

Lemma clean_build_artifacts_counters (repo_path : string) :
  counters_kept (_clean_build_artifacts rmtree_error repo_path).
Proof.
  unfold _clean_build_artifacts. apply counters_kept_try.
  - apply counters_kept_for_each. intros dir_name.
    apply counters_kept_bind; [apply counters_kept_exists|].
    intros []; [apply counters_kept_rmtree | apply counters_kept_ret].
  - intros; apply counters_kept_ret.
Qed.

(** The cleanup swallows whatever its loop raises. *)
Lemma clean_build_artifacts_returns (repo_path : string) (st : state) :
  fst (_clean_build_artifacts rmtree_error repo_path st) = Ret tt.
Proof.
  pose proof (clean_build_artifacts_counters repo_path st) as (_ & _ & C).
  revert C. unfold _clean_build_artifacts, try_except.
  destruct (for_each build_dirs _ st) as [[[]|e|] s]; cbn; congruence.
Qed.

(** C5, what the code does.  [_handle_build_failure] makes no use of
    the error it is given.  It cleans the build artifacts and
    synthesises the retry instructions from the cleaned checkout; when
    the synthesis raises it returns [False] without a retry; otherwise
    it calls the retry once, on the cleaned checkout, and returns the
    very value the retry returns, or [False] when the retry raises,
    whatever the exception.  What the caller receives is that bare
    value alone. *)
Theorem handle_build_failure_returns_bare_result (retry : handler)
  (repo_path : string) (error : exn) (st : state) :
  let cleaned :=
    snd (_clean_build_artifacts rmtree_error repo_path
           {| fs := fs st; procs := procs st; attempts := attempts st;
              recoveries := S (recoveries st) |}) in
  recover retry repo_path error st
  = match _modify_build_instructions json_load toml_load py_str (fs cleaned) with
    | Err _ => (Ret (Some false), cleaned)
    | Ok modified_instructions =>
        match retry repo_path modified_instructions cleaned with
        | (Ret v, st') => (Ret v, st')
        | (Raise _, st') => (Ret (Some false), st')
        | (OutOfFuel, st') => (OutOfFuel, st')
        end
    end.
Proof.
  cbn zeta. unfold _handle_build_failure, bind at 1. cbn [enter_recovery].
  unfold try_except at 1, bind at 1.
  match goal with |- context [_clean_build_artifacts rmtree_error repo_path ?s] =>
    pose proof (clean_build_artifacts_returns repo_path s) as C;
    destruct (_clean_build_artifacts rmtree_error repo_path s) as [r s1] end.
  cbn [fst snd] in *. subst r.
  unfold bind, scan.
  destruct (_modify_build_instructions _ _ _ (fs s1)) as [ins|e]; [|reflexivity].
  destruct (retry repo_path ins s1) as [[v|e|] s2]; reflexivity.
Qed.

End ExecutorProperties.

(** ** The registry of [__init__] and registries that let errors escape *)

(** C6 on instructions for Kotlin. *)
Lemma unsupported_language_fails_at_once_witness :
  execute_build Sample.json_load Sample.toml_load Sample.py_str Sample.host_venv Sample.rmtree_ok
    1 "/repo" Sample.kotlin_instructions (Sample.initial Sample.pinned_checkout)
  = (Raise (BuildError "Unsupported language: Kotlin" None),
     {| fs := Sample.pinned_checkout; procs := []; attempts := 1;
        recoveries := 0 |}).
Proof.
  apply (unsupported_language_fails_at_once
           Sample.json_load Sample.toml_load Sample.py_str Sample.host_venv Sample.rmtree_ok
           0 "/repo" Sample.kotlin_instructions
           (Sample.initial Sample.pinned_checkout)).
  reflexivity.
Defined.

(** C9 on the second of two builds: the first build has left the .venv
    directory behind, and the second spawns its creation again. *)
Lemma python_build_recreates_venv_witness :
  let first_build :=
    execute_build Sample.json_load Sample.toml_load Sample.py_str Sample.host_venv Sample.rmtree_ok
      1 "/repo" Sample.python_instructions (Sample.initial Sample.pinned_checkout) in
  path_exists (fs (snd first_build)) ".venv" = true
  /\ exists outcome rest,
       procs (snd (execute_build Sample.json_load Sample.toml_load Sample.py_str
                     Sample.host_venv Sample.rmtree_ok 1 "/repo" Sample.python_instructions
                     (snd first_build)))
       = (procs (snd first_build)
          ++ mkProcEvent (venv_command "/repo") None outcome :: rest)%list.
Proof.
  split; [reflexivity|].
  apply (python_build_recreates_venv
           Sample.json_load Sample.toml_load Sample.py_str Sample.host_venv Sample.rmtree_ok
           0 "/repo" Sample.python_instructions); reflexivity.
Defined.

Example two_python_builds_create_venv_three_times :
  let first_build :=
    execute_build Sample.json_load Sample.toml_load Sample.py_str Sample.host_venv Sample.rmtree_ok
      1 "/repo" Sample.python_instructions (Sample.initial Sample.pinned_checkout) in
  let second_build :=
    execute_build Sample.json_load Sample.toml_load Sample.py_str Sample.host_venv Sample.rmtree_ok
      1 "/repo" Sample.python_instructions (snd first_build) in
  map ev_argv (procs (snd second_build))
  = [ venv_command "/repo"; venv_command "/repo";
      ["/repo/.venv/bin/pip"; "install"; "-r"; "requirements.txt"];
      venv_command "/repo";
      ["/repo/.venv/bin/pip"; "install"; "-r"; "requirements.txt"] ].
Proof. reflexivity. Qed.

(** The guard of [_setup_environment] alone does what C9 says. *)
Lemma setup_environment_skips_existing_venv
  (host : list string -> option string -> tree -> tree * proc_result)
  (repo_path : string) (ins : BuildInstructions) (st : state) :
  PyStr.lower (language ins) = "python" ->
  path_exists (fs st) ".venv" = true ->
  _setup_environment host repo_path ins st = (Ret tt, st).
Proof.
  intros Hlang Hvenv.
  unfold _setup_environment, try_except, bind, exists_in_repo.
  rewrite Hlang. cbn [String.eqb Ascii.eqb Bool.eqb]. now rewrite Hvenv.
Qed.

(** With a handler that lets [CalledProcessError] escape on every call,
    the retry re-enters [execute_build] and with it the recovery: every
    level of the recursion is one more attempt and one more recovery,
    and the cycle has no bound of its own: at every depth [n] it is
    still running. *)
Lemma always_raising_never_ends (n : nat) :
  forall (system : string) (deps steps commands tests : option (list string))
         (calls : list proc_event) (a r : nat),
    let out :=
      execute_build_with Sample.json_load Sample.toml_load Sample.py_str
        Sample.host_ok Sample.rmtree_ok Sample.always_raising n "/repo"
        {| language := "python"; build_system := system; dependencies := deps;
           setup_steps := steps; build_commands := commands;
           test_commands := tests |}
        {| fs := []; procs := calls; attempts := a; recoveries := r |} in
    fst out = OutOfFuel
    /\ attempts (snd out) = a + n
    /\ recoveries (snd out) = r + n.
Proof.
  induction n as [|n IH]; intros system deps steps commands tests calls a r.
  - cbn. repeat split; lia.
  - cbn zeta.
    assert (E :
      execute_build_with Sample.json_load Sample.toml_load Sample.py_str
        Sample.host_ok Sample.rmtree_ok Sample.always_raising (S n) "/repo"
        {| language := "python"; build_system := system; dependencies := deps;
           setup_steps := steps; build_commands := commands;
           test_commands := tests |}
        {| fs := []; procs := calls; attempts := a; recoveries := r |}
      = let (x, y) :=
          execute_build_with Sample.json_load Sample.toml_load Sample.py_str
            Sample.host_ok Sample.rmtree_ok Sample.always_raising n "/repo"
            {| language := "python"; build_system := "unknown";
               dependencies := Some [];
               setup_steps := Some ["Clean build artifacts";
                                    "Update package manager";
                                    "Install dependencies with relaxed constraints"];
               build_commands := Some ["pip install --upgrade pip";
                                       "pip install -r requirements.txt --upgrade"];
               test_commands := Some [] |}
            {| fs := [];
               procs := (calls ++ [mkProcEvent (venv_command "/repo") None
                                     (Exited 0)])%list;
               attempts := S a; recoveries := S r |} in
        (match x with Raise _ => Ret (Some false) | other => other end, y)).
    { cbn [execute_build_with].
      remember (execute_build_with Sample.json_load Sample.toml_load Sample.py_str
                  Sample.host_ok Sample.rmtree_ok Sample.always_raising n) as retry eqn:R.
      clear R IH. vm_compute.
      destruct (retry _ _ _) as [[v|e|] s]; reflexivity. }
    rewrite E. clear E.
    specialize (IH "unknown" (Some [])
                  (Some ["Clean build artifacts"; "Update package manager";
                         "Install dependencies with relaxed constraints"])
                  (Some ["pip install --upgrade pip";
                         "pip install -r requirements.txt --upgrade"])
                  (Some [])
                  (calls ++ [mkProcEvent (venv_command "/repo") None (Exited 0)])%list
                  (S a) (S r)).
    cbn zeta in IH.
    destruct (execute_build_with _ _ _ _ _ _ n _ _ _) as [x y].
    cbn [fst snd] in *. destruct IH as (-> & -> & ->).
    repeat split; lia.
Qed.

(** C1, what the code does.  With the registry of [__init__] a call of
    [execute_build] is exactly one attempt and never a retry, also when
    the build fails: a failing pip command ends in [False] after one
    attempt.  And with a handler that does let [CalledProcessError]
    escape, the retry re-enters the recovery from within itself, once
    per level of the recursion, with no bound of its own. *)
Theorem execute_build_failure_attempts :
  (forall json_load toml_load py_str host rmtree_error fuel repo_path ins st,
     let out := execute_build json_load toml_load py_str host rmtree_error
                  (S fuel) repo_path ins st in
     attempts (snd out) = S (attempts st)
     /\ recoveries (snd out) = recoveries st
     /\ fst out <> OutOfFuel)
  /\ (let out := execute_build Sample.json_load Sample.toml_load Sample.py_str
                   Sample.host_pip_fails Sample.rmtree_ok 1 "/repo" Sample.python_instructions
                   (Sample.initial Sample.pinned_checkout) in
      fst out = Ret (Some false)
      /\ attempts (snd out) = 1
      /\ recoveries (snd out) = 0
      /\ map ev_result (procs (snd out)) = [Exited 0; Exited 0; Exited 1])
  /\ (forall n,
        let out := execute_build_with Sample.json_load Sample.toml_load
                     Sample.py_str Sample.host_ok Sample.rmtree_ok Sample.always_raising n
                     "/repo" Sample.python_instructions (Sample.initial []) in
        fst out = OutOfFuel
        /\ attempts (snd out) = n
        /\ recoveries (snd out) = n).
Proof.
  split; [|split].
  - intros. apply execute_build_one_attempt.
  - vm_compute. repeat split.
  - intros n. apply (always_raising_never_ends n).
Qed.

(** C5 as written fails.  A recovery whose retry fails hands the
    caller [False] and nothing else: the same value whatever the
    original error was, the same value whether the command of the retry
    exited with status 1 or with status 3, and the same value a build
    gives that failed without any retry.  Nothing in it tells the
    failed command, its exit status, or whether a retry took place. *)
Lemma terminal_failure_carries_no_reason :
  let recovered (code : Z) (error : exn) :=
    _handle_build_failure Sample.json_load Sample.toml_load Sample.py_str
      Sample.rmtree_ok
      (execute_build Sample.json_load Sample.toml_load Sample.py_str
         (Sample.host_pip_exits code) Sample.rmtree_ok 1)
      "/repo" error (Sample.initial Sample.pinned_checkout) in
  let not_retried :=
    execute_build Sample.json_load Sample.toml_load Sample.py_str
      (Sample.host_pip_exits 1) Sample.rmtree_ok 1 "/repo"
      Sample.python_instructions (Sample.initial Sample.pinned_checkout) in
  let make_failed := CalledProcessError ["make"; "all"] 2 in
  let pip_failed := CalledProcessError ["pip"; "install"] 1 in
  (attempts (snd (recovered 1%Z make_failed)) = 1
   /\ recoveries (snd (recovered 1%Z make_failed)) = 1
   /\ map ev_result (procs (snd (recovered 1%Z make_failed)))
      = [Exited 0; Exited 0; Exited 1]
   /\ map ev_result (procs (snd (recovered 3%Z make_failed)))
      = [Exited 0; Exited 0; Exited 3])
  /\ recoveries (snd not_retried) = 0
  /\ fst (recovered 1%Z make_failed) = Ret (Some false)
  /\ fst (recovered 1%Z pip_failed) = Ret (Some false)
  /\ fst (recovered 3%Z make_failed) = Ret (Some false)
  /\ fst not_retried = Ret (Some false)
  /\ ~ (exists original : res (option bool) -> exn,
          original (fst (recovered 1%Z make_failed)) = make_failed
          /\ original (fst (recovered 1%Z pip_failed)) = pip_failed)
  /\ ~ (exists exit_status : res (option bool) -> Z,
          exit_status (fst (recovered 1%Z make_failed)) = 1%Z
          /\ exit_status (fst (recovered 3%Z make_failed)) = 3%Z)
  /\ ~ (exists was_retried : res (option bool) -> bool,
          was_retried (fst (recovered 1%Z make_failed)) = true
          /\ was_retried (fst not_retried) = false).
Proof.
  cbn zeta.
  repeat split; try (vm_compute; reflexivity);
    intros (f & H1 & H2); vm_compute in H1, H2; rewrite H1 in H2;
    discriminate H2.
Qed.

(** * Further properties of the build automation *)

(** ** Cleaning build artifacts *)





Section Cleanup.

Variable rmtree_error : string -> list node -> option string.

Local Notation clean_step :=
  (fun dir_name : string =>
     bind (exists_in_repo dir_name)
       (fun present : bool =>
          if present then rmtree rmtree_error dir_name else ret tt)).

Lemma clean_loop_cons (d : string) (names : list string) (st : state) :
  for_each (d :: names) clean_step st
  = if path_exists (fs st) d then
      match find (fun n => String.eqb (node_name n) d) (fs st) with
      | Some (Dir _ children) =>
          match rmtree_error d children with
          | None =>
              for_each names clean_step
                {| fs := filter (fun n => negb (String.eqb (node_name n) d)) (fs st);
                   procs := procs st; attempts := attempts st;
                   recoveries := recoveries st |}
          | Some what => (Raise (OSError what), st)
          end
      | Some (File _ _) => (Raise (OSError "not a directory"), st)
      | None => (Raise (OSError "no such file"), st)
      end
    else for_each names clean_step st.
Proof.
  cbn [for_each]. unfold bind at 1. unfold bind at 1. cbn [exists_in_repo].
  destruct (path_exists (fs st) d); [|reflexivity].
  unfold rmtree. destruct (find _ (fs st)) as [[m c|m c]|]; try reflexivity.
  destruct (rmtree_error d c); reflexivity.
Qed.





(** A regular file named "build" stops the cleanup at its first step:
    [rmtree] raises, the loop is left, and the checkout stays as it
    was, with every other build directory still in place. *)
Theorem clean_build_artifacts_blocked_by_file (repo_path : string) (st : state)
  (content : option string) :
  find (fun n => String.eqb (node_name n) "build") (fs st)
  = Some (File "build" content) ->
  _clean_build_artifacts rmtree_error repo_path st = (Ret tt, st).
Proof.
  intros F. unfold _clean_build_artifacts, try_except, build_dirs.
  rewrite clean_loop_cons.
  assert (E : path_exists (fs st) "build" = true).
  { unfold path_exists. apply existsb_exists. exists (File "build" content).
    apply find_some in F. exact F. }
  rewrite E, F. reflexivity.
Qed.

End Cleanup.



Lemma clean_build_artifacts_blocked_by_file_witness :
  _clean_build_artifacts Sample.rmtree_ok "/repo"
    (Sample.initial Sample.blocked_checkout)
  = (Ret tt, Sample.initial Sample.blocked_checkout)
  /\ path_exists Sample.blocked_checkout "node_modules" = true.
Proof.
  split; [|reflexivity].
  apply (clean_build_artifacts_blocked_by_file Sample.rmtree_ok "/repo"
           (Sample.initial Sample.blocked_checkout) (Some "notes")).
  reflexivity.
Defined.

(** A directory that [shutil.rmtree] may not remove ends the cleanup
    where it stands: the build directory before it is gone, the dist
    directory and the node_modules directory after it stay. *)
Example undeletable_directory_ends_cleanup :
  _clean_build_artifacts Sample.rmtree_keeps_dist "/repo"
    (Sample.initial [Dir "build" []; Dir "dist" []; Dir "node_modules" []])
  = (Ret tt, Sample.initial [Dir "dist" []; Dir "node_modules" []]).
Proof. reflexivity. Qed.

(** ** Running the build commands *)

Section CommandSequences.

Variable json_load : string -> option pyobj.
Variable toml_load : string -> option (list (string * pyobj)).
Variable py_str : pyobj -> string.
Variable host : list string -> option string -> tree -> tree * proc_result.

Local Notation run := (subprocess_run host).

Lemma for_each_map {A B} (f : A -> B) (body : B -> M unit) (xs : list A)
  (st : state) :
  for_each xs (fun x => body (f x)) st = for_each (map f xs) body st.
Proof.
  revert st. induction xs as [|x xs IH]; intros st; cbn [for_each map];
    [reflexivity|].
  unfold bind. destruct (body (f x) st) as [[[]|e|] s]; auto.
Qed.

Lemma run_cons (cwd : option string) (argv : list string)
  (planned : list (list string)) (st : state) :
  for_each (argv :: planned) (fun a => run a cwd) st
  = match refused argv cwd with
    | Some e =>
        (Raise e,
         {| fs := fs st;
            procs := (procs st
                      ++ [mkProcEvent argv cwd (NotStarted "invalid arguments")])%list;
            attempts := attempts st; recoveries := recoveries st |})
    | None =>
        match snd (host argv cwd (fs st)) with
        | Exited code =>
            if Z.eqb code 0 then
              for_each planned (fun a => run a cwd)
                {| fs := fst (host argv cwd (fs st));
                   procs := (procs st
                             ++ [mkProcEvent argv cwd
                                   (snd (host argv cwd (fs st)))])%list;
                   attempts := attempts st; recoveries := recoveries st |}
            else
              (Raise (CalledProcessError argv code),
               {| fs := fst (host argv cwd (fs st));
                  procs := (procs st
                            ++ [mkProcEvent argv cwd
                                  (snd (host argv cwd (fs st)))])%list;
                  attempts := attempts st; recoveries := recoveries st |})
        | NotStarted what =>
            (Raise (OSError what),
             {| fs := fst (host argv cwd (fs st));
                procs := (procs st
                          ++ [mkProcEvent argv cwd
                                (snd (host argv cwd (fs st)))])%list;
                attempts := attempts st; recoveries := recoveries st |})
        end
    end.
Proof.
  cbn [for_each]. unfold bind, subprocess_run.
  destruct (refused argv cwd); [reflexivity|].
  destruct (host argv cwd (fs st)) as [root' [code|what]]; cbn [fst snd];
    [destruct (Z.eqb code 0)|]; reflexivity.
Qed.

(** How a run of commands can end early: with the error of a call that
    exited with a status other than 0, or with the error of a call
    that started nothing, which is the one [subprocess.run] raises
    itself when it refuses the arguments and [OSError] otherwise. *)
Local Notation stopped_by cwd last e :=
  ((exists code, code <> 0%Z /\ ev_result last = Exited code
                /\ e = CalledProcessError (ev_argv last) code)
  \/ (exists what, ev_result last = NotStarted what
                   /\ e = match refused (ev_argv last) cwd with
                          | Some r => r
                          | None => OSError what
                          end)) (only parsing).

(** A run of commands one after the other: the calls recorded are a
    prefix of the planned ones, every call but the last exited with
    status 0, and the run ends with the first call that does not. *)
Lemma run_sequence (cwd : option string) (planned : list (list string))
  (st : state) :
  exists new rest,
    procs (snd (for_each planned (fun argv => run argv cwd) st))
    = (procs st ++ new)%list
    /\ (planned = map ev_argv new ++ rest)%list
    /\ Forall (fun e => ev_cwd e = cwd) new
    /\ match fst (for_each planned (fun argv => run argv cwd) st) with
       | Ret _ => rest = [] /\ Forall (fun e => ev_result e = Exited 0) new
       | Raise e =>
           exists done last,
             (new = done ++ [last])%list
             /\ Forall (fun e => ev_result e = Exited 0) done
             /\ stopped_by cwd last e
       | OutOfFuel => False
       end.
Proof.
  revert st. induction planned as [|argv planned IH]; intros st.
  - exists [], []. cbn. rewrite app_nil_r. repeat split; constructor.
  - rewrite run_cons.
    assert (Stop : forall (e : exn) (ev : proc_event) (s1 : state),
              ev_argv ev = argv -> ev_cwd ev = cwd ->
              procs s1 = (procs st ++ [ev])%list ->
              stopped_by cwd ev e ->
              exists new rest,
                procs (snd (@Raise unit e, s1)) = (procs st ++ new)%list
                /\ (argv :: planned = map ev_argv new ++ rest)%list
                /\ Forall (fun x => ev_cwd x = cwd) new
                /\ exists done last,
                     (new = done ++ [last])%list
                     /\ Forall (fun x => ev_result x = Exited 0) done
                     /\ stopped_by cwd last e).
    { intros e ev s1 Ea Ec Ep K. exists [ev], planned.
      split; [exact Ep|]. split; [cbn [map app]; now rewrite Ea|].
      split; [repeat constructor; exact Ec|].
      exists [], ev. split; [reflexivity|]. split; [constructor | exact K]. }
    destruct (refused argv cwd) as [r|] eqn:Rf.
    { apply (Stop _ (mkProcEvent argv cwd (NotStarted "invalid arguments")));
        try reflexivity.
      right. exists "invalid arguments". cbn [ev_result ev_argv].
      now rewrite Rf. }
    set (ev := mkProcEvent argv cwd (snd (host argv cwd (fs st)))).
    set (st1 := {| fs := fst (host argv cwd (fs st));
                   procs := (procs st ++ [ev])%list;
                   attempts := attempts st; recoveries := recoveries st |}).
    destruct (snd (host argv cwd (fs st))) as [code|what] eqn:O.
    + destruct (Z.eqb code 0) eqn:C.
      * apply Z.eqb_eq in C. subst code.
        destruct (IH st1) as (new & rest & P & Q & W & R).
        exists (ev :: new), rest. rewrite P. cbn [procs st1].
        rewrite <- app_assoc. split; [reflexivity|].
        split; [cbn [map app]; now rewrite Q|].
        split; [constructor; [reflexivity | exact W]|].
        destruct (fst (for_each planned (fun a => run a cwd) st1)) as [[]|e|].
        -- destruct R as [R1 R2]. split; [exact R1|].
           constructor; [reflexivity | exact R2].
        -- destruct R as (done & last & R1 & R2 & R3).
           exists (ev :: done), last. rewrite R1. split; [reflexivity|].
           split; [constructor; [reflexivity | exact R2] | exact R3].
        -- exact R.
      * apply (Stop _ ev st1); try reflexivity.
        left. exists code. split; [now apply Z.eqb_neq|].
        split; reflexivity.
    + apply (Stop _ ev st1); try reflexivity.
      right. exists what. cbn [ev_result ev_argv ev]. now rewrite Rf.
Qed.

(** Both handlers with a body have one shape: a first command, then
    the build commands, with [CalledProcessError] turned into [False]. *)
Lemma handler_as_sequence (first : list string) (f : string -> list string)
  (cwd : option string) (cmds : list string) (st : state) :
  try_except is_CalledProcessError
    (bind (run first cwd)
       (fun _ => bind (for_each_in (Some cmds) (fun cmd => run (f cmd) cwd))
                   (fun _ => ret (Some true))))
    (fun _ => ret (Some false)) st
  = match for_each (first :: map f cmds) (fun argv => run argv cwd) st with
    | (Ret _, s) => (Ret (Some true), s)
    | (Raise e, s) =>
        if is_CalledProcessError e then (Ret (Some false), s) else (Raise e, s)
    | (OutOfFuel, s) => (OutOfFuel, s)
    end.
Proof.
  cbn [for_each for_each_in]. unfold try_except, bind.
  destruct (run first cwd st) as [[[]|e|] s1]; try reflexivity.
  rewrite (for_each_map f (fun argv => run argv cwd)).
  destruct (for_each (map f cmds) _ s1) as [[[]|e|] s2]; reflexivity.
Qed.

Lemma sequence_outcome (first : list string) (f : string -> list string)
  (cwd : option string) (cmds : list string) (st : state) (out : res (option bool) * state) :
  out = match for_each (first :: map f cmds) (fun argv => run argv cwd) st with
        | (Ret _, s) => (Ret (Some true), s)
        | (Raise e, s) =>
            if is_CalledProcessError e then (Ret (Some false), s) else (Raise e, s)
        | (OutOfFuel, s) => (OutOfFuel, s)
        end ->
  exists new rest,
    procs (snd out) = (procs st ++ new)%list
    /\ (first :: map f cmds = map ev_argv new ++ rest)%list
    /\ Forall (fun e => ev_cwd e = cwd) new
    /\ match fst out with
       | Ret (Some true) =>
           rest = [] /\ Forall (fun e => ev_result e = Exited 0) new
       | Ret (Some false) =>
           exists done last code,
             (new = done ++ [last])%list
             /\ Forall (fun e => ev_result e = Exited 0) done
             /\ ev_result last = Exited code /\ code <> 0%Z
       | Raise e =>
           exists done last what,
             (new = done ++ [last])%list
             /\ Forall (fun e => ev_result e = Exited 0) done
             /\ ev_result last = NotStarted what
             /\ e = match refused (ev_argv last) cwd with
                    | Some r => r
                    | None => OSError what
                    end
       | _ => False
       end.
Proof.
  intros ->.
  destruct (run_sequence cwd (first :: map f cmds) st) as (new & rest & P & Q & W & R).
  exists new, rest.
  destruct (for_each (first :: map f cmds) _ st) as [[[]|e|] s]; cbn [fst snd] in *.
  - auto.
  - destruct R as (done & last & R1 & R2 & [(code & C1 & C2 & ->)|(what & C1 & ->)]).
    + cbn [is_CalledProcessError fst snd]. repeat split; auto.
      exists done, last, code. auto.
    + assert (N : is_CalledProcessError
                    match refused (ev_argv last) cwd with
                    | Some r => r
                    | None => OSError what
                    end = false).
      { unfold refused. destruct (ev_argv last); [reflexivity|].
        destruct (_ || _); reflexivity. }
      rewrite N. cbn [fst snd]. repeat split; auto.
      destruct (match refused (ev_argv last) cwd with
                | Some r => r
                | None => OSError what
                end) eqn:X; try discriminate N;
        exists done, last, what; auto.
  - destruct R.
Qed.

(** The Python handler runs the venv creation and then pip with each
    build command, in order and without a working directory, and stops
    at the first call that does not exit with status 0.  It returns
    [True] when every planned call exited with 0 and [False] when the
    last call made exited with another status.  When the last call
    started nothing it lets the error through: the [ValueError] of
    [subprocess.run] for a NUL character in the arguments, and
    otherwise the [OSError] of the program that could not be
    started. *)
Theorem python_build_stops_at_first_failure (repo_path : string)
  (ins : BuildInstructions) (cmds : list string) (st : state) :
  build_commands ins = Some cmds ->
  exists new rest,
    procs (snd (_handle_python_build host repo_path ins st))
    = (procs st ++ new)%list
    /\ (venv_command repo_path
        :: map (fun cmd =>
                  PyStr.path_join
                    (PyStr.path_join (PyStr.path_join repo_path ".venv") "bin")
                    "pip" :: PyStr.words cmd) cmds
        = map ev_argv new ++ rest)%list
    /\ Forall (fun e => ev_cwd e = None) new
    /\ match fst (_handle_python_build host repo_path ins st) with
       | Ret (Some true) =>
           rest = [] /\ Forall (fun e => ev_result e = Exited 0) new
       | Ret (Some false) =>
           exists done last code,
             (new = done ++ [last])%list
             /\ Forall (fun e => ev_result e = Exited 0) done
             /\ ev_result last = Exited code /\ code <> 0%Z
       | Raise e =>
           exists done last what,
             (new = done ++ [last])%list
             /\ Forall (fun e => ev_result e = Exited 0) done
             /\ ev_result last = NotStarted what
             /\ e = match refused (ev_argv last) None with
                    | Some r => r
                    | None => OSError what
                    end
       | _ => False
       end.
Proof.
  intros B. apply sequence_outcome.
  unfold _handle_python_build. rewrite B. apply handler_as_sequence.
Qed.

(** The JavaScript handler does the same with [npm install] first and
    then each build command split at white space, all in the
    repository directory.  A build command that is blank splits into
    no words: [subprocess.run] raises [IndexError] for it, which the
    handler lets through like the other errors of calls that start
    nothing, and the commands after it are not run. *)
Theorem javascript_build_stops_at_first_failure (repo_path : string)
  (ins : BuildInstructions) (cmds : list string) (st : state) :
  build_commands ins = Some cmds ->
  exists new rest,
    procs (snd (_handle_javascript_build host repo_path ins st))
    = (procs st ++ new)%list
    /\ (["npm"; "install"] :: map PyStr.words cmds = map ev_argv new ++ rest)%list
    /\ Forall (fun e => ev_cwd e = Some repo_path) new
    /\ match fst (_handle_javascript_build host repo_path ins st) with
       | Ret (Some true) =>
           rest = [] /\ Forall (fun e => ev_result e = Exited 0) new
       | Ret (Some false) =>
           exists done last code,
             (new = done ++ [last])%list
             /\ Forall (fun e => ev_result e = Exited 0) done
             /\ ev_result last = Exited code /\ code <> 0%Z
       | Raise e =>
           exists done last what,
             (new = done ++ [last])%list
             /\ Forall (fun e => ev_result e = Exited 0) done
             /\ ev_result last = NotStarted what
             /\ e = match refused (ev_argv last) (Some repo_path) with
                    | Some r => r
                    | None => OSError what
                    end
       | _ => False
       end.
Proof.
  intros B. apply sequence_outcome.
  unfold _handle_javascript_build. rewrite B. apply handler_as_sequence.
Qed.

End CommandSequences.

Lemma python_build_stops_at_first_failure_witness :
  exists new rest,
    procs (snd (_handle_python_build Sample.host_pip_fails "/repo"
                  Sample.python_instructions
                  (Sample.initial Sample.pinned_checkout)))
    = ([] ++ new)%list
    /\ ([venv_command "/repo";
         ["/repo/.venv/bin/pip"; "install"; "-r"; "requirements.txt"]]
        = map ev_argv new ++ rest)%list
    /\ fst (_handle_python_build Sample.host_pip_fails "/repo"
              Sample.python_instructions
              (Sample.initial Sample.pinned_checkout)) = Ret (Some false).
Proof.
  destruct (python_build_stops_at_first_failure Sample.host_pip_fails "/repo"
              Sample.python_instructions ["install -r requirements.txt"]
              (Sample.initial Sample.pinned_checkout) eq_refl)
    as (new & rest & P & Q & _).
  exists new, rest. split; [exact P|]. split; [exact Q|]. reflexivity.
Defined.

(** The JavaScript handler on build commands of which the second is
    blank: the third is never run. *)
Lemma javascript_build_stops_at_first_failure_witness :
  let ins :=
    {| language := "JavaScript"; build_system := "npm";
       dependencies := Some []; setup_steps := None;
       build_commands := Some ["npm run build"; "   "; "npm test"];
       test_commands := None |} in
  exists new rest,
    procs (snd (_handle_javascript_build Sample.host_ok "/repo" ins
                  (Sample.initial Sample.stale_checkout)))
    = ([] ++ new)%list
    /\ ([["npm"; "install"]; ["npm"; "run"; "build"]; []; ["npm"; "test"]]
        = map ev_argv new ++ rest)%list
    /\ map ev_argv
         (procs (snd (_handle_javascript_build Sample.host_ok "/repo" ins
                        (Sample.initial Sample.stale_checkout))))
       = [["npm"; "install"]; ["npm"; "run"; "build"]; []]
    /\ fst (_handle_javascript_build Sample.host_ok "/repo" ins
              (Sample.initial Sample.stale_checkout)) = Raise IndexError.
Proof.
  cbn zeta.
  destruct (javascript_build_stops_at_first_failure Sample.host_ok "/repo"
              {| language := "JavaScript"; build_system := "npm";
                 dependencies := Some []; setup_steps := None;
                 build_commands := Some ["npm run build"; "   "; "npm test"];
                 test_commands := None |}
              ["npm run build"; "   "; "npm test"]
              (Sample.initial Sample.stale_checkout) eq_refl)
    as (new & rest & P & Q & _).
  exists new, rest. split; [exact P|]. split; [exact Q|]. split; reflexivity.
Defined.

Example python_build_refuses_nul_in_path :
  _handle_python_build Sample.host_venv (String "000" "repo")
    Sample.python_instructions (Sample.initial Sample.pinned_checkout)
  = (Raise (ValueError "embedded null byte"),
     {| fs := Sample.pinned_checkout;
        procs := [mkProcEvent (venv_command (String "000" "repo")) None
                    (NotStarted "invalid arguments")];
        attempts := 0; recoveries := 0 |}).
Proof. reflexivity. Qed.

(** ** One call of [execute_build] *)

Section SinglePass.

Variable json_load : string -> option pyobj.
Variable toml_load : string -> option (list (string * pyobj)).
Variable py_str : pyobj -> string.
Variable host : list string -> option string -> tree -> tree * proc_result.
Variable rmtree_error : string -> list node -> option string.

Local Notation run := (subprocess_run host).
Local Notation execute :=
  (execute_build json_load toml_load py_str host rmtree_error).
Local Notation recover :=
  (_handle_build_failure json_load toml_load py_str rmtree_error).

(** The handlers for Java, Go and Rust have no body: for these
    languages [execute_build] returns [None] after one attempt, starts
    no process and leaves the checkout alone. *)
Theorem execute_build_without_handler_body (fuel : nat) (repo_path : string)
  (ins : BuildInstructions) (st : state) :
  In (PyStr.lower (language ins)) ["java"; "go"; "rust"] ->
  execute (S fuel) repo_path ins st
  = (Ret None,
     {| fs := fs st; procs := procs st; attempts := S (attempts st);
        recoveries := recoveries st |}).
Proof.
  intros I. rewrite execute_build_single_pass.
  unfold bind, _setup_environment, try_except.
  destruct I as [<-|[<-|[<-|[]]]]; reflexivity.
Qed.

(** A failure of the environment setup ends the attempt: whenever
    [_setup_environment] raises, what it raises is a [BuildError]
    "Failed to setup environment: ..." around the cause, and
    [execute_build] raises that same error from the state the setup
    left, without calling the handler and without a retry. *)
Theorem setup_failure_ends_attempt (fuel : nat) (repo_path : string)
  (ins : BuildInstructions) (st st' : state) (e : exn) :
  _setup_environment host repo_path ins
    {| fs := fs st; procs := procs st; attempts := S (attempts st);
       recoveries := recoveries st |}
  = (Raise e, st') ->
  execute (S fuel) repo_path ins st = (Raise e, st')
  /\ exists cause, e = BuildError "Failed to setup environment: " (Some cause).
Proof.
  intros H. split.
  - rewrite execute_build_single_pass. unfold bind. now rewrite H.
  - revert H. unfold _setup_environment, try_except.
    match goal with |- match ?m ?s with _ => _ end = _ -> _ =>
      destruct (m s) as [[[]|e1|] s1] end; intros H; try discriminate H.
    cbn in H. inversion H. eauto.
Qed.

(** Instructions without build commands never build: when
    [build_commands] is [None], as in everything
    [detect_build_instructions] returns, no call of [execute_build]
    returns [True]. *)
Theorem detected_instructions_never_succeed (root : tree) (fuel : nat)
  (repo_path : string) (ins : BuildInstructions) (st : state) :
  detect_build_instructions json_load toml_load py_str root = Ok ins ->
  build_commands ins = None
  /\ fst (execute (S fuel) repo_path ins st) <> Ret (Some true).
Proof.
  intros D.
  assert (B : build_commands ins = None).
  { unfold detect_build_instructions in D.
    destruct (_detect_primary_language root) as [lang|e]; cbn [rbind] in D;
      [|discriminate D].
    destruct (_analyze_dependencies json_load toml_load py_str root lang)
      as [deps|e]; cbn [rbind] in D; [|discriminate D].
    inversion D. reflexivity. }
  split; [exact B|].
  rewrite execute_build_single_pass. unfold bind.
  destruct (_setup_environment host repo_path ins _) as [[[]|e|] s1];
    try (cbn [fst]; intros X; discriminate X).
  destruct (lookup _ (build_handlers host)) as [handle|] eqn:L;
    [|cbn; intros X; discriminate X].
  apply (build_handlers_cases json_load toml_load host rmtree_error) in L.
  destruct L as [ -> | [ -> | [ -> | [ -> | -> ] ] ] ];
    try (cbn; intros X; discriminate X).
  - unfold _handle_python_build, try_except, bind. rewrite B.
    destruct (run _ None s1) as [[[]|e|] s2]; cbn [fst for_each_in raise].
    + cbn. intros X; discriminate X.
    + destruct (is_CalledProcessError e); cbn; intros X; discriminate X.
    + intros X; discriminate X.
  - unfold _handle_javascript_build, try_except, bind. rewrite B.
    destruct (run _ (Some repo_path) s1) as [[[]|e|] s2];
      cbn [fst for_each_in raise].
    + cbn. intros X; discriminate X.
    + destruct (is_CalledProcessError e); cbn; intros X; discriminate X.
    + intros X; discriminate X.
Qed.

(** A recovery on top of the registry of [__init__] is bounded: it is
    one more entry into [_handle_build_failure], at most one more
    attempt, and it returns a value, never an exception. *)
Theorem recovery_makes_at_most_one_attempt (fuel : nat) (repo_path : string)
  (error : exn) (st : state) :
  recoveries (snd (recover (execute (S fuel)) repo_path error st))
  = S (recoveries st)
  /\ attempts (snd (recover (execute (S fuel)) repo_path error st))
     <= S (attempts st)
  /\ exists v, fst (recover (execute (S fuel)) repo_path error st) = Ret v.
Proof.
  assert (K : exists v s,
             recover (execute (S fuel)) repo_path error st = (Ret v, s)
             /\ recoveries s = S (recoveries st)
             /\ attempts s <= S (attempts st)).
  { unfold _handle_build_failure, bind, try_except, scan. cbn [enter_recovery].
    match goal with |- context [_clean_build_artifacts rmtree_error repo_path ?s] =>
      pose proof (clean_build_artifacts_counters rmtree_error repo_path s)
        as (C1 & C2 & C3);
      destruct (_clean_build_artifacts rmtree_error repo_path s)
        as [[[]|e|] s1] end;
      cbn [fst snd attempts recoveries] in *.
    - destruct (_modify_build_instructions _ _ _ (fs s1)) as [ins|e].
      + pose proof (execute_build_one_attempt json_load toml_load py_str host
                      rmtree_error fuel repo_path ins s1) as (A1 & A2 & A3).
        destruct (execute (S fuel) repo_path ins s1) as [[v|e|] s2];
          cbn [fst snd is_Exception ret] in *.
        * exists v, s2. split; [reflexivity|]. split; [congruence | lia].
        * exists (Some false), s2. split; [reflexivity|]. split; [congruence | lia].
        * congruence.
      + cbn [is_Exception ret]. exists (Some false), s1.
        split; [reflexivity|]. split; [congruence | lia].
    - cbn [is_Exception ret]. exists (Some false), s1.
      split; [reflexivity|]. split; [congruence | lia].
    - congruence. }
  destruct K as (v & s & E & K1 & K2). rewrite E. cbn [fst snd]. eauto.
Qed.

End SinglePass.

Lemma execute_build_without_handler_body_witness :
  execute_build Sample.json_load Sample.toml_load Sample.py_str Sample.host_fails Sample.rmtree_ok
    1 "/repo" Sample.rust_instructions (Sample.initial Sample.go_checkout)
  = (Ret None,
     {| fs := Sample.go_checkout; procs := []; attempts := 1; recoveries := 0 |}).
Proof.
  apply (execute_build_without_handler_body
           Sample.json_load Sample.toml_load Sample.py_str Sample.host_fails Sample.rmtree_ok
           0 "/repo" Sample.rust_instructions (Sample.initial Sample.go_checkout)).
  right. right. left. reflexivity.
Defined.

(** The setup failure on a host without a Python interpreter. *)
Lemma setup_failure_ends_attempt_witness :
  execute_build Sample.json_load Sample.toml_load Sample.py_str Sample.host_down Sample.rmtree_ok
    1 "/repo" Sample.python_instructions (Sample.initial Sample.pinned_checkout)
  = (Raise (BuildError "Failed to setup environment: "
              (Some (OSError "No such file or directory"))),
     {| fs := Sample.pinned_checkout;
        procs := [mkProcEvent (venv_command "/repo") None
                    (NotStarted "No such file or directory")];
        attempts := 1; recoveries := 0 |}).
Proof.
  apply (setup_failure_ends_attempt
           Sample.json_load Sample.toml_load Sample.py_str Sample.host_down Sample.rmtree_ok
           0 "/repo" Sample.python_instructions
           (Sample.initial Sample.pinned_checkout)).
  reflexivity.
Defined.

Lemma detected_instructions_never_succeed_witness :
  fst (execute_build Sample.json_load Sample.toml_load Sample.py_str
         Sample.host_venv Sample.rmtree_ok 1 "/repo"
         {| language := "python"; build_system := "pip";
            dependencies := Some ["requests==2.0"; "flask==1.1"];
            setup_steps := None; build_commands := None;
            test_commands := None |}
         (Sample.initial Sample.pinned_checkout))
  <> Ret (Some true).
Proof.
  apply (detected_instructions_never_succeed
           Sample.json_load Sample.toml_load Sample.py_str Sample.host_venv Sample.rmtree_ok
           Sample.pinned_checkout 0 "/repo").
  reflexivity.
Defined.

Example detected_python_build_raises_type_error :
  fst (execute_build Sample.json_load Sample.toml_load Sample.py_str
         Sample.host_venv Sample.rmtree_ok 1 "/repo"
         {| language := "python"; build_system := "pip";
            dependencies := Some ["requests==2.0"; "flask==1.1"];
            setup_steps := None; build_commands := None;
            test_commands := None |}
         (Sample.initial Sample.pinned_checkout))
  = Raise (TypeError "'NoneType' object is not iterable").
Proof. reflexivity. Qed.

(** ** Detection as a whole *)

Lemma first_marker_present (root : tree) (markers : list (string * string))
  (system : string) :
  first_marker root markers = Some system ->
  exists file, In (file, system) markers /\ path_exists root file = true.
Proof.
  induction markers as [|[f s] markers IH]; cbn [first_marker]; [discriminate|].
  destruct (path_exists root f) eqn:E.
  - intros H. inversion H; subst. exists f. split; [now left | exact E].
  - intros H. destruct (IH H) as (file & I & P). exists file. split; [now right | exact P].
Qed.

(** A language with a positive count whose rivals all have count zero
    is the language detected. *)
Theorem detect_primary_language_single (root : tree) (lang : string) (c : nat) :
  In (lang, S c) (language_counts root) ->
  (forall other n, In (other, n) (language_counts root) -> other <> lang -> n = 0) ->
  _detect_primary_language root = Ok lang.
Proof.
  intros Hin Hzero.
  destruct (detect_primary_language_first_max root)
    as (l & n & pre & post & E & D & Hpre & Hpost & _).
  rewrite E. f_equal.
  destruct (String.eqb l lang) eqn:X; [now apply String.eqb_eq|].
  apply String.eqb_neq in X. exfalso.
  assert (Z : n = 0).
  { apply (Hzero l n); [|exact X]. rewrite D. apply in_or_app. right. now left. }
  subst n. rewrite D in Hin. apply in_app_or in Hin.
  destruct Hin as [I|[I|I]].
  - rewrite Forall_forall in Hpre. specialize (Hpre _ I). cbn in Hpre. lia.
  - inversion I.
  - rewrite Forall_forall in Hpost. specialize (Hpost _ I). cbn in Hpost. lia.
Qed.

Lemma detect_primary_language_single_witness :
  _detect_primary_language Sample.go_checkout = Ok "go".
Proof.
  apply (detect_primary_language_single Sample.go_checkout "go" 2).
  - vm_compute. tauto.
  - vm_compute. intros other n H N.
    repeat (destruct H as [H|H]; [inversion H; subst; congruence|]).
    destruct H.
Defined.

Section DetectionShape.

Variable json_load : string -> option pyobj.
Variable toml_load : string -> option (list (string * pyobj)).
Variable py_str : pyobj -> string.

Local Notation analyze := (_analyze_dependencies json_load toml_load py_str).
Local Notation detect := (detect_build_instructions json_load toml_load py_str).

Lemma analyze_none_only_java (root : tree) (lang : string) :
  In lang ["python"; "javascript"; "typescript"; "java"; "go"; "rust"] ->
  (analyze root lang = Ok None <-> lang = "java").
Proof.
  intros I. split.
  - cbn [In] in I.
    destruct I as [<-|[<-|[<-|[<-|[<-|[<-|[]]]]]]]; try reflexivity;
      unfold _analyze_dependencies, analyzers;
      cbn [lookup String.eqb Ascii.eqb Bool.eqb];
      unfold _analyze_python_dependencies, _analyze_javascript_dependencies,
        _analyze_go_dependencies, _analyze_rust_dependencies;
      try match goal with
        | |- context [match ?t with Ok _ => _ | Err _ => _ end] => destruct t
        end; discriminate.
  - intros ->. reflexivity.
Qed.

(** [detect_build_instructions] always returns.  The language is one of
    the six of the table; the build system is the one detected for it,
    so it is "unknown" or belongs to a marker file of that language
    present at the root; the three step lists are [None]; and the
    dependencies are [None] exactly for Java. *)
Theorem detect_build_instructions_shape (root : tree) :
  exists ins,
    detect root = Ok ins
    /\ In (language ins)
          ["python"; "javascript"; "typescript"; "java"; "go"; "rust"]
    /\ _detect_primary_language root = Ok (language ins)
    /\ (build_system ins = "unknown"
        \/ exists markers file,
             lookup (language ins) build_systems = Some markers
             /\ In (file, build_system ins) markers
             /\ path_exists root file = true)
    /\ analyze root (language ins) = Ok (dependencies ins)
    /\ (dependencies ins = None <-> language ins = "java")
    /\ setup_steps ins = None
    /\ build_commands ins = None
    /\ test_commands ins = None.
Proof.
  destruct (detect_primary_language_first_max root)
    as (lang & n & pre & post & E & _ & _ & _ & I).
  destruct (analyze_dependencies_returns json_load toml_load py_str root lang)
    as (deps & A).
  exists {| language := lang;
            build_system := _detect_build_system root lang;
            dependencies := deps;
            setup_steps := None; build_commands := None; test_commands := None |}.
  cbn [language build_system dependencies setup_steps build_commands test_commands].
  split.
  { unfold detect_build_instructions. rewrite E. cbn [rbind]. rewrite A. reflexivity. }
  split; [exact I|]. split; [exact E|].
  split.
  { unfold _detect_build_system.
    destruct (lookup lang build_systems) as [markers|] eqn:L; [|now left].
    destruct (first_marker root markers) as [system|] eqn:F; [|now left].
    right. destruct (first_marker_present _ _ _ F) as (file & M & P).
    exists markers, file. auto. }
  split; [exact A|]. split; [|auto].
  rewrite <- (analyze_none_only_java root lang I). rewrite A.
  split; intros H; [now rewrite H | now inversion H].
Qed.

End DetectionShape.

(** ** The order of the directory listing *)

Lemma list_sum_permutation (l l' : list nat) :
  Permutation l l' -> list_sum l = list_sum l'.
Proof.
  induction 1 as [| x l l' _ IH | x y l | l l' l'' _ IH1 _ IH2];
    rewrite ?list_sum_cons; lia.
Qed.

Lemma existsb_permutation {A} (f : A -> bool) (l l' : list A) :
  Permutation l l' -> existsb f l = existsb f l'.
Proof.
  induction 1 as [| x l l' _ IH | x y l | l l' l'' _ IH1 _ IH2]; cbn [existsb].
  - reflexivity.
  - now rewrite IH.
  - destruct (f x), (f y); reflexivity.
  - congruence.
Qed.

(** Detection does not depend on the order in which the root directory
    lists its entries: the language and, for every language, the build
    system are the same for any reordering. *)
Theorem detection_ignores_listing_order (root root' : tree) :
  Permutation root root' ->
  _detect_primary_language root = _detect_primary_language root'
  /\ forall lang, _detect_build_system root lang = _detect_build_system root' lang.
Proof.
  intros P.
  assert (R : forall pattern, rglob root pattern = rglob root' pattern).
  { intros pattern. unfold rglob. apply list_sum_permutation.
    now apply Permutation_map. }
  assert (X : forall name, path_exists root name = path_exists root' name).
  { intros name. unfold path_exists. now apply existsb_permutation. }
  split.
  - assert (C : language_counts root = language_counts root').
    { unfold language_counts. apply map_ext. intros [lang patterns].
      cbn [fst snd]. f_equal. unfold count_patterns. generalize 0.
      induction patterns as [|p ps IH]; intros k; cbn [fold_left]; [reflexivity|].
      now rewrite R, IH. }
    unfold _detect_primary_language. now rewrite C.
  - intros lang. unfold _detect_build_system.
    destruct (lookup lang build_systems) as [markers|]; [|reflexivity].
    assert (F : first_marker root markers = first_marker root' markers).
    { induction markers as [|[f s] markers IH]; cbn [first_marker]; [reflexivity|].
      now rewrite X, IH. }
    now rewrite F.
Qed.

Lemma detection_ignores_listing_order_witness :
  _detect_primary_language Sample.go_one_line_checkout
  = _detect_primary_language (rev Sample.go_one_line_checkout).
Proof.
  apply (proj1 (detection_ignores_listing_order
                  Sample.go_one_line_checkout (rev Sample.go_one_line_checkout)
                  (Permutation_rev _))).
Defined.

(** ** What the analyzers return *)

Lemma lstrip_head (s : string) :
  PyStr.lstrip s = ""
  \/ exists c t, PyStr.lstrip s = String c t /\ PyStr.isspace c = false.
Proof.
  induction s as [|c s IH]; cbn [PyStr.lstrip]; [now left|].
  destruct (PyStr.isspace c) eqn:E; [exact IH|]. right. eauto.
Qed.

Lemma rstrip_head (c : ascii) (t : string) :
  PyStr.isspace c = false -> exists t', PyStr.rstrip (String c t) = String c t'.
Proof.
  intros N. cbn [PyStr.rstrip]. destruct (PyStr.rstrip t); [rewrite N|]; eauto.
Qed.

Lemma rstrip_idempotent (s : string) :
  PyStr.rstrip (PyStr.rstrip s) = PyStr.rstrip s.
Proof.
  induction s as [|c s IH]; [reflexivity|]. cbn [PyStr.rstrip].
  destruct (PyStr.rstrip s) as [|d r] eqn:E.
  - destruct (PyStr.isspace c) eqn:N; [reflexivity|].
    cbn [PyStr.rstrip]. now rewrite N.
  - cbn [PyStr.rstrip] in *. now rewrite IH.
Qed.

(** Stripping a stripped text changes nothing. *)
Lemma strip_idempotent (s : string) : PyStr.strip (PyStr.strip s) = PyStr.strip s.
Proof.
  unfold PyStr.strip.
  destruct (lstrip_head s) as [E|(c & t & E & N)]; rewrite E; [reflexivity|].
  destruct (rstrip_head c t N) as (t' & R).
  rewrite R at 1. cbn [PyStr.lstrip]. rewrite N. rewrite <- R.
  apply rstrip_idempotent.
Qed.

Lemma stripped_lines_clean (lines : list string) (d : string) :
  In d (filter PyStr.truthy (map PyStr.strip lines)) ->
  d <> "" /\ PyStr.strip d = d.
Proof.
  intros I. apply filter_In in I. destruct I as [I T].
  apply in_map_iff in I. destruct I as (l & <- & _). split.
  - intros E. rewrite E in T. discriminate T.
  - apply strip_idempotent.
Qed.

Section AnalyzerResults.

Variable json_load : string -> option pyobj.
Variable toml_load : string -> option (list (string * pyobj)).
Variable py_str : pyobj -> string.

Local Notation analyze := (_analyze_dependencies json_load toml_load py_str).

(** Every dependency the Python analyzer and the Go analyzer return is
    a non-empty text without white space at either end. *)
Theorem line_dependencies_are_stripped (root : tree) (lang : string)
  (deps : list string) (d : string) :
  In lang ["python"; "go"] ->
  analyze root lang = Ok (Some deps) ->
  In d deps ->
  d <> "" /\ PyStr.strip d = d.
Proof.
  intros L A I. destruct L as [<-|[<-|[]]];
    unfold _analyze_dependencies, analyzers in A;
    cbn [lookup String.eqb Ascii.eqb Bool.eqb] in A.
  - unfold _analyze_python_dependencies, python_dependencies_try in A.
    destruct (path_exists root "requirements.txt").
    + destruct (open_read root "requirements.txt") as [text|e]; cbn [rbind] in A.
      * destruct (path_exists root "setup.py");
          [destruct (open_read root "setup.py"); cbn [rbind] in A;
           [destruct (PyStr.contains _ _); cbn [rbind] in A|]|cbn [rbind] in A];
          inversion A; subst; try (now destruct I);
          eapply stripped_lines_clean; eassumption.
      * inversion A; subst. destruct I.
    + cbn [rbind] in A.
      destruct (path_exists root "setup.py");
        [destruct (open_read root "setup.py"); cbn [rbind] in A;
         [destruct (PyStr.contains _ _); cbn [rbind] in A|]|cbn [rbind] in A];
        inversion A; subst; destruct I.
  - unfold _analyze_go_dependencies, go_dependencies_try in A.
    destruct (path_exists root "go.mod"); [|inversion A; subst; destruct I].
    destruct (open_read root "go.mod") as [content|e]; cbn [rbind] in A;
      [|inversion A; subst; destruct I].
    destruct (PyStr.contains "require (" content); [|inversion A; subst; destruct I].
    destruct (nth_error (PyStr.split "require (" content) 1) as [after|];
      cbn [rbind] in A; [|inversion A; subst; destruct I].
    destruct (nth_error (PyStr.split ")" after) 0) as [block|];
      cbn [rbind] in A; [|inversion A; subst; destruct I].
    inversion A; subst. unfold go_block_lines in I.
    eapply stripped_lines_clean; eassumption.
Qed.

(** Without its manifest at the root an analyzer returns the empty
    list: requirements.txt for Python, package.json for JavaScript,
    go.mod for Go, Cargo.toml for Rust; and so do a go.mod without a
    "require (" and a Cargo.toml without a dependencies table. *)
Theorem missing_manifest_gives_no_dependencies (root : tree) :
  (path_exists root "requirements.txt" = false ->
     analyze root "python" = Ok (Some []))
  /\ (path_exists root "package.json" = false ->
        analyze root "javascript" = Ok (Some []))
  /\ (path_exists root "go.mod" = false -> analyze root "go" = Ok (Some []))
  /\ (path_exists root "Cargo.toml" = false -> analyze root "rust" = Ok (Some []))
  /\ (forall content,
        open_read root "go.mod" = Ok content ->
        PyStr.contains "require (" content = false ->
        analyze root "go" = Ok (Some []))
  /\ (forall text data,
        open_read root "Cargo.toml" = Ok text ->
        toml_load text = Some data ->
        lookup "dependencies" data = None ->
        analyze root "rust" = Ok (Some [])).
Proof.
  unfold _analyze_dependencies, analyzers.
  cbn [lookup String.eqb Ascii.eqb Bool.eqb].
  repeat split.
  - intros H. unfold _analyze_python_dependencies, python_dependencies_try.
    rewrite H. cbn [rbind].
    destruct (path_exists root "setup.py"); [|reflexivity].
    destruct (open_read root "setup.py"); cbn [rbind]; [|reflexivity].
    destruct (PyStr.contains _ _); reflexivity.
  - intros H. unfold _analyze_javascript_dependencies, javascript_dependencies_try.
    now rewrite H.
  - intros H. unfold _analyze_go_dependencies, go_dependencies_try. now rewrite H.
  - intros H. unfold _analyze_rust_dependencies, rust_dependencies_try.
    now rewrite H.
  - intros content R N. unfold _analyze_go_dependencies, go_dependencies_try.
    rewrite (open_read_exists _ _ _ R), R. cbn [rbind]. now rewrite N.
  - intros text data R T L. unfold _analyze_rust_dependencies, rust_dependencies_try.
    rewrite (open_read_exists _ _ _ R), R. cbn [rbind]. rewrite T. cbn [rbind].
    now rewrite L.
Qed.

(** The loop over the dependencies table of Cargo.toml cannot fail. *)
Lemma rust_dependencies_loop_total (items : list (string * pyobj)) :
  rust_dependencies_loop py_str items
  = Ok (flat_map
          (fun nv =>
             match snd nv with
             | PStr version => [fst nv ++ " = " ++ version]
             | PDict table =>
                 [fst nv ++ " = "
                  ++ match lookup "version" table with
                     | Some v => format_value py_str v
                     | None => "*"
                     end]
             | _ => []
             end) items).
Proof.
  induction items as [|[name v] items IH]; [reflexivity|].
  cbn [rust_dependencies_loop flat_map]. rewrite IH.
  unfold rust_dependency. cbn [fst snd].
  destruct v as [| | | |l|table]; cbn [rbind]; try reflexivity.
  unfold py_get. destruct (lookup "version" table); reflexivity.
Qed.

(** For a Cargo.toml that is read and parsed and has a dependencies
    table, the Rust analyzer returns one descriptor for each entry, in
    the order of the table: "name = version" for a string, "name = "
    with its version or "*" without one for a table, and nothing for
    any other value. *)
Theorem rust_dependencies_from_table (root : tree) (text : string)
  (data items : list (string * pyobj)) :
  open_read root "Cargo.toml" = Ok text ->
  toml_load text = Some data ->
  lookup "dependencies" data = Some (PDict items) ->
  analyze root "rust"
  = Ok (Some (flat_map
                (fun nv =>
                   match snd nv with
                   | PStr version => [fst nv ++ " = " ++ version]
                   | PDict table =>
                       [fst nv ++ " = "
                        ++ match lookup "version" table with
                           | Some v => format_value py_str v
                           | None => "*"
                           end]
                   | _ => []
                   end) items)).
Proof.
  intros R T L. unfold _analyze_dependencies, analyzers.
  cbn [lookup String.eqb Ascii.eqb Bool.eqb].
  unfold _analyze_rust_dependencies, rust_dependencies_try.
  rewrite (open_read_exists _ _ _ R), R. cbn [rbind]. rewrite T. cbn [rbind].
  rewrite L. cbn [py_items rbind]. now rewrite rust_dependencies_loop_total.
Qed.

End AnalyzerResults.

Lemma line_dependencies_are_stripped_witness :
  "flask==1.1" <> "" /\ PyStr.strip "flask==1.1" = "flask==1.1".
Proof.
  apply (line_dependencies_are_stripped
           Sample.json_load Sample.toml_load Sample.py_str
           Sample.pinned_checkout "python" ["requests==2.0"; "flask==1.1"]).
  - left. reflexivity.
  - reflexivity.
  - right. left. reflexivity.
Defined.

Lemma missing_manifest_gives_no_dependencies_witness :
  _analyze_dependencies Sample.json_load Sample.toml_load Sample.py_str
    Sample.go_checkout "python" = Ok (Some [])
  /\ _analyze_dependencies Sample.json_load Sample.toml_load Sample.py_str
       Sample.pinned_checkout "go" = Ok (Some []).
Proof.
  split.
  - apply (proj1 (missing_manifest_gives_no_dependencies
                    Sample.json_load Sample.toml_load Sample.py_str
                    Sample.go_checkout)).
    reflexivity.
  - apply (proj1 (proj2 (proj2 (missing_manifest_gives_no_dependencies
                                  Sample.json_load Sample.toml_load Sample.py_str
                                  Sample.pinned_checkout)))).
    reflexivity.
Defined.

Lemma rust_dependencies_from_table_witness :
  _analyze_dependencies Sample.json_load Sample.cargo_load Sample.py_str
    Sample.rust_checkout "rust"
  = Ok (Some ["serde = 1.0"; "tokio = *"; "rand = 0.8"]).
Proof.
  apply (rust_dependencies_from_table
           Sample.json_load Sample.cargo_load Sample.py_str
           Sample.rust_checkout Sample.cargo_toml
           [("dependencies",
             PDict [("serde", PStr "1.0");
                    ("tokio", PDict [("features", PList [PStr "full"])]);
                    ("rand", PDict [("version", PStr "0.8")])])]
           [("serde", PStr "1.0");
            ("tokio", PDict [("features", PList [PStr "full"])]);
            ("rand", PDict [("version", PStr "0.8")])]); reflexivity.
Defined.

(** ** Relaxed constraints *)

Lemma replace_keeps_length (n : nat) :
  forall s, String.length s <= n ->
  String.length (PyStr.replace "==" ">=" s) = String.length s.
Proof.
  induction n as [|n IH]; intros s L.
  - destruct s; [reflexivity | cbn in L; lia].
  - rewrite replace_unfold by discriminate.
    destruct (PyStr.find_first "==" s) as [[a b]|] eqn:F; [|reflexivity].
    pose proof (find_first_app _ _ _ _ F) as E.
    assert (Lb : String.length b <= n).
    { rewrite E in L. rewrite !string_length_app in L. cbn in L. lia. }
    rewrite E. rewrite !string_length_app. rewrite (IH b Lb). reflexivity.
Qed.

Lemma replace_without_pin (s : string) :
  PyStr.contains "==" s = false -> PyStr.replace "==" ">=" s = s.
Proof.
  unfold PyStr.contains. intros H. rewrite replace_unfold by discriminate.
  destruct (PyStr.find_first "==" s); [discriminate H | reflexivity].
Qed.

Section Relaxation.

Variable json_load : string -> option pyobj.
Variable toml_load : string -> option (list (string * pyobj)).
Variable py_str : pyobj -> string.

(** Relaxing keeps the dependency list in shape: the retry instructions
    have as many dependencies as the analysis found, in the same order,
    each as long as the descriptor it comes from, and a descriptor
    without "==" is carried over as it is. *)
Theorem relaxation_keeps_descriptors (root : tree) (ins : BuildInstructions) :
  _modify_build_instructions json_load toml_load py_str root = Ok ins ->
  exists deps relaxed,
    _analyze_dependencies json_load toml_load py_str root (language ins)
    = Ok (Some deps)
    /\ dependencies ins = Some relaxed
    /\ List.length relaxed = List.length deps
    /\ forall i d, nth_error deps i = Some d ->
         exists r, nth_error relaxed i = Some r
                   /\ String.length r = String.length d
                   /\ (PyStr.contains "==" d = false -> r = d).
Proof.
  unfold _modify_build_instructions, modify_build_instructions_try.
  destruct (_detect_primary_language root) as [lang|e]; cbn [rbind];
    [|discriminate].
  destruct (_analyze_dependencies json_load toml_load py_str root lang)
    as [[deps|]|e] eqn:A; cbn [rbind relax_constraints]; try discriminate.
  intros H. inversion H; subst. cbn [language dependencies].
  exists deps, (map (PyStr.replace "==" ">=") deps).
  split; [exact A|]. split; [reflexivity|]. split; [apply length_map|].
  intros i d N. exists (PyStr.replace "==" ">=" d).
  split; [now apply map_nth_error|].
  split; [now apply (replace_keeps_length (String.length d)) |
          apply replace_without_pin].
Qed.

End Relaxation.

Lemma relaxation_keeps_descriptors_witness :
  exists deps relaxed,
    _analyze_dependencies Sample.json_load Sample.cargo_load Sample.py_str
      Sample.rust_checkout "rust" = Ok (Some deps)
    /\ Some ["serde = 1.0"; "tokio = *"; "rand = 0.8"] = Some relaxed
    /\ List.length relaxed = List.length deps.
Proof.
  destruct (relaxation_keeps_descriptors
              Sample.json_load Sample.cargo_load Sample.py_str
              Sample.rust_checkout
              {| language := "rust"; build_system := "cargo";
                 dependencies := Some ["serde = 1.0"; "tokio = *"; "rand = 0.8"];
                 setup_steps := Some ["Clean build artifacts";
                                      "Update package manager";
                                      "Install dependencies with relaxed constraints"];
                 build_commands := Some [];
                 test_commands := Some [] |} eq_refl)
    as (deps & relaxed & A & D & L & _).
  exists deps, relaxed. auto.
Defined.

(** * Configuration *)

Lemma truthy_nonempty (s : string) : PyStr.truthy s = true <-> s <> "".
Proof. destruct s; cbn; split; intros H; congruence. Qed.

Section ConfigValidation.

Variable F : Type.
Variable makedirs : string -> F -> F * option string.

Local Notation validate := (Settings.validate F makedirs).

Local Notation values_ok := Settings.values_ok.

Lemma validate_checks (config : Settings.Config) :
  values_ok config
  \/ exists msg,
       forall f, Settings.validate_try F makedirs config f
                 = (Raised (Settings.ConfigError msg None), f).
Proof.
  destruct config as [[k1 k2 m] [bd mr ms tmo pb cl] [en dir t sz] lg].
  unfold Settings.values_ok, Settings.validate_try, Settings.check, and_then.
  cbn [Settings.api Settings.build Settings.cache Settings.openai_api_key
       Settings.github_api_key Settings.max_results Settings.min_stars
       Settings.timeout Settings.enabled Settings.ttl Settings.max_size_mb].
  destruct (PyStr.truthy k1) eqn:K1; cbn [negb orb]; [|right; eauto].
  destruct (PyStr.truthy k2) eqn:K2; cbn [negb orb]; [|right; eauto].
  apply truthy_nonempty in K1, K2.
  destruct (Z.ltb mr 1) eqn:E1; [right; eauto|].
  destruct (Z.ltb ms 0) eqn:E2; [right; eauto|].
  destruct (Z.ltb tmo 0) eqn:E3; [right; eauto|].
  apply Z.ltb_ge in E1, E2, E3.
  destruct en.
  - destruct (Z.ltb t 0) eqn:E4; [right; eauto|].
    destruct (Z.ltb sz 1) eqn:E5; [right; eauto|].
    apply Z.ltb_ge in E4, E5. left. repeat split; auto.
  - left. repeat split; auto; discriminate.
Qed.

Lemma validate_try_after_checks (config : Settings.Config) (f : F) :
  values_ok config ->
  Settings.validate_try F makedirs config f
  = match Settings.make F makedirs
            (Settings.base_download_dir (Settings.build config)) f with
    | (Returned _, f1) =>
        if Settings.enabled (Settings.cache config)
        then Settings.make F makedirs
               (Settings.directory (Settings.cache config)) f1
        else (Returned tt, f1)
    | failed => failed
    end.
Proof.
  destruct config as [[k1 k2 m] [bd mr ms tmo pb cl] [en dir t sz] lg].
  unfold Settings.values_ok.
  cbn [Settings.api Settings.build Settings.cache Settings.openai_api_key
       Settings.github_api_key Settings.max_results Settings.min_stars
       Settings.timeout Settings.enabled Settings.ttl Settings.max_size_mb
       Settings.base_download_dir Settings.directory].
  intros (K1 & K2 & E1 & E2 & E3 & E45).
  unfold Settings.validate_try, Settings.check, and_then.
  cbn [Settings.api Settings.build Settings.cache Settings.openai_api_key
       Settings.github_api_key Settings.max_results Settings.min_stars
       Settings.timeout Settings.enabled Settings.ttl Settings.max_size_mb
       Settings.base_download_dir Settings.directory].
  apply truthy_nonempty in K1, K2. rewrite K1, K2. cbn [negb orb].
  apply Z.ltb_ge in E1, E2, E3. rewrite E1, E2, E3.
  destruct en; [|reflexivity].
  destruct (E45 eq_refl) as [E4 E5]. apply Z.ltb_ge in E4, E5.
  now rewrite E4, E5.
Qed.

(** [validate] accepts a configuration exactly when both API keys are
    non-empty, max_results is at least 1, min_stars and timeout are not
    negative, with the cache enabled its ttl is not negative and its
    size at least 1, and the directories can be made: the download
    directory, and with the cache enabled the cache directory.
    parallel_builds, the model name and the logging settings are not
    looked at, nor are ttl and size of a disabled cache. *)
Theorem validate_accepts_exactly (config : Settings.Config) (f : F) :
  fst (validate config f) = Returned tt
  <-> (values_ok config
       /\ snd (makedirs (Settings.base_download_dir (Settings.build config)) f)
          = None
       /\ (Settings.enabled (Settings.cache config) = true ->
           snd (makedirs (Settings.directory (Settings.cache config))
                  (fst (makedirs
                          (Settings.base_download_dir (Settings.build config)) f)))
           = None)).
Proof.
  unfold Settings.validate.
  destruct (validate_checks config) as [V|(msg & R)].
  - rewrite (validate_try_after_checks config f V). unfold Settings.make.
    destruct (makedirs (Settings.base_download_dir (Settings.build config)) f)
      as [f1 [what|]]; cbn [fst snd].
    + split; [discriminate | intros (_ & H & _); discriminate H].
    + destruct (Settings.enabled (Settings.cache config)).
      * destruct (makedirs (Settings.directory (Settings.cache config)) f1)
          as [f2 [what|]]; cbn [fst snd].
        -- split; [discriminate | intros (_ & _ & H); discriminate (H eq_refl)].
        -- split; auto.
      * cbn [fst]. split; auto. intros _. split; [exact V|]. split; [reflexivity|].
        discriminate.
  - rewrite R. cbn [fst]. split; [discriminate|].
    intros (V & _). exfalso.
    pose proof (validate_try_after_checks config f V) as T. rewrite R in T.
    unfold Settings.make in T.
    destruct (makedirs (Settings.base_download_dir (Settings.build config)) f)
      as [f1 [what|]]; [discriminate T|].
    destruct (Settings.enabled (Settings.cache config)); [|discriminate T].
    destruct (makedirs (Settings.directory (Settings.cache config)) f1)
      as [f2 [what|]]; discriminate T.
Qed.


End ConfigValidation.

Lemma validate_accepts_exactly_witness :
  fst (Settings.validate (list string) Settings.sample_makedirs
         Settings.sample_config [])
  = Returned tt.
Proof.
  apply (proj2 (validate_accepts_exactly (list string) Settings.sample_makedirs
                  Settings.sample_config [])).
  unfold Settings.values_ok. cbn. repeat split; try discriminate; lia.
Defined.


Lemma api_from_env_keys (env : Settings.environment) (a : Settings.APIConfig) :
  Settings.APIConfig_from_env env = Returned a ->
  env "OPENAI_API_KEY" = Some (Settings.openai_api_key a)
  /\ Settings.openai_api_key a <> ""
  /\ env "GITHUB_API_KEY" = Some (Settings.github_api_key a)
  /\ Settings.github_api_key a <> "".
Proof.
  unfold Settings.APIConfig_from_env, Settings.unset.
  destruct (env "OPENAI_API_KEY") as [k1|]; [|discriminate].
  destruct (PyStr.truthy k1) eqn:T1; cbn [negb]; [|discriminate].
  destruct (env "GITHUB_API_KEY") as [k2|]; [|discriminate].
  destruct (PyStr.truthy k2) eqn:T2; cbn [negb]; [|discriminate].
  intros H. inversion H. cbn. apply truthy_nonempty in T1, T2. auto.
Qed.

Lemma validate_key_check_passes (F : Type)
  (makedirs : string -> F -> F * option string) (config : Settings.Config) (f : F) :
  Settings.openai_api_key (Settings.api config) <> "" ->
  Settings.github_api_key (Settings.api config) <> "" ->
  fst (Settings.validate F makedirs config f)
  <> Raised (Settings.ConfigError "Configuration validation failed: "
               (Some (Settings.ConfigError "API keys are required" None))).
Proof.
  destruct config as [[k1 k2 m] [bd mr ms tmo pb cl] [en dir t sz] lg].
  cbn [Settings.api Settings.openai_api_key Settings.github_api_key].
  intros K1 K2. apply truthy_nonempty in K1, K2.
  unfold Settings.validate, Settings.validate_try, Settings.check, and_then,
    Settings.make.
  cbn [Settings.api Settings.build Settings.cache Settings.openai_api_key
       Settings.github_api_key Settings.max_results Settings.min_stars
       Settings.timeout Settings.enabled Settings.ttl Settings.max_size_mb
       Settings.base_download_dir Settings.directory].
  rewrite K1, K2. cbn [negb orb].
  destruct (Z.ltb mr 1); [cbn; intros X; discriminate X|].
  destruct (Z.ltb ms 0); [cbn; intros X; discriminate X|].
  destruct (Z.ltb tmo 0); [cbn; intros X; discriminate X|].
  destruct en.
  - destruct (Z.ltb t 0); [cbn; intros X; discriminate X|].
    destruct (Z.ltb sz 1); [cbn; intros X; discriminate X|].
    destruct (makedirs bd f) as [f1 [w|]]; [cbn; intros X; discriminate X|].
    destruct (makedirs dir f1) as [f2 [w|]]; cbn; intros X; discriminate X.
  - destruct (makedirs bd f) as [f1 [w|]]; cbn; intros X; discriminate X.
Qed.

Section ConfigLoading.

Variable py_int : string -> option Z.
Variable file_exists : string -> bool.
Variable load_dotenv : string -> Settings.environment -> Settings.environment.

Local Notation load := (Settings.load py_int file_exists load_dotenv).

Lemma build_from_env_numbers (env : Settings.environment) (b : Settings.BuildConfig) :
  Settings.BuildConfig_from_env py_int env = Returned b ->
  py_int (Settings.getenv env "MAX_RESULTS" "5") = Some (Settings.max_results b)
  /\ py_int (Settings.getenv env "MIN_STARS" "100") = Some (Settings.min_stars b)
  /\ py_int (Settings.getenv env "BUILD_TIMEOUT" "300") = Some (Settings.timeout b)
  /\ py_int (Settings.getenv env "PARALLEL_BUILDS" "1")
     = Some (Settings.parallel_builds b).
Proof.
  unfold Settings.BuildConfig_from_env, Settings.int_of, and_then.
  destruct (py_int (Settings.getenv env "MAX_RESULTS" "5")); [|discriminate].
  destruct (py_int (Settings.getenv env "MIN_STARS" "100")); [|discriminate].
  destruct (py_int (Settings.getenv env "BUILD_TIMEOUT" "300")); [|discriminate].
  destruct (py_int (Settings.getenv env "PARALLEL_BUILDS" "1")); [|discriminate].
  intros H. inversion H. cbn. auto.
Qed.

Lemma cache_from_env_numbers (env : Settings.environment) (c : Settings.CacheConfig) :
  Settings.CacheConfig_from_env py_int env = Returned c ->
  py_int (Settings.getenv env "CACHE_TTL" "3600") = Some (Settings.ttl c)
  /\ py_int (Settings.getenv env "CACHE_MAX_SIZE_MB" "1000")
     = Some (Settings.max_size_mb c).
Proof.
  unfold Settings.CacheConfig_from_env, Settings.int_of, and_then.
  destruct (py_int (Settings.getenv env "CACHE_TTL" "3600")); [|discriminate].
  destruct (py_int (Settings.getenv env "CACHE_MAX_SIZE_MB" "1000"));
    [|discriminate].
  intros H. inversion H. cbn. auto.
Qed.

(** A configuration that [Config.load] returns has both API keys set
    and non-empty, taken from the environment as it is after the
    environment file was read, and its six numbers are what [int] makes
    of the variables or their defaults; an environment file that was
    named exists.  So [validate] never rejects a loaded configuration
    for its API keys; the range checks it can still fail, since
    loading does not look at the values of the numbers. *)
Theorem loaded_config_is_parsed (env_file : option string)
  (env : Settings.environment) (config : Settings.Config) :
  fst (load env_file env) = Returned config ->
  (snd (load env_file env) "OPENAI_API_KEY"
   = Some (Settings.openai_api_key (Settings.api config))
   /\ Settings.openai_api_key (Settings.api config) <> ""
   /\ snd (load env_file env) "GITHUB_API_KEY"
      = Some (Settings.github_api_key (Settings.api config))
   /\ Settings.github_api_key (Settings.api config) <> "")
  /\ (py_int (Settings.getenv (snd (load env_file env)) "MAX_RESULTS" "5")
      = Some (Settings.max_results (Settings.build config))
      /\ py_int (Settings.getenv (snd (load env_file env)) "MIN_STARS" "100")
         = Some (Settings.min_stars (Settings.build config))
      /\ py_int (Settings.getenv (snd (load env_file env)) "BUILD_TIMEOUT" "300")
         = Some (Settings.timeout (Settings.build config))
      /\ py_int (Settings.getenv (snd (load env_file env)) "PARALLEL_BUILDS" "1")
         = Some (Settings.parallel_builds (Settings.build config)))
  /\ (py_int (Settings.getenv (snd (load env_file env)) "CACHE_TTL" "3600")
      = Some (Settings.ttl (Settings.cache config))
      /\ py_int (Settings.getenv (snd (load env_file env))
                   "CACHE_MAX_SIZE_MB" "1000")
         = Some (Settings.max_size_mb (Settings.cache config)))
  /\ (forall path, env_file = Some path -> path <> "" ->
        file_exists path = true
        /\ snd (load env_file env) = load_dotenv path env)
  /\ (forall (F : Type) (makedirs : string -> F -> F * option string) (f : F),
        fst (Settings.validate F makedirs config f)
        <> Raised (Settings.ConfigError "Configuration validation failed: "
                     (Some (Settings.ConfigError "API keys are required" None)))).
Proof.
  assert (Core : forall env',
    match
      and_then (Settings.APIConfig_from_env env') (fun a =>
      and_then (Settings.BuildConfig_from_env py_int env') (fun b =>
      and_then (Settings.CacheConfig_from_env py_int env') (fun c =>
      Returned {| Settings.api := a; Settings.build := b; Settings.cache := c;
                  Settings.logging := Settings.LoggingConfig_from_env env' |})))
    with
    | Returned cfg => Returned cfg
    | Raised e =>
        Raised (Settings.ConfigError "Failed to load configuration: " (Some e))
    end = Returned config ->
    Settings.APIConfig_from_env env' = Returned (Settings.api config)
    /\ Settings.BuildConfig_from_env py_int env' = Returned (Settings.build config)
    /\ Settings.CacheConfig_from_env py_int env'
       = Returned (Settings.cache config)).
  { intros env'. unfold and_then.
    destruct (Settings.APIConfig_from_env env'); [|discriminate].
    destruct (Settings.BuildConfig_from_env py_int env'); [|discriminate].
    destruct (Settings.CacheConfig_from_env py_int env'); [|discriminate].
    intros H. inversion H. cbn. auto. }
  unfold Settings.load.
  destruct (Settings.unset env_file) eqn:U.
  - cbn [fst snd]. intros H. destruct (Core env H) as (A & B & C).
    destruct (api_from_env_keys _ _ A) as (A1 & A2 & A3 & A4).
    split; [auto|]. split; [now apply build_from_env_numbers|].
    split; [now apply cache_from_env_numbers|]. split.
    + intros path -> N. cbn in U. apply negb_true_iff in U.
      destruct path; [congruence | discriminate U].
    + intros F makedirs f. now apply validate_key_check_passes.
  - destruct env_file as [path|]; [|discriminate U].
    destruct (file_exists path) eqn:X; cbn [negb fst snd]; [|discriminate].
    intros H. destruct (Core (load_dotenv path env) H) as (A & B & C).
    destruct (api_from_env_keys _ _ A) as (A1 & A2 & A3 & A4).
    split; [auto|]. split; [now apply build_from_env_numbers|].
    split; [now apply cache_from_env_numbers|]. split.
    + intros p E _. inversion E; subst. auto.
    + intros F makedirs f. now apply validate_key_check_passes.
Qed.

End ConfigLoading.

(** A configuration that loads and that [validate] rejects:
    MAX_RESULTS is 0. *)
Lemma loaded_config_is_parsed_witness :
  exists config,
    fst (Settings.load Settings.decimal (fun _ => false) (fun _ env => env)
           None Settings.sample_env) = Returned config
    /\ Settings.sample_env "OPENAI_API_KEY"
       = Some (Settings.openai_api_key (Settings.api config))
    /\ Settings.max_results (Settings.build config) = 0%Z
    /\ Settings.enabled (Settings.cache config) = false.
Proof.
  eexists. split; [reflexivity|]. split; [|split; reflexivity].
  apply (proj1 (proj1 (loaded_config_is_parsed Settings.decimal
                         (fun _ => false) (fun _ env => env) None
                         Settings.sample_env _ eq_refl))).
Defined.

(** * The choice of the user *)

Section UserChoices.

Variable R : Type.
Variable py_int : string -> option Z.

Local Notation read_choice := (UserInteraction.read_choice R py_int).
Local Notation rejected := (UserInteraction.rejected R py_int).

Lemma read_choice_again (repositories : list R) (line : string)
  (rest : list string) :
  rejected repositories line = true ->
  read_choice repositories (line :: rest)
  = (fst (fst (read_choice repositories rest)),
     snd (fst (read_choice repositories rest)),
     S (snd (read_choice repositories rest))).
Proof.
  unfold UserInteraction.rejected. cbn [UserInteraction.read_choice].
  destruct (String.eqb _ "q"); [discriminate|].
  destruct (String.eqb _ "r"); [discriminate|]. cbn [negb andb].
  destruct (UserInteraction.isdigit _).
  - destruct (py_int _) as [n|]; [|discriminate].
    intros H. apply negb_true_iff in H. rewrite H.
    now destruct (read_choice repositories rest) as [[r u] k].
  - intros _. now destruct (read_choice repositories rest) as [[r u] k].
Qed.

Lemma read_choice_decided (repositories : list R) (line : string)
  (rest : list string) :
  rejected repositories line = false ->
  read_choice repositories (line :: rest)
  = (fst (fst (read_choice repositories [line])), rest, 0).
Proof.
  unfold UserInteraction.rejected. cbn [UserInteraction.read_choice].
  destruct (String.eqb _ "q"); [reflexivity|].
  destruct (String.eqb _ "r"); [reflexivity|]. cbn [negb andb].
  destruct (UserInteraction.isdigit _); [|discriminate].
  destruct (py_int _) as [n|]; [|reflexivity].
  intros H. apply negb_false_iff in H. now rewrite H.
Qed.

(** The first line that is not answered with "Invalid choice" decides:
    the lines before it cost one notice each, the lines after it are
    not read, and the result is the one this line alone would give. *)
Theorem read_choice_first_accepted (repositories : list R)
  (skipped : list string) (line : string) (rest : list string) :
  forallb (rejected repositories) skipped = true ->
  rejected repositories line = false ->
  read_choice repositories (skipped ++ line :: rest)%list
  = (fst (fst (read_choice repositories [line])), rest, List.length skipped).
Proof.
  intros S A. induction skipped as [|l skipped IH]; cbn [app List.length].
  - now apply read_choice_decided.
  - cbn [forallb] in S. apply andb_prop in S. destruct S as [S1 S2].
    rewrite (read_choice_again _ _ _ S1), (IH S2). reflexivity.
Qed.

(** Whatever is typed, a choice that is returned is "exit", "refine",
    or the "download" of a repository of the list: the one at position
    [n] counted from 1, for a line typed that [int] reads as [n] with
    [1 <= n <= len(repositories)]. *)
Theorem read_choice_is_valid (repositories : list R) (inputs : list string)
  (choice : UserInteraction.UserChoice R) (unread : list string) (notices : nat) :
  read_choice repositories inputs = (Returned choice, unread, notices) ->
  choice = UserInteraction.mkUserChoice "exit" None
  \/ choice = UserInteraction.mkUserChoice "refine" None
  \/ exists r line n,
       choice = UserInteraction.mkUserChoice "download" (Some r)
       /\ In line inputs
       /\ py_int (PyStr.lower (PyStr.strip line)) = Some n
       /\ (1 <= n <= Z.of_nat (List.length repositories))%Z
       /\ nth_error repositories (Z.to_nat (n - 1)) = Some r
       /\ In r repositories.
Proof.
  revert unread notices. induction inputs as [|line rest IH]; intros unread notices.
  - cbn. discriminate.
  - cbn [UserInteraction.read_choice].
    assert (Again : (let '(result, u, k) := read_choice repositories rest in
                     (result, u, S k)) = (Returned choice, unread, notices) ->
                    choice = UserInteraction.mkUserChoice "exit" None
                    \/ choice = UserInteraction.mkUserChoice "refine" None
                    \/ exists r l n,
                         choice = UserInteraction.mkUserChoice "download" (Some r)
                         /\ In l (line :: rest)
                         /\ py_int (PyStr.lower (PyStr.strip l)) = Some n
                         /\ (1 <= n <= Z.of_nat (List.length repositories))%Z
                         /\ nth_error repositories (Z.to_nat (n - 1)) = Some r
                         /\ In r repositories).
    { destruct (read_choice repositories rest) as [[result u] k] eqn:E.
      intros H. inversion H; subst.
      destruct (IH _ _ eq_refl) as [X|[X|(r & l & n & X1 & X2 & X3)]]; auto.
      right. right. exists r, l, n. split; [exact X1|]. split; [now right | exact X3]. }
    destruct (String.eqb _ "q"); [intros H; inversion H; auto|].
    destruct (String.eqb _ "r"); [intros H; inversion H; auto|].
    destruct (UserInteraction.isdigit _); [|exact Again].
    destruct (py_int (PyStr.lower (PyStr.strip line))) as [n|] eqn:P;
      [|discriminate].
    destruct ((0 <=? n - 1) && (n - 1 <? Z.of_nat (List.length repositories)))%Z
      eqn:B; [|exact Again].
    apply andb_prop in B. destruct B as [B1 B2].
    apply Z.leb_le in B1. apply Z.ltb_lt in B2.
    intros H. inversion H; subst. right. right.
    destruct (nth_error repositories (Z.to_nat (n - 1))) as [r|] eqn:N.
    + exists r, line, n. split; [reflexivity|]. split; [now left|].
      split; [exact P|]. split; [lia|]. split; [exact N|].
      now apply nth_error_In in N.
    + apply nth_error_None in N. lia.
Qed.

End UserChoices.

Lemma read_choice_first_accepted_witness :
  UserInteraction.read_choice string Settings.decimal
    ["left-pad"; "jest"; "rimraf"] ["x"; "7"; " 2 "; "q"]
  = (Returned (UserInteraction.mkUserChoice "download" (Some "jest")), ["q"], 2).
Proof.
  apply (read_choice_first_accepted string Settings.decimal
           ["left-pad"; "jest"; "rimraf"] ["x"; "7"] " 2 " ["q"]);
    reflexivity.
Defined.

Lemma read_choice_is_valid_witness :
  UserInteraction.mkUserChoice "download" (Some "jest")
  = UserInteraction.mkUserChoice "exit" None
  \/ UserInteraction.mkUserChoice "download" (Some "jest")
     = UserInteraction.mkUserChoice "refine" None
  \/ exists r line n,
       UserInteraction.mkUserChoice "download" (Some "jest")
       = UserInteraction.mkUserChoice "download" (Some r)
       /\ In line ["x"; "7"; " 2 "; "q"]
       /\ Settings.decimal (PyStr.lower (PyStr.strip line)) = Some n
       /\ (1 <= n <= Z.of_nat (List.length ["left-pad"; "jest"; "rimraf"]))%Z
       /\ nth_error ["left-pad"; "jest"; "rimraf"] (Z.to_nat (n - 1)) = Some r
       /\ In r ["left-pad"; "jest"; "rimraf"].
Proof.
  apply (read_choice_is_valid string Settings.decimal
           ["left-pad"; "jest"; "rimraf"] ["x"; "7"; " 2 "; "q"]
           (UserInteraction.mkUserChoice "download" (Some "jest")) ["q"] 2).
  reflexivity.
Defined.

(** * The refined query *)

Lemma rbind_ok {A B} (r : result A) (k : A -> result B) (b : B) :
  rbind r k = Ok b -> exists a, r = Ok a /\ k a = Ok b.
Proof. destruct r as [a|e]; cbn; [eauto | discriminate]. Qed.

Lemma strings_of_strings (l : list string) :
  QueryProcessor.strings_of (map PStr l) = Ok l.
Proof.
  induction l as [|s l IH]; cbn [map QueryProcessor.strings_of]; [reflexivity|].
  now rewrite IH.
Qed.

Lemma covered_strings (s : string) (terms : list string) :
  QueryProcessor.covered (PStr s) (map PStr terms)
  = Ok (existsb (fun q => PyStr.contains (PyStr.lower s) (PyStr.lower q)) terms).
Proof.
  induction terms as [|q terms IH];
    cbn [map QueryProcessor.covered existsb QueryProcessor.py_lower rbind];
    [reflexivity|].
  destruct (PyStr.contains (PyStr.lower s) (PyStr.lower q)); [reflexivity|].
  exact IH.
Qed.

Lemma uncovered_strings (candidates terms : list string) :
  QueryProcessor.uncovered (map PStr candidates) (map PStr terms)
  = Ok (map PStr (filter (QueryProcessor.is_new terms) candidates)).
Proof.
  induction candidates as [|s candidates IH];
    cbn [map QueryProcessor.uncovered filter]; [reflexivity|].
  rewrite covered_strings, IH. cbn [rbind]. unfold QueryProcessor.is_new.
  destruct (existsb _ terms); reflexivity.
Qed.

Lemma string_app_empty (s : string) : s ++ "" = s.
Proof. induction s as [|c s IH]; cbn; [reflexivity | now rewrite IH]. Qed.

Section RefinedQuery.

Variable num_truthy : string -> bool.

Local Notation refine_query := (QueryProcessor._build_refined_query num_truthy).

(** A refined query that is returned has no white space at either
    end. *)
Theorem refined_query_is_stripped (primary secondary : list (string * pyobj))
  (query : string) :
  refine_query primary secondary = Ok query -> PyStr.strip query = query.
Proof.
  unfold QueryProcessor._build_refined_query. intros H.
  repeat (apply rbind_ok in H; destruct H as (? & _ & H)).
  inversion H. apply strip_idempotent.
Qed.

(** On analysis results in the format the prompts ask for, the refined
    query is, joined by single spaces and stripped: the keywords, the
    technologies, the relevant terms, then the first two suggestions
    that are new (lower-cased, part of none of those terms), then the
    constraints. *)
Theorem refined_query_of_formatted_analysis
  (keywords technologies relevant_terms constraints suggestions : list string) :
  refine_query
    (QueryProcessor.primary_of keywords technologies relevant_terms constraints)
    (QueryProcessor.secondary_of suggestions)
  = Ok (PyStr.strip
          (QueryProcessor.join " "
             (keywords ++ technologies ++ relevant_terms
              ++ firstn 2
                   (filter (QueryProcessor.is_new
                              (keywords ++ technologies ++ relevant_terms))
                           suggestions))%list
           ++ match constraints with
              | [] => ""
              | _ => " " ++ QueryProcessor.join " " constraints
              end)).
Proof.
  unfold QueryProcessor._build_refined_query, QueryProcessor.primary_of,
    QueryProcessor.secondary_of, QueryProcessor.extend_from.
  cbn [lookup String.eqb Ascii.eqb Bool.eqb py_get rbind QueryProcessor.py_iter app].
  rewrite <- !map_app. rewrite uncovered_strings. cbn [rbind].
  rewrite firstn_map, <- map_app. rewrite strings_of_strings. cbn [rbind].
  rewrite <- !app_assoc.
  destruct constraints as [|c cs].
  - cbn [map QueryProcessor.py_truthy rbind]. now rewrite string_app_empty.
  - cbn [map QueryProcessor.py_truthy rbind].
    change (PStr c :: map PStr cs) with (map PStr (c :: cs)).
    rewrite strings_of_strings. reflexivity.
Qed.

End RefinedQuery.

Lemma refined_query_is_stripped_witness :
  PyStr.strip "strict mode" = "strict mode".
Proof.
  apply (refined_query_is_stripped (fun _ => true)
           (QueryProcessor.primary_of [] [] [] ["strict"; "mode"])
           (QueryProcessor.secondary_of [])).
  reflexivity.
Defined.

Example refined_query_drops_known_suggestions :
  QueryProcessor._build_refined_query (fun _ => true)
    (QueryProcessor.primary_of ["web framework"] ["Python"] ["REST"] ["MIT"])
    (QueryProcessor.secondary_of ["python"; "async"; "rest"; "orm"; "cli"])
  = Ok "web framework Python REST async orm MIT".
Proof. reflexivity. Qed.

(** * The result cache *)

Lemma lookup_dict_set {A} (key : string) (value : A) (d : list (string * A)) :
  lookup key (Cache.dict_set key value d) = Some value.
Proof.
  induction d as [|[k v] rest IH]; cbn.
  - now rewrite String.eqb_refl.
  - destruct (String.eqb k key) eqn:E; cbn; rewrite E; [reflexivity | exact IH].
Qed.

Lemma lookup_dict_pop {A} (key : string) (d : list (string * A)) :
  lookup key (Cache.dict_pop key d) = None.
Proof.
  induction d as [|[k v] rest IH]; cbn; [reflexivity|].
  destruct (String.eqb k key) eqn:E; cbn; [exact IH | now rewrite E].
Qed.

Lemma dict_pop_absent {A} (key : string) (d : list (string * A)) :
  lookup key d = None -> Cache.dict_pop key d = d.
Proof.
  induction d as [|[k v] rest IH]; cbn; [reflexivity|].
  destruct (String.eqb k key); [discriminate|].
  intros H. now rewrite IH.
Qed.

Section ResultCache.

Variable D : Type.
Variable file_exists : string -> D -> bool.
Variable read_text : string -> D -> option string.
Variable write_text : string -> string -> D -> D * option string.
Variable remove : string -> D -> D * option string.
Variable json_dumps : pyobj -> string.
Variable json_loads : string -> option pyobj.
Variable isoformat : Z -> string.
Variable fromisoformat : string -> option Z.

Local Notation get_cached_result :=
  (Cache.get_cached_result D file_exists read_text remove json_loads fromisoformat).
Local Notation cache_result :=
  (Cache.cache_result D write_text json_dumps isoformat).
Local Notation invalidate_cache :=
  (Cache.invalidate_cache D file_exists remove).
Local Notation _is_cache_expired :=
  (Cache._is_cache_expired D read_text json_loads fromisoformat).
Local Notation stamped := (Cache.stamped isoformat).

(** What [cache_result] has stored is what the same manager gives back,
    at any later time and whether or not the cache file could be
    written: the memory cache is filled before the file is opened, and
    a lookup that finds the entry there reads neither the clock nor the
    disk. *)
Theorem cached_result_served_from_memory
  (m : Cache.manager) (now later : Z) (key category : string)
  (data : list (string * pyobj)) (d : D) :
  let '(_, m1, d1) := cache_result m now key data category d in
  get_cached_result m1 later key category d1
  = (Returned (stamped now data), m1, d1).
Proof.
  unfold Cache.cache_result.
  destruct (write_text _ _ d) as [d1 [what|]];
    unfold Cache.get_cached_result, Cache.get_try; cbn [Cache.memory_cache Cache.with_memory];
    now rewrite lookup_dict_set.
Qed.


(** A cache file whose time stamp is older than the time-to-live is not
    served: with no entry in memory, the lookup removes the file and
    returns [None]. *)
Theorem stale_cache_file_is_removed
  (m : Cache.manager) (later cached_at : Z) (key category text stamp : string)
  (items : list (string * pyobj)) (d d' : D)
  (path := Cache.cache_file m category key)
  (missed : lookup (Cache.memory_key category key) (Cache.memory_cache m) = None)
  (present : file_exists path d = true)
  (readable : read_text path d = Some text)
  (decoded : json_loads text = Some (PDict items))
  (stamp_of : lookup "_cached_at" items = Some (PStr stamp))
  (parsed : fromisoformat stamp = Some cached_at)
  (stale : (Cache.cache_ttl m * 1000000 < later - cached_at)%Z)
  (removed : remove path d = (d', None)) :
  get_cached_result m later key category d = (Returned PNone, m, d').
Proof.
  unfold Cache.get_cached_result, Cache.get_try. rewrite missed.
  fold path. rewrite present. cbn [negb].
  unfold Cache._is_cache_expired. rewrite readable, decoded, stamp_of, parsed.
  replace (Cache.cache_ttl m * 1000000 <? later - cached_at)%Z with true
    by (symmetry; apply Z.ltb_lt; exact stale).
  replace (if Cache.timedelta_ok (Cache.cache_ttl m) then true else true)
    with true by (now destruct (Cache.timedelta_ok (Cache.cache_ttl m))).
  unfold Cache.invalidate_cache, Cache.invalidate_try. fold path.
  rewrite present, removed, (dict_pop_absent _ _ missed).
  now destruct m.
Qed.

(** A cache file that cannot be read or decoded is no error: with no
    entry in memory, the lookup removes the file and returns [None]. *)
Theorem undecodable_cache_file_is_removed
  (m : Cache.manager) (later : Z) (key category : string) (d d' : D)
  (path := Cache.cache_file m category key)
  (missed : lookup (Cache.memory_key category key) (Cache.memory_cache m) = None)
  (present : file_exists path d = true)
  (undecodable : match read_text path d with
                 | Some text => json_loads text = None
                 | None => True
                 end)
  (removed : remove path d = (d', None)) :
  get_cached_result m later key category d = (Returned PNone, m, d').
Proof.
  unfold Cache.get_cached_result, Cache.get_try. rewrite missed.
  fold path. rewrite present. cbn [negb].
  assert (X : _is_cache_expired m later path d = true).
  { unfold Cache._is_cache_expired.
    destruct (read_text path d) as [text|]; [|reflexivity].
    now rewrite undecodable. }
  rewrite X.
  unfold Cache.invalidate_cache, Cache.invalidate_try. fold path.
  rewrite present, removed, (dict_pop_absent _ _ missed).
  now destruct m.
Qed.

(** After an invalidation that did not raise, the entry is gone from
    memory and from disk: on a disk where a removed file exists no
    more, the next lookup returns [None] and changes nothing. *)
Theorem invalidated_entry_is_missed
  (m m' : Cache.manager) (later : Z) (key category : string) (d d' : D)
  (removal :
     forall d0 d1, remove (Cache.cache_file m category key) d0 = (d1, None) ->
                   file_exists (Cache.cache_file m category key) d1 = false)
  (invalidated : invalidate_cache m key category d = (Returned tt, m', d')) :
  get_cached_result m' later key category d' = (Returned PNone, m', d').
Proof.
  revert invalidated.
  unfold Cache.invalidate_cache, Cache.invalidate_try.
  destruct (file_exists (Cache.cache_file m category key) d) eqn:E.
  - destruct (remove (Cache.cache_file m category key) d) as [d1 [what|]] eqn:R;
      intros I; inversion I; subst.
    unfold Cache.get_cached_result, Cache.get_try.
    cbn [Cache.memory_cache Cache.with_memory]. rewrite lookup_dict_pop.
    change (Cache.cache_file (Cache.with_memory m _) category key)
      with (Cache.cache_file m category key).
    now rewrite (removal _ _ R).
  - intros I; inversion I; subst.
    unfold Cache.get_cached_result, Cache.get_try.
    cbn [Cache.memory_cache Cache.with_memory]. rewrite lookup_dict_pop.
    change (Cache.cache_file (Cache.with_memory m _) category key)
      with (Cache.cache_file m category key).
    now rewrite E.
Qed.

End ResultCache.

Lemma flat_remove_gone (path : string) (d0 d1 : Cache.flat_disk) :
  Cache.flat_remove path d0 = (d1, None) -> Cache.flat_exists path d1 = false.
Proof.
  intros H. inversion H. unfold Cache.flat_exists. now rewrite lookup_dict_pop.
Qed.


Lemma stale_cache_file_is_removed_witness :
  Cache.get_cached_result Cache.flat_disk Cache.flat_exists lookup
    Cache.flat_remove Cache.sample_loads Cache.sample_fromiso
    Cache.sample_manager 3600000001 "left-pad" "repositories"
    [(".cache/repositories/left-pad.json", "document")]
  = (Returned PNone, Cache.sample_manager, []).
Proof.
  apply (stale_cache_file_is_removed Cache.flat_disk Cache.flat_exists lookup
           Cache.flat_remove Cache.sample_loads Cache.sample_fromiso
           Cache.sample_manager 3600000001 0 "left-pad" "repositories" "document"
           "2024-01-01T00:00:00"
           [("stars", PNum "42"); ("_cached_at", PStr "2024-01-01T00:00:00")]);
    reflexivity.
Defined.

Lemma undecodable_cache_file_is_removed_witness :
  Cache.get_cached_result Cache.flat_disk Cache.flat_exists lookup
    Cache.flat_remove Cache.sample_loads Cache.sample_fromiso
    Cache.sample_manager 1 "left-pad" "repositories"
    [(".cache/repositories/left-pad.json", "{")]
  = (Returned PNone, Cache.sample_manager, []).
Proof.
  apply (undecodable_cache_file_is_removed Cache.flat_disk Cache.flat_exists lookup
           Cache.flat_remove Cache.sample_loads Cache.sample_fromiso
           Cache.sample_manager 1 "left-pad" "repositories");
    reflexivity.
Defined.

Lemma invalidated_entry_is_missed_witness :
  Cache.get_cached_result Cache.flat_disk Cache.flat_exists lookup
    Cache.flat_remove Cache.sample_loads Cache.sample_fromiso
    Cache.sample_manager 1 "left-pad" "repositories" []
  = (Returned PNone, Cache.sample_manager, []).
Proof.
  apply (invalidated_entry_is_missed Cache.flat_disk Cache.flat_exists lookup
           Cache.flat_remove Cache.sample_loads Cache.sample_fromiso
           (Cache.with_memory Cache.sample_manager
              [("repositories:left-pad", PDict Cache.sample_data)])
           Cache.sample_manager 1 "left-pad" "repositories"
           [(".cache/repositories/left-pad.json", "document")] []).
  - apply flat_remove_gone.
  - reflexivity.
Defined.

(** With a cache directory that is missing, [cache_result] raises and
    the result is served all the same. *)
Example unwritten_result_is_served :
  let '(o, m1, d1) :=
    Cache.cache_result Cache.flat_disk Cache.refusing_write Cache.sample_dumps
      Cache.sample_iso Cache.sample_manager 0 "left-pad" Cache.sample_data
      "repositories" [] in
  o = Raised (Cache.CacheError "Failed to cache result: "
                (Some (Cache.OSError "No such file or directory")))
  /\ Cache.get_cached_result Cache.flat_disk Cache.flat_exists lookup
       Cache.flat_remove Cache.sample_loads Cache.sample_fromiso
       m1 9999999999 "left-pad" "repositories" d1
     = (Returned (Cache.stamped Cache.sample_iso 0 Cache.sample_data), m1, d1).
Proof. split; reflexivity. Qed.

(** A time-to-live of 86400000000000 seconds or more is one no
    [timedelta] holds: the check for expiry fails, counts as expired,
    and a file written a moment ago is removed instead of served. *)
Example oversized_ttl_expires_fresh_file :
  Cache.get_cached_result Cache.flat_disk Cache.flat_exists lookup
    Cache.flat_remove Cache.sample_loads Cache.sample_fromiso
    {| Cache.cache_dir := ".cache"; Cache.cache_ttl := 86400000000000;
       Cache.memory_cache := [] |}
    1 "left-pad" "repositories"
    [(".cache/repositories/left-pad.json", "document")]
  = (Returned PNone,
     {| Cache.cache_dir := ".cache"; Cache.cache_ttl := 86400000000000;
        Cache.memory_cache := [] |},
     []).
Proof. reflexivity. Qed.
